(** * ag360: the irrigation controller and its threshold model

    A shallow embedding of

    - [backend/src/services/thresholdService.js]   ([Threshold.computeThreshold]),
    - [frontend/src/utils/threshold.js]            ([Frontend.computeThreshold]),
    - [backend/src/models/DeviceState.js] and
      [backend/src/models/IrrigationEvent.js]      (the two Mongoose schemas),
    - [backend/src/services/controllerService.js]  ([publishManyFormats],
      [persistEvent], [handleTelemetryMessage]),
    - [backend/src/lib/mqttClient.js]              ([subscribe]),
    - [backend/src/routes/irrigationDebug.js]      ([IrrigationDebug.force_state]),
    - [backend/scripts/seedCrops.js] and
      [backend/src/models/CropProfile.js]          ([SeedCrops.seed]),
    - [frontend/src/pages/IrrigationControl.js]    ([IrrigationControl.runAutoCheck],
      [forceAction], [manualOverrideToggle], [publishRelay]),
    - [frontend/src/components/AutoMode.js]        ([AutoMode.summary]),

    followed by the properties of the control loop.

    Conventions of the embedding.

    - JavaScript numbers that carry measurements (soil moisture, temperature,
      rain, crop parameters) are modelled by exact rationals [Q]; the
      constants [0.1], [0.8], [0.9] and [0.75] are the rationals they denote.
      [Math.round] is [floor (x + 1/2)], which is how ECMAScript rounds ties
      (towards plus infinity).  Every operation of the threshold formula is
      monotone in doubles as it is in rationals, and [Binary64] runs the
      formula on doubles for the worked examples.
    - Timestamps are integers [Z] (milliseconds, as [Date.now()] returns them);
      a [Date] field that is [null] or absent is [None].
    - A JavaScript property that is absent, [undefined] or [null] is [None].
    - Strings stay strings: action names, reason codes, topics and schema
      paths are compared as the source compares them.  A string is the
      sequence of the bytes of its UTF-8 encoding; [toLowerCase] is
      modelled on the ASCII letters.
    - The MQTT broker, the weather service and the clock are the environment
      of a decision cycle and are passed in explicitly.
    - Calls to the database succeed; what they store and return is decided
      by the schemas.
    - [handleTelemetryMessage] is the whole cycle of one message, from
      parsing to the event handed to the log.  Statements about several
      deliveries are about deliveries handled in turn ([run_in_turn]); the
      listener does not wait for a cycle to end, and what an overlap of two
      cycles does is shown on one execution ([overlap_w2]).
    - Objects used as tables ([zoneToTopic], [cropDefaults]) are looked up by
      the keys the code writes into them; properties inherited from
      [Object.prototype] are not modelled. *)

From Stdlib Require Import ZArith QArith Qround Qminmax Qabs Lqa Lia Ascii String.
From Stdlib Require Import Floats.PrimFloat Floats.FloatOps Floats.SpecFloat.
From stdpp Require Import gmap strings list fin_maps pretty sorting.

Close Scope Q_scope.
Open Scope Z_scope.

(** * The model *)

(** ** JavaScript helpers *)

(** [a ?? b] on an optional value with a default. *)
Definition nullish {A} (a : option A) (b : A) : A :=
  match a with Some v => v | None => b end.

(** [a ?? b] when [b] may itself be missing. *)
Definition nullish_opt {A} (a b : option A) : option A :=
  match a with Some v => Some v | None => b end.

Infix "??" := nullish (at level 45, left associativity).

(** Truthiness of a number: [0] is falsy. *)
Definition truthyQ (q : Q) : bool := negb (Qeq_bool q 0).

(** Truthiness of an optional number. *)
Definition truthy_optQ (o : option Q) : bool :=
  match o with Some q => truthyQ q | None => false end.

(** Truthiness of an optional string: the empty string is falsy. *)
Definition truthy_str (o : option string) : bool :=
  match o with Some s => negb (String.eqb s "") | None => false end.

(** [a || b] on optional strings. *)
Definition or_str (a b : option string) : option string :=
  if truthy_str a then a else b.

(** [x || 0] on an optional number. *)
Definition or_zero (o : option Q) : Q :=
  match o with Some q => if truthyQ q then q else 0%Q | None => 0%Q end.

(** [Math.round]: nearest integer, ties towards plus infinity. *)
Definition Math_round (x : Q) : Z := Qfloor (x + (1 # 2))%Q.

(** [String.prototype.toLowerCase] on ASCII letters. *)
Definition lower_ascii (c : ascii) : ascii :=
  let n := nat_of_ascii c in
  if (Nat.leb 65 n && Nat.leb n 90)%bool then ascii_of_nat (n + 32) else c.

Fixpoint toLowerCase (s : string) : string :=
  match s with
  | EmptyString => EmptyString
  | String c r => String (lower_ascii c) (toLowerCase r)
  end.

(** ** Crop profiles, forecasts and the threshold result *)

(** A crop profile object; every property may be missing. *)
Record CropProfile := mkCrop {
  name : option string;
  Kc : option Q;
  targetFraction : option Q;
  rootDepth_cm : option Q;
  fieldCapacityPct : option Q;
  wiltingPointPct : option Q;
  hysteresisPct : option Q
}.

(** [{ ...a, ...b }]: the properties of [b] win where [b] has them. *)
Definition spread (a b : CropProfile) : CropProfile :=
  {| name := nullish_opt (name b) (name a);
     Kc := nullish_opt (Kc b) (Kc a);
     targetFraction := nullish_opt (targetFraction b) (targetFraction a);
     rootDepth_cm := nullish_opt (rootDepth_cm b) (rootDepth_cm a);
     fieldCapacityPct := nullish_opt (fieldCapacityPct b) (fieldCapacityPct a);
     wiltingPointPct := nullish_opt (wiltingPointPct b) (wiltingPointPct a);
     hysteresisPct := nullish_opt (hysteresisPct b) (hysteresisPct a) |}.

(** One entry of [forecast.daily]. *)
Record Daily := mkDaily { rain : option Q }.

(** An openweather-like forecast: [daily] and [current.temp]. *)
Record Forecast := mkForecast {
  daily : option (list Daily);
  current_temp : option Q
}.

(** The telemetry object handed to [computeThreshold]. *)
Record Telemetry := mkTelemetry {
  t_soilPct : option Q;
  t_temperature : option Q;
  t_humidity : option Q
}.

(** The [details] object of a threshold result. *)
Record Details := mkDetails {
  d_ETo : Q;
  d_ETc : Q;
  d_rain24 : Q;
  d_rainEff : Q;
  d_deltaPct : Q;
  d_baselinePct : Q;
  d_fieldCapacityPct : Q;
  d_wiltingPointPct : Q;
  d_rootDepth_cm : Q;
  d_Kc : Q;
  d_hysteresisPct : Q
}.

Record ThresholdResult := mkThreshold {
  threshold_on : Z;
  threshold_off : Z;
  details : Details
}.

(** [forecast.daily[0].rain || 0] under the guard
    [forecast && forecast.daily && forecast.daily.length > 0]. *)
Definition rain24_of (forecast : option Forecast) : Q :=
  match forecast with
  | Some f =>
      match daily f with
      | Some (d0 :: _) => or_zero (rain d0)
      | _ => 0%Q
      end
  | None => 0%Q
  end.

(** [forecast?.current?.temp]. *)
Definition current_temp_of (forecast : option Forecast) : option Q :=
  match forecast with
  | Some f => current_temp f
  | None => None
  end.

(** [telemetry?.temperature ?? (forecast?.current?.temp ?? 25)]. *)
Definition tDay_of (telemetry : Telemetry) (forecast : option Forecast) : Q :=
  t_temperature telemetry ?? (current_temp_of forecast ?? 25%Q).

(** The collection of crop profiles, keyed by name. *)
Abbreviation CropDb := (gmap string CropProfile).

Module Threshold.

(** The profile after the optional merge with the stored one:
    [if (profile.name && !profile.Kc) { fromDb = findOne(name.toLowerCase());
     if (fromDb) profile = { ...fromDb, ...profile } }]. *)
Definition mergeProfile (crops : CropDb) (cropProfile : CropProfile) : CropProfile :=
  let profile := cropProfile in
  if (truthy_str (name profile) && negb (truthy_optQ (Kc profile)))%bool then
    match crops !! toLowerCase (name profile ?? ""%string) with
    | Some fromDb => spread fromDb profile
    | None => profile
    end
  else profile.

(** [computeThreshold] of thresholdService.js. *)
Definition computeThreshold (crops : CropDb) (telemetry : Telemetry)
    (forecast : option Forecast) (cropProfile : CropProfile) : ThresholdResult :=
  let profile := mergeProfile crops cropProfile in
  let fieldCapacityPct := fieldCapacityPct profile ?? 40%Q in
  let wiltingPointPct := wiltingPointPct profile ?? 10%Q in
  let rootDepth_cm := rootDepth_cm profile ?? 30%Q in
  let Kc := Kc profile ?? (9 # 10)%Q in
  let targetFraction := targetFraction profile ?? (3 # 4)%Q in
  let hysteresisPct := hysteresisPct profile ?? 5%Q in
  let rain24 := rain24_of forecast in
  let tDay := tDay_of telemetry forecast in
  let ETo := Qmax 0 ((1 # 10) * (tDay - 10))%Q in
  let ETc := (ETo * Kc)%Q in
  let rainEff := (rain24 * (4 # 5))%Q in
  let water_deficit_mm := Qmax 0 (ETc - rainEff)%Q in
  let mmPerPct := Qmax 5 ((rootDepth_cm * 10) / 10)%Q in
  let deltaPct := (water_deficit_mm / mmPerPct)%Q in
  let baselinePct := (fieldCapacityPct * targetFraction)%Q in
  let safetyMargin := 3%Q in
  let raw_threshold_on := (baselinePct + deltaPct)%Q in
  let threshold_on :=
    Math_round (Qmax (wiltingPointPct + safetyMargin)
                     (Qmin (fieldCapacityPct - safetyMargin) raw_threshold_on))%Q in
  let threshold_off :=
    Math_round (Qmin 100 (inject_Z threshold_on + hysteresisPct))%Q in
  {| threshold_on := threshold_on;
     threshold_off := threshold_off;
     details := {| d_ETo := ETo; d_ETc := ETc; d_rain24 := rain24;
                   d_rainEff := rainEff; d_deltaPct := deltaPct;
                   d_baselinePct := baselinePct;
                   d_fieldCapacityPct := fieldCapacityPct;
                   d_wiltingPointPct := wiltingPointPct;
                   d_rootDepth_cm := rootDepth_cm; d_Kc := Kc;
                   d_hysteresisPct := hysteresisPct |} |}.

End Threshold.

Module Frontend.

(** [clamp(v, a, b) = Math.max(a, Math.min(b, v))]. *)
Definition clamp (v a b : Q) : Q := Qmax a (Qmin b v).

(** [computeThreshold] of frontend/src/utils/threshold.js: no stored
    profile, and [threshold_off] is clamped from below by [threshold_on]. *)
Definition computeThreshold (telemetry : Telemetry)
    (forecast : option Forecast) (cropProfile : CropProfile) : ThresholdResult :=
  let fieldCapacityPct := fieldCapacityPct cropProfile ?? 40%Q in
  let wiltingPointPct := wiltingPointPct cropProfile ?? 10%Q in
  let rootDepth_cm := rootDepth_cm cropProfile ?? 30%Q in
  let Kc := Kc cropProfile ?? (9 # 10)%Q in
  let targetFraction := targetFraction cropProfile ?? (3 # 4)%Q in
  let hysteresisPct := hysteresisPct cropProfile ?? 5%Q in
  let rain24 := rain24_of forecast in
  let tDay := tDay_of telemetry forecast in
  let ETo := Qmax 0 ((1 # 10) * (tDay - 10))%Q in
  let ETc := (ETo * Kc)%Q in
  let rainEff := (rain24 * (4 # 5))%Q in
  let water_deficit_mm := Qmax 0 (ETc - rainEff)%Q in
  let mmPerPct := Qmax 5 ((rootDepth_cm * 10) / 10)%Q in
  let deltaPct := (water_deficit_mm / mmPerPct)%Q in
  let baselinePct := (fieldCapacityPct * targetFraction)%Q in
  let safetyMargin := 3%Q in
  let threshold_on :=
    Math_round (clamp (baselinePct + deltaPct) (wiltingPointPct + safetyMargin)
                      (fieldCapacityPct - safetyMargin))%Q in
  let threshold_off :=
    Math_round (clamp (inject_Z threshold_on + hysteresisPct)
                      (inject_Z threshold_on) 100)%Q in
  {| threshold_on := threshold_on;
     threshold_off := threshold_off;
     details := {| d_ETo := ETo; d_ETc := ETc; d_rain24 := rain24;
                   d_rainEff := rainEff; d_deltaPct := deltaPct;
                   d_baselinePct := baselinePct;
                   d_fieldCapacityPct := fieldCapacityPct;
                   d_wiltingPointPct := wiltingPointPct;
                   d_rootDepth_cm := rootDepth_cm; d_Kc := Kc;
                   d_hysteresisPct := hysteresisPct |} |}.

End Frontend.

(** *** The same arithmetic on IEEE-754 doubles

    JavaScript numbers are binary64 floating-point values.  [thresholds] is
    the arithmetic of [computeThreshold] on them, from [const ETo] on, with
    the parameters already resolved.  It is run on the inputs of the worked
    examples, to check that there the doubles give the thresholds that the
    rational model gives.  (The sign of a zero result is not tracked.) *)

Module Binary64.

(** [Math.max] and [Math.min]: [NaN] if an argument is. *)
Definition Math_max (a b : float) : float :=
  if (is_nan a || is_nan b)%bool then nan else if ltb a b then b else a.

Definition Math_min (a b : float) : float :=
  if (is_nan a || is_nan b)%bool then nan else if ltb b a then b else a.

(** The double that is the integer [z] (exact below [2^53]). *)
Definition of_Z (z : Z) : float :=
  match z with
  | Z0 => zero
  | Zpos p => SF2Prim (S754_finite false p 0)
  | Zneg p => SF2Prim (S754_finite true p 0)
  end.

(** [Math.round]: a double [m * 2^e] with [e >= 0] is an integer already;
    otherwise the result is [floor (x + 1/2)], computed exactly. *)
Definition Math_round (x : float) : float :=
  match Prim2SF x with
  | S754_finite s m e =>
      if 0 <=? e then x
      else
        let k := - e in
        let sm := if s then Z.neg m else Z.pos m in
        of_Z ((2 * sm + 2 ^ k) / 2 ^ (k + 1))
  | _ => x
  end.

(** The integer a double is, if it is one. *)
Definition to_Z (x : float) : option Z :=
  match Prim2SF x with
  | S754_zero _ => Some 0
  | S754_finite s m e =>
      let sm := if s then Z.neg m else Z.pos m in
      if 0 <=? e then Some (sm * 2 ^ e)
      else if sm mod 2 ^ (- e) =? 0 then Some (sm / 2 ^ (- e))
      else None
  | _ => None
  end.

(** The doubles nearest to [0.1], [0.8] and [0.9]. *)
Definition d0_1 : float := 0x1.999999999999ap-4.
Definition d0_8 : float := 0x1.999999999999ap-1.
Definition d0_9 : float := 0x1.ccccccccccccdp-1.

Definition thresholds (fieldCapacityPct wiltingPointPct rootDepth_cm Kc
    targetFraction hysteresisPct rain24 tDay : float) : float * float :=
  let ETo := Math_max 0 (d0_1 * (tDay - 10)) in
  let ETc := (ETo * Kc)%float in
  let rainEff := (rain24 * d0_8)%float in
  let water_deficit_mm := Math_max 0 (ETc - rainEff) in
  let mmPerPct := Math_max 5 ((rootDepth_cm * 10) / 10) in
  let deltaPct := (water_deficit_mm / mmPerPct)%float in
  let baselinePct := (fieldCapacityPct * targetFraction)%float in
  let safetyMargin := 3%float in
  let raw_threshold_on := (baselinePct + deltaPct)%float in
  let threshold_on :=
    Math_round (Math_max (wiltingPointPct + safetyMargin)
                         (Math_min (fieldCapacityPct - safetyMargin) raw_threshold_on)) in
  let threshold_off := Math_round (Math_min 100 (threshold_on + hysteresisPct)) in
  (threshold_on, threshold_off).

(** The two thresholds as integers. *)
Definition thresholds_Z (fieldCapacityPct wiltingPointPct rootDepth_cm Kc
    targetFraction hysteresisPct rain24 tDay : float) : option Z * option Z :=
  let r := thresholds fieldCapacityPct wiltingPointPct rootDepth_cm Kc
                      targetFraction hysteresisPct rain24 tDay in
  (to_Z (fst r), to_Z (snd r)).

End Binary64.

(** ** Telemetry payloads *)

(** A soil reading as it arrives: a number or a string such as ["28%"]. *)
Inductive JsSoil :=
| SoilNum (q : Q)
| SoilStr (s : string).

(** The parsed telemetry object, with the properties the controller reads. *)
Record Payload := mkPayload {
  p_deviceId : option string;
  p_zoneId : option string;
  p_id : option string;
  p_soilPct : option JsSoil;
  p_soil : option JsSoil;
  p_temperature : option Q;
  p_temp : option Q;
  p_humidity : option Q;
  p_crop : option string;
  p_cropName : option string;
  p_lat : option Q;
  p_latitude : option Q;
  p_lon : option Q;
  p_longitude : option Q
}.

(** A message as delivered by the transport: a text that is not JSON, or
    a JSON text.  The value of a JSON text is an object, of which the model
    keeps the properties the controller reads, or another value (a number,
    a string, a boolean, an array, [null]), of which it keeps whether it is
    truthy: such a value has none of those properties. *)
Inductive Message :=
| NotJson (text : string)
| JsonObject (payload : Payload)
| JsonOther (truthy : bool).

(** What [JSON.parse] returns. *)
Inductive Parsed :=
| ParsedObject (payload : Payload)
| ParsedOther (truthy : bool).

(** [safeParseJSON]: the parsed value, or [null] when [JSON.parse] throws. *)
Definition safeParseJSON (v : Message) : option Parsed :=
  match v with
  | JsonObject payload => Some (ParsedObject payload)
  | JsonOther truthy => Some (ParsedOther truthy)
  | NotJson _ => None
  end.

(** The payload without any property: what reading [payload.deviceId],
    [payload.soilPct] and the others gives on a number, a string, a boolean
    or an array. *)
Definition noProperties : Payload :=
  mkPayload None None None None None None None None None None None None None None.

(** The test [if (!payload) return]: [null] and the falsy values end the
    handler; every other value goes on as [payload]. *)
Definition truthyPayload (parsed : option Parsed) : option Payload :=
  match parsed with
  | Some (ParsedObject payload) => Some payload
  | Some (ParsedOther true) => Some noProperties
  | Some (ParsedOther false) => None
  | None => None
  end.

(** *** [Number] on strings

    [Number(raw)] follows the grammar of numeric strings: white space
    around the literal; the empty string is [0]; a decimal literal with an
    optional sign, an optional fraction and an optional exponent, or
    [Infinity] with an optional sign; or an unsigned binary, octal or
    hexadecimal integer after [0b], [0o] or [0x].  Anything else is [NaN].
    A value too large for a double is an infinity; a finite value is kept
    exact. *)

(** A JavaScript number: [NaN], an infinity, or a finite value. *)
Inductive JsNumber :=
| NaN
| Infinity (negative : bool)
| Num (q : Q).

(** The white space and line terminators of ECMAScript, as the bytes of
    their UTF-8 encoding: TAB, LF, VT, FF, CR, SP, NBSP, U+1680, U+2000 to
    U+200A, LS, PS, U+202F, U+205F, U+3000 and U+FEFF. *)
Definition whiteSpace : list (list ascii) :=
  map (map ascii_of_nat)
      ([[9]; [10]; [11]; [12]; [13]; [32]; [194; 160]; [225; 154; 128]]
       ++ map (fun n => [226; 128; n]) (seq 128 11)
       ++ [[226; 128; 168]; [226; 128; 169]; [226; 128; 175]; [226; 129; 159];
           [227; 128; 128]; [239; 187; 191]])%nat.

(** The rest of [cs] after [prefix], if it starts with it. *)
Fixpoint after_prefix (prefix cs : list ascii) : option (list ascii) :=
  match prefix, cs with
  | [], _ => Some cs
  | a :: prefix', c :: cs' => if Ascii.eqb a c then after_prefix prefix' cs' else None
  | _ :: _, [] => None
  end.

(** The rest of [cs] after one of [prefixes], if it starts with one. *)
Fixpoint after_one_of (prefixes : list (list ascii)) (cs : list ascii)
    : option (list ascii) :=
  match prefixes with
  | [] => None
  | prefix :: others =>
      match after_prefix prefix cs with
      | Some r => Some r
      | None => after_one_of others cs
      end
  end.

(** Drop leading occurrences of [prefixes]; [n] bounds their number. *)
Fixpoint dropAll (prefixes : list (list ascii)) (n : nat) (cs : list ascii)
    : list ascii :=
  match n with
  | O => cs
  | S n' =>
      match after_one_of prefixes cs with
      | Some r => dropAll prefixes n' r
      | None => cs
      end
  end.

Definition dropSpaces (cs : list ascii) : list ascii :=
  dropAll whiteSpace (length cs) cs.

(** [String.prototype.trim] on the bytes of a string. *)
Definition trimChars (cs : list ascii) : list ascii :=
  let cs := dropSpaces cs in
  rev (dropAll (map (@rev ascii) whiteSpace) (length cs) (rev cs)).

(** The value of a digit in a base up to 16. *)
Definition digit_of (base : N) (c : ascii) : option N :=
  let n := N_of_ascii c in
  let v :=
    if (N.leb 48 n && N.leb n 57)%bool then Some (n - 48)%N
    else if (N.leb 97 n && N.leb n 102)%bool then Some (n - 87)%N
    else if (N.leb 65 n && N.leb n 70)%bool then Some (n - 55)%N
    else None in
  match v with
  | Some d => if (d <? base)%N then Some d else None
  | None => None
  end.

(** Consume leading digits: their value, their number, and the rest. *)
Fixpoint digits (base : N) (cs : list ascii) (acc : N) (k : nat)
    : N * nat * list ascii :=
  match cs with
  | c :: r =>
      match digit_of base c with
      | Some d => digits base r (acc * base + d)%N (S k)
      | None => (acc, k, cs)
      end
  | [] => (acc, k, [])
  end.

(** The largest double is [2^1024 - 2^971]; a value of at least
    [2^1024 - 2^970] rounds to an infinity. *)
Definition overflows (q : Q) : bool :=
  Qle_bool (inject_Z (2 ^ 1024 - 2 ^ 970)) (Qabs q).

Definition finite_or_infinite (q : Q) : JsNumber :=
  if overflows q then Infinity (negb (Qle_bool 0 q)) else Num q.

(** [0b], [0o] and [0x] literals: digits only, at least one. *)
Definition NonDecimalIntegerLiteral (base : N) (cs : list ascii) : JsNumber :=
  match digits base cs 0%N 0%nat with
  | (v, S _, []) => finite_or_infinite (inject_Z (Z.of_N v))
  | _ => NaN
  end.

(** The exponent part, if any: [e] or [E], an optional sign, digits. *)
Definition ExponentPart (cs : list ascii) : option Z :=
  match cs with
  | [] => Some 0
  | c :: r =>
      if (Ascii.eqb c "e" || Ascii.eqb c "E")%bool then
        let '(neg, r) :=
          match r with
          | "-"%char :: r' => (true, r')
          | "+"%char :: r' => (false, r')
          | _ => (false, r)
          end in
        match digits 10 r 0%N 0%nat with
        | (v, S _, []) => Some (if neg then - Z.of_N v else Z.of_N v)
        | _ => None
        end
      else None
  end.

(** [m * 10 ^ e] *)
Definition scale (m e : Z) : Q :=
  if 0 <=? e then inject_Z (m * 10 ^ e) else Qmake m (Z.to_pos (10 ^ (- e))).

(** An unsigned decimal literal: [Infinity], or digits with an optional
    fraction and an optional exponent, with a digit before or after the
    point. *)
Definition StrUnsignedDecimalLiteral (cs : list ascii) : JsNumber :=
  if String.eqb (string_of_list_ascii cs) "Infinity" then Infinity false
  else
    let '(ip, ik, cs2) := digits 10 cs 0%N 0%nat in
    let '(fp, fk, cs3) :=
      match cs2 with
      | "."%char :: r => digits 10 r 0%N 0%nat
      | _ => (0%N, 0%nat, cs2)
      end in
    if Nat.eqb (ik + fk) 0 then NaN
    else
      match ExponentPart cs3 with
      | Some e =>
          finite_or_infinite
            (scale (Z.of_N ip * 10 ^ Z.of_nat fk + Z.of_N fp) (e - Z.of_nat fk))
      | None => NaN
      end.

Definition negate (n : JsNumber) : JsNumber :=
  match n with
  | NaN => NaN
  | Infinity negative => Infinity (negb negative)
  | Num q => Num (- q)
  end.

(** [Number] on the characters of a string. *)
Definition Number_of_chars (cs0 : list ascii) : JsNumber :=
  match trimChars cs0 with
  | [] => Num 0%Q
  | ("0"%char :: c :: r) as cs =>
      if (Ascii.eqb c "x" || Ascii.eqb c "X")%bool then NonDecimalIntegerLiteral 16 r
      else if (Ascii.eqb c "o" || Ascii.eqb c "O")%bool then NonDecimalIntegerLiteral 8 r
      else if (Ascii.eqb c "b" || Ascii.eqb c "B")%bool then NonDecimalIntegerLiteral 2 r
      else StrUnsignedDecimalLiteral cs
  | "-"%char :: r => negate (StrUnsignedDecimalLiteral r)
  | "+"%char :: r => StrUnsignedDecimalLiteral r
  | cs => StrUnsignedDecimalLiteral cs
  end.

(** [Number.isFinite(n) ? n : null] *)
Definition finite_or_null (n : JsNumber) : option Q :=
  match n with
  | Num q => Some q
  | _ => None
  end.

(** [normalizeSoil]. *)
Definition normalizeSoil (raw : option JsSoil) : option Q :=
  match raw with
  | None => None
  | Some (SoilNum n) => Some n
  | Some (SoilStr s) =>
      let cs := trimChars (list_ascii_of_string s) in
      let cs :=
        match rev cs with
        | "%"%char :: r => rev r
        | _ => cs
        end in
      finite_or_null (Number_of_chars cs)
  end.

(** ** Configuration: the environment variables and their defaults *)

Record Config := mkConfig {
  MIN_ON_MS : Z;
  MIN_INTERVAL_BETWEEN_ON_MS : Z;
  MIN_INTERVAL_AFTER_OFF_MS : Z;
  MIN_INTERVAL_BETWEEN_OFF_MS : Z;
  MQTT_RETRY_COUNT : Z;
  DEBUG_ALLOW_REON : bool;
  MAX_ON_MS : Z
}.

(** The values used when no variable is set. *)
Definition default_config : Config :=
  {| MIN_ON_MS := 60 * 1000;
     MIN_INTERVAL_BETWEEN_ON_MS := 30 * 1000;
     MIN_INTERVAL_AFTER_OFF_MS := 5 * 1000;
     MIN_INTERVAL_BETWEEN_OFF_MS := 5 * 1000;
     MQTT_RETRY_COUNT := 1;
     DEBUG_ALLOW_REON := false;
     MAX_ON_MS := 4 * 60 * 60 * 1000 |}.

(** ** The two Mongoose models *)

(** A schema is the list of its paths; Mongoose schemas are strict, so a
    property outside the schema is neither stored nor read back. *)
Definition has_path (schema : list string) (path : string) : bool :=
  existsb (String.eqb path) schema.

Definition strict {A} (schema : list string) (path : string) (v : option A) : option A :=
  if has_path schema path then v else None.

(** [DeviceStateSchema] of models/DeviceState.js. *)
Definition DeviceStateSchema : list string :=
  ["deviceId"; "relayState"; "lastActionTs"; "lastOnTs"; "lastTelemetry"]%string.

(** [IrrigationEventSchema] of models/IrrigationEvent.js. *)
Definition IrrigationEventSchema : list string :=
  ["deviceId"; "zoneId"; "action"; "reason"; "threshold_on"; "threshold_off";
   "soilPct"; "telemetry"; "forecast"; "details"; "timestamp"]%string.

(** The [enum] validator on [IrrigationEventSchema.action]. *)
Definition IrrigationEventSchema_action_enum : list string :=
  ["ON"; "OFF"; "RECOMMEND_ON"; "RECOMMEND_OFF"; "FORCE_ON"; "FORCE_OFF"]%string.

(** A DeviceState document as the controller holds it in memory: the
    properties it reads and assigns, whether or not the schema has them.
    The collection is keyed by [deviceId] (the unique path of the schema),
    so the document itself carries the other properties. *)
Record DeviceState := mkDeviceState {
  relayState : bool;
  lastActionTs : option Z;
  lastOnTs : option Z;
  lastOffTs : option Z;
  lastTelemetry : option Payload
}.

(** What [save] and [create] write, and so what [findOne] returns later:
    the schema's paths only. *)
Definition DeviceState_stored (d : DeviceState) : DeviceState :=
  {| relayState := if has_path DeviceStateSchema "relayState" then relayState d else false;
     lastActionTs := strict DeviceStateSchema "lastActionTs" (lastActionTs d);
     lastOnTs := strict DeviceStateSchema "lastOnTs" (lastOnTs d);
     lastOffTs := strict DeviceStateSchema "lastOffTs" (lastOffTs d);
     lastTelemetry := strict DeviceStateSchema "lastTelemetry" (lastTelemetry d) |}.

(** The result of [publishManyFormats]. *)
Record PublishResults := mkPublishResults {
  successes : list string;
  failures : list (string * string)
}.

(** The [extra] argument of [persistEvent]. *)
Inductive Extra :=
| ExtraNone
| ExtraPublishResults (publishResults : PublishResults)
| ExtraMinOnLeft (minOnLeft : Z)
| ExtraSinceLastOff (sinceLastOff : Z).

(** The object handed to [IrrigationEvent.create]. *)
Record IrrigationEvent := mkIrrigationEvent {
  ev_deviceId : string;
  ev_zoneId : string;
  ev_action : string;
  ev_reason : string;
  ev_threshold_on : Z;
  ev_threshold_off : Z;
  ev_soilPct : option Q;
  ev_telemetry : Payload;
  ev_forecast : option Forecast;
  ev_details : Details;
  ev_timestamp : Z;
  ev_extra : option Extra
}.

(** The stored form of an event: [extra] is not a path of the schema. *)
Definition IrrigationEvent_stored (ev : IrrigationEvent) : IrrigationEvent :=
  {| ev_deviceId := ev_deviceId ev; ev_zoneId := ev_zoneId ev;
     ev_action := ev_action ev; ev_reason := ev_reason ev;
     ev_threshold_on := ev_threshold_on ev;
     ev_threshold_off := ev_threshold_off ev;
     ev_soilPct := ev_soilPct ev; ev_telemetry := ev_telemetry ev;
     ev_forecast := ev_forecast ev; ev_details := ev_details ev;
     ev_timestamp := ev_timestamp ev;
     ev_extra := strict IrrigationEventSchema "extra" (ev_extra ev) |}.

(** [IrrigationEvent.create]: validation, then insertion.  [None] is the
    rejected promise ([ValidationError]) for an action outside the enum. *)
Definition IrrigationEvent_create (events : list IrrigationEvent)
    (ev : IrrigationEvent) : option (list IrrigationEvent) :=
  if has_path IrrigationEventSchema_action_enum (ev_action ev)
  then Some (events ++ [IrrigationEvent_stored ev])
  else None.

(** ** The world of the controller *)

(** The two collections, and two traces kept for the statements below:
    every object handed to [logIrrigationEvent], and every call of
    [mqttClient.publish] with its topic, message and whether it resolved. *)
Record World := mkWorld {
  deviceStates : gmap string DeviceState;
  irrigationEvents : list IrrigationEvent;
  submitted : list IrrigationEvent;
  published : list (string * string * bool)
}.

(** The broker: the [n]-th call of [mqttClient.publish] resolves ([None])
    or rejects with an error message. *)
Definition Broker := nat -> string -> string -> option string.

(** What a decision cycle takes from outside: the clock read at
    [Date.now()], the broker, the crop collection and the weather service. *)
Record Env := mkEnv {
  now : Z;
  broker : Broker;
  crops : gmap string CropProfile;
  fetchForecast : Q -> Q -> option Forecast
}.

Definition set_deviceStates (f : gmap string DeviceState -> gmap string DeviceState)
    (w : World) : World :=
  {| deviceStates := f (deviceStates w);
     irrigationEvents := irrigationEvents w;
     submitted := submitted w;
     published := published w |}.

(** [DeviceState.findOne({ deviceId })]: the hydrated document. *)
Definition DeviceState_findOne (deviceId : string) (w : World) : option DeviceState :=
  DeviceState_stored <$> (deviceStates w !! deviceId).

(** [state.save()] on the document of [deviceId]. *)
Definition DeviceState_save (deviceId : string) (d : DeviceState) (w : World) : World :=
  set_deviceStates (fun m => <[deviceId := DeviceState_stored d]> m) w.

(** [logIrrigationEvent]: [create], with a rejection swallowed by the
    [catch]. *)
Definition logIrrigationEvent (ev : IrrigationEvent) (w : World) : World :=
  {| deviceStates := deviceStates w;
     irrigationEvents :=
       match IrrigationEvent_create (irrigationEvents w) ev with
       | Some events => events
       | None => irrigationEvents w
       end;
     submitted := submitted w ++ [ev];
     published := published w |}.

(** [zoneToRelayTopic]. *)
Definition zoneToRelayTopic (zoneId : string) : string :=
  if String.eqb zoneId "A" then "esp32/relay1"
  else if String.eqb zoneId "B" then "esp32/relay2"
  else "esp32/relay/" +:+ zoneId.

(** [tryPublish]: [None] is [{ ok: true }], [Some e] is
    [{ ok: false, error }] with the error's message. *)
Definition tryPublish (br : Broker) (topic message : string) (w : World)
    : option string * World :=
  let r := br (length (published w)) topic message in
  (r, {| deviceStates := deviceStates w;
         irrigationEvents := irrigationEvents w;
         submitted := submitted w;
         published :=
           published w ++ [(topic, message,
                            match r with None => true | Some _ => false end)] |}).

(** The retry loop of one format, [n] attempts left: whether one attempt
    succeeded, [lastErr], and the world after the calls. *)
Fixpoint attempts (br : Broker) (topic payload : string) (n : nat)
    (lastErr : option string) (w : World) : bool * option string * World :=
  match n with
  | O => (false, lastErr, w)
  | S n' =>
      match tryPublish br topic payload w with
      | (None, w') => (true, None, w')
      | (Some e, w') => attempts br topic payload n' (Some e) w'
      end
  end.

Definition quote : string := String (ascii_of_nat 34) EmptyString.

(** [JSON.stringify({ cmd: action })]. *)
Definition JSON_stringify_cmd (action : string) : string :=
  "{" +:+ quote +:+ "cmd" +:+ quote +:+ ":" +:+ quote +:+ action +:+ quote +:+ "}".

(** The three payload encodings. *)
Definition formats (action : string) : list (string * string) :=
  [("plain", action);
   ("numeric", if String.eqb action "ON" then "1" else "0");
   ("json", JSON_stringify_cmd action)]%string.

(** One round of the outer loop of [publishManyFormats]. *)
Definition publishFormat (cfg : Config) (br : Broker) (topic : string)
    (acc : PublishResults * World) (fmt : string * string) : PublishResults * World :=
  let '(results, w) := acc in
  let '(fmt_name, fmt_payload) := fmt in
  let '(ok, lastErr, w') :=
    attempts br topic fmt_payload (Z.to_nat (MQTT_RETRY_COUNT cfg + 1)) None w in
  let succ := if ok then successes results ++ [fmt_name] else successes results in
  let fail :=
    match lastErr with
    | Some e => failures results ++ [(fmt_name, e)]
    | None => failures results
    end in
  ({| successes := succ; failures := fail |}, w').

(** [publishManyFormats]. *)
Definition publishManyFormats (cfg : Config) (br : Broker) (topic action : string)
    (w : World) : PublishResults * World :=
  fold_left (publishFormat cfg br topic) (formats action)
            ({| successes := []; failures := [] |}, w).

(** ** One decision cycle *)

(** The variables [persistEvent] closes over. *)
Record Ctx := mkCtx {
  c_deviceId : string;
  c_payload : Payload;
  c_soilPct : option Q;
  c_forecast : option Forecast;
  c_thresholds : ThresholdResult;
  c_now : Z
}.

(** The mutable part of a cycle: the [state] document and the world. *)
Record Cycle := mkCycle {
  state : option DeviceState;
  world : World
}.

(** The assignments of [persistEvent] to the document. *)
Definition commit (action : string) (now : Z) (s : DeviceState) : DeviceState :=
  if String.eqb action "ON" then
    {| relayState := true;
       lastActionTs := Some now; lastOnTs := Some now;
       lastOffTs := lastOffTs s; lastTelemetry := lastTelemetry s |}
  else if String.eqb action "OFF" then
    {| relayState := false;
       lastActionTs := Some now; lastOnTs := lastOnTs s;
       lastOffTs := Some now; lastTelemetry := lastTelemetry s |}
  else
    {| relayState := relayState s;
       lastActionTs := Some now; lastOnTs := lastOnTs s;
       lastOffTs := lastOffTs s; lastTelemetry := lastTelemetry s |}.

(** The object [ev] built by [persistEvent]. *)
Definition eventOf (c : Ctx) (action reason : string) (extra : Extra) : IrrigationEvent :=
  {| ev_deviceId := c_deviceId c; ev_zoneId := c_deviceId c;
     ev_action := action; ev_reason := reason;
     ev_threshold_on := threshold_on (c_thresholds c);
     ev_threshold_off := threshold_off (c_thresholds c);
     ev_soilPct := c_soilPct c; ev_telemetry := c_payload c;
     ev_forecast := c_forecast c; ev_details := details (c_thresholds c);
     ev_timestamp := c_now c; ev_extra := Some extra |}.

(** [persistEvent(action, reason, extra)]: update and save the document
    (skipped by the [catch] when there is none), then log the event. *)
Definition persistEvent (c : Ctx) (action reason : string) (extra : Extra)
    (m : Cycle) : Cycle :=
  let state' := commit action (c_now c) <$> state m in
  let w1 :=
    match state' with
    | Some s => DeviceState_save (c_deviceId c) s (world m)
    | None => world m
    end in
  {| state := state'; world := logIrrigationEvent (eventOf c action reason extra) w1 |}.

(** [publishManyFormats] inside a cycle. *)
Definition publish (cfg : Config) (br : Broker) (topic action : string)
    (m : Cycle) : PublishResults * Cycle :=
  let '(pubRes, w) := publishManyFormats cfg br topic action (world m) in
  (pubRes, {| state := state m; world := w |}).

(** [pubRes.successes.length > 0]. *)
Definition delivered (pubRes : PublishResults) : bool :=
  Nat.ltb 0 (length (successes pubRes)).

(** [state && state.lastOnTs ? new Date(state.lastOnTs).getTime() : 0]. *)
Definition ts_of (state : option DeviceState) (field : DeviceState -> option Z) : Z :=
  match state with
  | Some s => field s ?? 0
  | None => 0
  end.

(** [!!(state && state.relayState)]. *)
Definition relayIsOn_of (state : option DeviceState) : bool :=
  match state with
  | Some s => relayState s
  | None => false
  end.

(** The ON gate: [(allowOn, blockReason)]. *)
Definition onGate (cfg : Config) (now lastOnTs lastOffTs : Z) : bool * string :=
  let sinceLastOn := now - lastOnTs in
  let sinceLastOff := now - lastOffTs in
  if lastOnTs <? lastOffTs then
    if MIN_INTERVAL_AFTER_OFF_MS cfg <=? sinceLastOff
    then (true, "allow_after_off"%string)
    else (false, "blocked_after_off_wait " +:+ pretty sinceLastOff +:+ "ms<"
                   +:+ pretty (MIN_INTERVAL_AFTER_OFF_MS cfg))
  else
    if MIN_INTERVAL_BETWEEN_ON_MS cfg <=? sinceLastOn
    then (true, "allow_by_min_between_on"%string)
    else (false, "blocked_by_min_between_on " +:+ pretty sinceLastOn +:+ "ms<"
                   +:+ pretty (MIN_INTERVAL_BETWEEN_ON_MS cfg)).

(** The body of [handleTelemetryMessage] from [const now = Date.now()] on:
    watchdog, missing soil, ON evaluation, OFF evaluation, no action. *)
Definition decisionCycle (cfg : Config) (br : Broker) (c : Ctx) (m : Cycle) : Cycle :=
  let now := c_now c in
  let deviceId := c_deviceId c in
  let lastOnTs := ts_of (state m) lastOnTs in
  let lastOffTs := ts_of (state m) lastOffTs in
  let relayIsOn := relayIsOn_of (state m) in
  if (relayIsOn && (MAX_ON_MS cfg <? now - lastOnTs))%bool then
    let '(pubRes, m1) := publish cfg br (zoneToRelayTopic deviceId) "OFF" m in
    persistEvent c "OFF" "watchdog_forced_off" (ExtraPublishResults pubRes) m1
  else
    match c_soilPct c with
    | None => persistEvent c "RECOMMEND" "no_numeric_soil" ExtraNone m
    | Some soilPct =>
        if (Qle_bool soilPct (inject_Z (threshold_on (c_thresholds c)))
            && negb relayIsOn)%bool then
          if DEBUG_ALLOW_REON cfg then
            let '(pubRes, m1) := publish cfg br (zoneToRelayTopic deviceId) "ON" m in
            if delivered pubRes
            then persistEvent c "ON" "debug_force_on" (ExtraPublishResults pubRes) m1
            else persistEvent c "RECOMMEND" "debug_publish_failed_on"
                              (ExtraPublishResults pubRes) m1
          else
            let '(allowOn, blockReason) := onGate cfg now lastOnTs lastOffTs in
            if allowOn then
              let '(pubRes, m1) := publish cfg br (zoneToRelayTopic deviceId) "ON" m in
              if delivered pubRes
              then persistEvent c "ON" "soil_below_threshold_on"
                                (ExtraPublishResults pubRes) m1
              else persistEvent c "RECOMMEND" "publish_failed_on"
                                (ExtraPublishResults pubRes) m1
            else persistEvent c "RECOMMEND" blockReason ExtraNone m
        else if (Qle_bool (inject_Z (threshold_off (c_thresholds c))) soilPct
                 && relayIsOn)%bool then
          let sinceOn := now - lastOnTs in
          let minOnLeft := Z.max 0 (MIN_ON_MS cfg - sinceOn) in
          if 0 <? minOnLeft then
            persistEvent c "RECOMMEND" "min_on_not_elapsed" (ExtraMinOnLeft minOnLeft) m
          else
            let sinceLastOff := now - lastOffTs in
            if sinceLastOff <? MIN_INTERVAL_BETWEEN_OFF_MS cfg then
              persistEvent c "RECOMMEND" "min_interval_between_off_not_elapsed"
                           (ExtraSinceLastOff sinceLastOff) m
            else
              let '(pubRes, m1) := publish cfg br (zoneToRelayTopic deviceId) "OFF" m in
              if delivered pubRes
              then persistEvent c "OFF" "soil_above_threshold_off"
                                (ExtraPublishResults pubRes) m1
              else persistEvent c "RECOMMEND" "publish_failed_off"
                                (ExtraPublishResults pubRes) m1
        else persistEvent c "RECOMMEND" "no_action" ExtraNone m
    end.

(** The profile used when the crop is not in the collection. *)
Definition fallbackProfile (cropName : string) : CropProfile :=
  mkCrop (Some cropName) (Some (9 # 10)%Q) (Some (3 # 4)%Q) (Some 30%Q)
         (Some 40%Q) (Some 10%Q) (Some 5%Q).

(** [payload.deviceId || payload.zoneId || payload.id || 'unknown']. *)
Definition deviceId_of (payload : Payload) : string :=
  or_str (or_str (or_str (p_deviceId payload) (p_zoneId payload)) (p_id payload))
         (Some "unknown"%string) ?? "unknown"%string.

(** [(payload.crop || payload.cropName || 'tomato').toString().toLowerCase()]. *)
Definition cropName_of (payload : Payload) : string :=
  toLowerCase (or_str (or_str (p_crop payload) (p_cropName payload))
                      (Some "tomato"%string) ?? "tomato"%string).

(** [a || b || null] on coordinates. *)
Definition or_num (a b : option Q) : option Q :=
  if truthy_optQ a then a else if truthy_optQ b then b else None.

(** The forecast: fetched only when both coordinates are truthy. *)
Definition forecast_of (env : Env) (payload : Payload) : option Forecast :=
  match or_num (p_lat payload) (p_latitude payload),
        or_num (p_lon payload) (p_longitude payload) with
  | Some lat, Some lon => fetchForecast env lat lon
  | _, _ => None
  end.

(** Load the document of the device, or create it; the telemetry snapshot
    is stored either way. *)
Definition loadState (deviceId : string) (payload : Payload) (w : World) : Cycle :=
  match DeviceState_findOne deviceId w with
  | None =>
      let d := DeviceState_stored
                 {| relayState := false;
                    lastActionTs := None; lastOnTs := None; lastOffTs := None;
                    lastTelemetry := Some payload |} in
      {| state := Some d; world := DeviceState_save deviceId d w |}
  | Some s =>
      let s' := {| relayState := relayState s;
                   lastActionTs := lastActionTs s; lastOnTs := lastOnTs s;
                   lastOffTs := lastOffTs s; lastTelemetry := Some payload |} in
      {| state := Some s'; world := DeviceState_save deviceId s' w |}
  end.

(** The closure variables of a cycle, as computed before the decision. *)
Definition context (env : Env) (payload : Payload) : Ctx :=
  let deviceId := deviceId_of payload in
  let soilPct := normalizeSoil (nullish_opt (p_soilPct payload) (p_soil payload)) in
  let temperature := nullish_opt (p_temperature payload) (p_temp payload) in
  let humidity := p_humidity payload in
  let cropName := cropName_of payload in
  let cropProfile := crops env !! cropName in
  let profileForCompute :=
    match cropProfile with
    | Some p => p
    | None => fallbackProfile cropName
    end in
  let forecast := forecast_of env payload in
  {| c_deviceId := deviceId; c_payload := payload; c_soilPct := soilPct;
     c_forecast := forecast;
     c_thresholds :=
       Threshold.computeThreshold (crops env)
         (mkTelemetry soilPct temperature humidity) forecast profileForCompute;
     c_now := now env |}.

(** [handleTelemetryMessage(topic, message)]. *)
Definition handleTelemetryMessage (cfg : Config) (env : Env) (message : Message)
    (w : World) : World :=
  match truthyPayload (safeParseJSON message) with
  | None => w
  | Some payload =>
      let c := context env payload in
      world (decisionCycle cfg (broker env) c (loadState (c_deviceId c) payload w))
  end.

(** * Vocabulary of the statements *)

(** ** Inputs of the worked examples *)

(** Zone A reporting a soil reading and a temperature of 25. *)
Definition telemetryA (soil : JsSoil) : Payload :=
  mkPayload (Some "A"%string) None None (Some soil) None (Some 25%Q) None None
            None None None None None None.

Definition emptyWorld : World := mkWorld ∅ [] [] [].

(** A broker that delivers everything, and one that delivers nothing. *)
Definition brokerUp : Broker := fun _ _ _ => None.
Definition brokerDown : Broker := fun _ _ _ => Some "offline"%string.

Definition envAt (t : Z) (br : Broker) : Env := mkEnv t br ∅ (fun _ _ => None).

(** The tomato profile that the controller falls back to. *)
Definition tomato : CropProfile := fallbackProfile "tomato".

(** A dry reading from zone A, the cycle it starts on an empty database,
    and its context at time [t] with broker [br]. *)
Definition dryA : Payload := telemetryA (SoilNum 28%Q).
Definition freshA : Cycle := loadState "A" dryA emptyWorld.
Definition ctxA (t : Z) (br : Broker) : Ctx := context (envAt t br) dryA.

(** Telemetry at 25 degrees, as handed to [computeThreshold]. *)
Definition telemetry25 : Telemetry := mkTelemetry (Some 28%Q) (Some 25%Q) None.

(** The cycle of [freshA] at time 40000 with the broker down. *)
Definition failedA : Cycle :=
  decisionCycle default_config brokerDown (ctxA 40000 brokerDown) freshA.

(** Zone A switched on at 8000 and off at 9000, as the cycle holds it. *)
Definition cooledA : Cycle :=
  mkCycle (Some (mkDeviceState false (Some 9000) (Some 8000) (Some 9000) None))
          emptyWorld.



(** Shallow roots at 45 degrees, with and without 10 mm of forecast rain. *)
Definition shallow_profile : CropProfile :=
  mkCrop (Some "tomato"%string) (Some (9 # 10)%Q) (Some (3 # 4)%Q) (Some 5%Q)
         (Some 40%Q) (Some 10%Q) (Some 5%Q).
Definition telemetry45 : Telemetry := mkTelemetry (Some 28%Q) (Some 45%Q) None.
Definition wet_forecast : option Forecast :=
  Some (mkForecast (Some [mkDaily (Some 10%Q)]) None).

(** A database in which zone A has been on since time 0. *)
Definition staleWorld : World :=
  mkWorld {["A"%string := mkDeviceState true (Some 0) (Some 0) None None]} [] [] [].

(** Five hours later a reading arrives while the broker is down. *)
Definition failedWatchdog : World :=
  handleTelemetryMessage default_config (envAt 18000000 brokerDown)
    (JsonObject (telemetryA (SoilNum 50%Q))) staleWorld.

(** ** What a cycle did: observations on the traces *)

(** The events handed to the log, and the publish calls made, between two
    worlds. *)
Definition events_since (w w' : World) : list IrrigationEvent :=
  drop (length (submitted w)) (submitted w').

Definition calls_since (w w' : World) : list (string * string * bool) :=
  drop (length (published w)) (published w').

(** The messages that command [action], one per encoding. *)
Definition encodings (action : string) : list string := map snd (formats action).

(** A call that carries one of the encodings of [action] to [topic]. *)
Definition commands (topic action : string) (call : string * string * bool) : Prop :=
  call.1.1 = topic /\ call.1.2 ∈ encodings action.

(** Whether a call resolved. *)
Definition resolved (call : string * string * bool) : bool := call.2.

(** The calls of one [publishManyFormats] and the result it reports: each
    call carries an encoding of the action to the topic, and a success is
    reported exactly when one of them resolved. *)
Definition publication (topic action : string) (pubRes : PublishResults)
    (calls : list (string * string * bool)) : Prop :=
  Forall (commands topic action) calls
  /\ delivered pubRes = existsb resolved calls.

(** The world after further publish calls. *)
Definition add_calls (w : World) (calls : list (string * string * bool)) : World :=
  {| deviceStates := deviceStates w;
     irrigationEvents := irrigationEvents w;
     submitted := submitted w;
     published := published w ++ calls |}.

(** A cycle that made [calls] and then ran [persistEvent]. *)
Definition step (c : Ctx) (action reason : string) (extra : Extra)
    (calls : list (string * string * bool)) (m : Cycle) : Cycle :=
  persistEvent c action reason extra
    {| state := state m; world := add_calls (world m) calls |}.

(** ** The branches of a cycle *)

(** The conditions the cycle tests, as propositions. *)
Definition watchdog_due (cfg : Config) (c : Ctx) (m : Cycle) : Prop :=
  relayIsOn_of (state m) = true
  /\ MAX_ON_MS cfg < c_now c - ts_of (state m) lastOnTs.

Definition wants_on (c : Ctx) (m : Cycle) (soilPct : Q) : Prop :=
  (soilPct <= inject_Z (threshold_on (c_thresholds c)))%Q
  /\ relayIsOn_of (state m) = false.

Definition wants_off (c : Ctx) (m : Cycle) (soilPct : Q) : Prop :=
  (inject_Z (threshold_off (c_thresholds c)) <= soilPct)%Q
  /\ relayIsOn_of (state m) = true.

(** The gate of the ON evaluation on the timestamps the cycle read. *)
Definition gate (cfg : Config) (c : Ctx) (m : Cycle) : bool * string :=
  onGate cfg (c_now c) (ts_of (state m) lastOnTs) (ts_of (state m) lastOffTs).

(** The cycle as a step relation: every run of [decisionCycle] is one of
    these branches, each ending in a single [persistEvent]. *)
Inductive Branch (cfg : Config) (c : Ctx) (m : Cycle) : Cycle -> Prop :=
| branch_watchdog pubRes calls :
    watchdog_due cfg c m ->
    publication (zoneToRelayTopic (c_deviceId c)) "OFF" pubRes calls ->
    Branch cfg c m
      (step c "OFF" "watchdog_forced_off" (ExtraPublishResults pubRes) calls m)
| branch_no_soil :
    ~ watchdog_due cfg c m ->
    c_soilPct c = None ->
    Branch cfg c m (step c "RECOMMEND" "no_numeric_soil" ExtraNone [] m)
| branch_debug_on soilPct pubRes calls :
    ~ watchdog_due cfg c m ->
    c_soilPct c = Some soilPct ->
    wants_on c m soilPct ->
    DEBUG_ALLOW_REON cfg = true ->
    publication (zoneToRelayTopic (c_deviceId c)) "ON" pubRes calls ->
    delivered pubRes = true ->
    Branch cfg c m
      (step c "ON" "debug_force_on" (ExtraPublishResults pubRes) calls m)
| branch_debug_failed soilPct pubRes calls :
    ~ watchdog_due cfg c m ->
    c_soilPct c = Some soilPct ->
    wants_on c m soilPct ->
    DEBUG_ALLOW_REON cfg = true ->
    publication (zoneToRelayTopic (c_deviceId c)) "ON" pubRes calls ->
    delivered pubRes = false ->
    Branch cfg c m
      (step c "RECOMMEND" "debug_publish_failed_on" (ExtraPublishResults pubRes) calls m)
| branch_on soilPct pubRes calls :
    ~ watchdog_due cfg c m ->
    c_soilPct c = Some soilPct ->
    wants_on c m soilPct ->
    DEBUG_ALLOW_REON cfg = false ->
    (gate cfg c m).1 = true ->
    publication (zoneToRelayTopic (c_deviceId c)) "ON" pubRes calls ->
    delivered pubRes = true ->
    Branch cfg c m
      (step c "ON" "soil_below_threshold_on" (ExtraPublishResults pubRes) calls m)
| branch_on_failed soilPct pubRes calls :
    ~ watchdog_due cfg c m ->
    c_soilPct c = Some soilPct ->
    wants_on c m soilPct ->
    DEBUG_ALLOW_REON cfg = false ->
    (gate cfg c m).1 = true ->
    publication (zoneToRelayTopic (c_deviceId c)) "ON" pubRes calls ->
    delivered pubRes = false ->
    Branch cfg c m
      (step c "RECOMMEND" "publish_failed_on" (ExtraPublishResults pubRes) calls m)
| branch_on_blocked soilPct :
    ~ watchdog_due cfg c m ->
    c_soilPct c = Some soilPct ->
    wants_on c m soilPct ->
    DEBUG_ALLOW_REON cfg = false ->
    (gate cfg c m).1 = false ->
    Branch cfg c m (step c "RECOMMEND" (gate cfg c m).2 ExtraNone [] m)
| branch_min_on soilPct :
    ~ watchdog_due cfg c m ->
    c_soilPct c = Some soilPct ->
    wants_off c m soilPct ->
    c_now c - ts_of (state m) lastOnTs < MIN_ON_MS cfg ->
    Branch cfg c m
      (step c "RECOMMEND" "min_on_not_elapsed"
            (ExtraMinOnLeft (MIN_ON_MS cfg - (c_now c - ts_of (state m) lastOnTs))) [] m)
| branch_off_interval soilPct :
    ~ watchdog_due cfg c m ->
    c_soilPct c = Some soilPct ->
    wants_off c m soilPct ->
    MIN_ON_MS cfg <= c_now c - ts_of (state m) lastOnTs ->
    c_now c - ts_of (state m) lastOffTs < MIN_INTERVAL_BETWEEN_OFF_MS cfg ->
    Branch cfg c m
      (step c "RECOMMEND" "min_interval_between_off_not_elapsed"
            (ExtraSinceLastOff (c_now c - ts_of (state m) lastOffTs)) [] m)
| branch_off soilPct pubRes calls :
    ~ watchdog_due cfg c m ->
    c_soilPct c = Some soilPct ->
    wants_off c m soilPct ->
    MIN_ON_MS cfg <= c_now c - ts_of (state m) lastOnTs ->
    MIN_INTERVAL_BETWEEN_OFF_MS cfg <= c_now c - ts_of (state m) lastOffTs ->
    publication (zoneToRelayTopic (c_deviceId c)) "OFF" pubRes calls ->
    delivered pubRes = true ->
    Branch cfg c m
      (step c "OFF" "soil_above_threshold_off" (ExtraPublishResults pubRes) calls m)
| branch_off_failed soilPct pubRes calls :
    ~ watchdog_due cfg c m ->
    c_soilPct c = Some soilPct ->
    wants_off c m soilPct ->
    MIN_ON_MS cfg <= c_now c - ts_of (state m) lastOnTs ->
    MIN_INTERVAL_BETWEEN_OFF_MS cfg <= c_now c - ts_of (state m) lastOffTs ->
    publication (zoneToRelayTopic (c_deviceId c)) "OFF" pubRes calls ->
    delivered pubRes = false ->
    Branch cfg c m
      (step c "RECOMMEND" "publish_failed_off" (ExtraPublishResults pubRes) calls m)
| branch_no_action soilPct :
    ~ watchdog_due cfg c m ->
    c_soilPct c = Some soilPct ->
    ~ wants_on c m soilPct ->
    ~ wants_off c m soilPct ->
    Branch cfg c m (step c "RECOMMEND" "no_action" ExtraNone [] m).

(** ** The rules in the words of the specification, and further scenarios *)

(** The reason logged while the relay is held on. *)
Definition held_reason (c : Ctx) : string :=
  match c_soilPct c with
  | None => "no_numeric_soil"
  | Some soilPct =>
      if Qle_bool (inject_Z (threshold_off (c_thresholds c))) soilPct
      then "min_on_not_elapsed"
      else "no_action"
  end.

(** The gate as the specification words it: after an OFF more recent than
    the last ON, wait [MIN_INTERVAL_AFTER_OFF_MS] since that OFF; otherwise
    wait [MIN_INTERVAL_BETWEEN_ON_MS] since the last ON. *)
Definition on_allowed (cfg : Config) (now lastOnTs lastOffTs : Z) : bool :=
  if lastOffTs >? lastOnTs
  then now - lastOffTs >=? MIN_INTERVAL_AFTER_OFF_MS cfg
  else now - lastOnTs >=? MIN_INTERVAL_BETWEEN_ON_MS cfg.



(** The reasons the controller gives when no encoding was delivered. *)
Definition publish_failure_reasons : list string :=
  ["publish_failed_on"; "debug_publish_failed_on"; "publish_failed_off"]%string.

Definition debug_config : Config :=
  {| MIN_ON_MS := 60 * 1000;
     MIN_INTERVAL_BETWEEN_ON_MS := 30 * 1000;
     MIN_INTERVAL_AFTER_OFF_MS := 5 * 1000;
     MIN_INTERVAL_BETWEEN_OFF_MS := 5 * 1000;
     MQTT_RETRY_COUNT := 1;
     DEBUG_ALLOW_REON := true;
     MAX_ON_MS := 4 * 60 * 60 * 1000 |}.

(** The defaults with a retry count of [-1]: the loop
    [for (attempt = 0; attempt <= MQTT_RETRY_COUNT; attempt++)] has no round
    to run. *)
Definition no_attempt_config : Config :=
  {| MIN_ON_MS := 60 * 1000;
     MIN_INTERVAL_BETWEEN_ON_MS := 30 * 1000;
     MIN_INTERVAL_AFTER_OFF_MS := 5 * 1000;
     MIN_INTERVAL_BETWEEN_OFF_MS := 5 * 1000;
     MQTT_RETRY_COUNT := -1;
     DEBUG_ALLOW_REON := false;
     MAX_ON_MS := 4 * 60 * 60 * 1000 |}.

(** The defaults with a watchdog limit of one second, below the minimum
    on-time of one minute. *)
Definition short_watchdog_config : Config :=
  {| MIN_ON_MS := 60 * 1000;
     MIN_INTERVAL_BETWEEN_ON_MS := 30 * 1000;
     MIN_INTERVAL_AFTER_OFF_MS := 5 * 1000;
     MIN_INTERVAL_BETWEEN_OFF_MS := 5 * 1000;
     MQTT_RETRY_COUNT := 1;
     DEBUG_ALLOW_REON := false;
     MAX_ON_MS := 1000 |}.

(** Zone A, on since time 0, is seen five hours later with a soil reading
    far below the ON threshold: under the defaults, and without a round of
    the retry loop. *)
Definition watchdogWorld : World :=
  handleTelemetryMessage default_config (envAt 18000000 brokerUp)
    (JsonObject (telemetryA (SoilNum 5%Q))) staleWorld.

Definition unattemptedWatchdog : World :=
  handleTelemetryMessage no_attempt_config (envAt 18000000 brokerUp)
    (JsonObject (telemetryA (SoilNum 5%Q))) staleWorld.

(** The document a cycle starts from: the stored one with the new
    telemetry snapshot, or a fresh one. *)
Definition loaded (deviceId : string) (payload : Payload) (w : World) : DeviceState :=
  match DeviceState_findOne deviceId w with
  | None =>
      DeviceState_stored
        {| relayState := false; lastActionTs := None; lastOnTs := None;
           lastOffTs := None; lastTelemetry := Some payload |}
  | Some s =>
      {| relayState := relayState s; lastActionTs := lastActionTs s;
         lastOnTs := lastOnTs s; lastOffTs := lastOffTs s;
         lastTelemetry := Some payload |}
  end.

(** The actions the controller passes to [persistEvent]. *)
Definition controller_actions : list string := ["ON"; "OFF"; "RECOMMEND"]%string.

(** The scenario of the specification: a reading of 28 against thresholds
    30 and 35, no earlier action, and the same message 10 s later. *)
Definition t_first : Z := 1700000000000.

Definition redelivery_w1 : World :=
  handleTelemetryMessage default_config (envAt t_first brokerUp)
    (JsonObject (telemetryA (SoilNum 28%Q))) emptyWorld.

Definition redelivery_w2 : World :=
  handleTelemetryMessage default_config (envAt (t_first + 10000) brokerUp)
    (JsonObject (telemetryA (SoilNum 28%Q))) redelivery_w1.

(** Zone A, switched on at [t_first], reports a soaked soil 1 s later. *)
Definition minOnWorld : World :=
  handleTelemetryMessage default_config (envAt (t_first + 1000) brokerUp)
    (JsonObject (telemetryA (SoilNum 90%Q))) redelivery_w1.

(** Under [short_watchdog_config] zone A is switched on by a dry reading
    and reports a soaked soil two seconds later. *)
Definition cutShort_w1 : World :=
  handleTelemetryMessage short_watchdog_config (envAt t_first brokerUp)
    (JsonObject (telemetryA (SoilNum 28%Q))) emptyWorld.

Definition cutShort_w2 : World :=
  handleTelemetryMessage short_watchdog_config (envAt (t_first + 2000) brokerUp)
    (JsonObject (telemetryA (SoilNum 90%Q))) cutShort_w1.

(** Under the same configuration, the dry reading that switched zone A
    on is delivered again 10 s later. *)
Definition cutShort_redelivery : World :=
  handleTelemetryMessage short_watchdog_config (envAt (t_first + 10000) brokerUp)
    (JsonObject (telemetryA (SoilNum 28%Q))) cutShort_w1.

(** Deliveries handled in turn, each with the environment it meets: the
    cycle of a message has completed when the next message is handled.
    This is the processing the data model assumes (one telemetry event at
    a time for a device).  The listener attached by [subscribe] does not
    enforce it: it calls the handler without awaiting it, so a message that
    arrives while a cycle is waiting for the database or the broker starts
    a cycle that overlaps it.  Such executions are outside [run_in_turn]. *)
Definition run_in_turn (cfg : Config) (deliveries : list (Env * Message)) (w : World)
    : World :=
  fold_left (fun w d => handleTelemetryMessage cfg d.1 d.2 w) deliveries w.

(** One execution with two overlapping cycles, on the scenario of the
    re-delivery with the duplicate 5 ms behind: both cycles read the
    document of zone A ([findOne], and the save of the telemetry snapshot)
    before the first of them decides, publishes and saves; the second then
    decides on the document it read.  Each cycle assigns [relayState],
    [lastOnTs] and [lastActionTs], so what [save] writes is the same
    whether it writes the modified paths or the whole document. *)
Definition overlap_m1 : Cycle := loadState "A" dryA emptyWorld.

Definition overlap_m2 : Cycle := loadState "A" dryA (world overlap_m1).

Definition overlap_w1 : World :=
  world (decisionCycle default_config brokerUp (ctxA t_first brokerUp)
           {| state := state overlap_m1; world := world overlap_m2 |}).

Definition overlap_w2 : World :=
  world (decisionCycle default_config brokerUp (ctxA (t_first + 5) brokerUp)
           {| state := state overlap_m2; world := overlap_w1 |}).

(** Zone A is switched on, switched off 70 s later by a wet reading, and
    reports a dry reading 1 s after that. *)
Definition cooldown_w1 : World :=
  handleTelemetryMessage default_config (envAt t_first brokerUp)
    (JsonObject (telemetryA (SoilNum 28%Q))) emptyWorld.

Definition cooldown_w2 : World :=
  handleTelemetryMessage default_config (envAt (t_first + 70000) brokerUp)
    (JsonObject (telemetryA (SoilNum 50%Q))) cooldown_w1.

Definition cooldown_w3 : World :=
  handleTelemetryMessage default_config (envAt (t_first + 71000) brokerUp)
    (JsonObject (telemetryA (SoilNum 28%Q))) cooldown_w2.

(** A crop profile's band parameters as the specification constrains
    them: percentages within 0 and 100, the wilting point below the field
    capacity, a hysteresis that is not negative. *)
Definition valid_band (fc wp h : Q) : Prop :=
  (0 <= wp)%Q /\ (wp < fc)%Q /\ (fc <= 100)%Q /\ (0 <= h)%Q.

(** A profile that is valid in the sense of the specification, with the
    wilting point at 98 and the field capacity at 100. *)
Definition narrow_profile : CropProfile :=
  mkCrop (Some "reed"%string) (Some (9 # 10)%Q) (Some (3 # 4)%Q) (Some 30%Q)
         (Some 100%Q) (Some 98%Q) (Some 5%Q).

(** A valid profile with a wilting point of 10.4 and a low target. *)
Definition fractional_profile : CropProfile :=
  mkCrop (Some "moss"%string) (Some (9 # 10)%Q) (Some (1 # 10)%Q) (Some 30%Q)
         (Some 40%Q) (Some (52 # 5)%Q) (Some 5%Q).

(** ** Observations on whole deliveries *)

(** The relay state and the last ON time that a cycle reads for a device:
    [!!(state && state.relayState)] and the [lastOnTs] in milliseconds,
    [0] when there is none. *)
Definition stored_relay (deviceId : string) (w : World) : bool :=
  default false (relayState <$> DeviceState_findOne deviceId w).

Definition stored_lastOn (deviceId : string) (w : World) : Z :=
  (DeviceState_findOne deviceId w ≫= lastOnTs) ?? 0.

(** A call that carried an encoding of [action] to [topic] and resolved. *)
Definition delivers (topic action : string) (call : string * string * bool) : Prop :=
  commands topic action call /\ resolved call = true.

(** Whether a delivery carries a message that the handler goes on with: a
    JSON text whose value is truthy. *)
Definition parsed (d : Env * Message) : bool :=
  match truthyPayload (safeParseJSON d.2) with Some _ => true | None => false end.

(** The events of the log that the [enum] validator lets through. *)
Definition recorded (evs : list IrrigationEvent) : list IrrigationEvent :=
  map IrrigationEvent_stored
      (List.filter (fun ev => has_path IrrigationEventSchema_action_enum (ev_action ev)) evs).

(** The times of the ON events of a device, in the order of the log. *)
Definition on_times (deviceId : string) (evs : list IrrigationEvent) : list Z :=
  map ev_timestamp
      (List.filter (fun ev => (String.eqb (ev_action ev) "ON"
                               && String.eqb (ev_deviceId ev) deviceId)%bool) evs).

(** The three deliveries of the cool-down scenario: a dry reading, a wet
    one 70 s later, and a dry one 1 s after that. *)
Definition cooldown_deliveries : list (Env * Message) :=
  [(envAt t_first brokerUp, JsonObject (telemetryA (SoilNum 28%Q)));
   (envAt (t_first + 70000) brokerUp, JsonObject (telemetryA (SoilNum 50%Q)));
   (envAt (t_first + 71000) brokerUp, JsonObject (telemetryA (SoilNum 28%Q)))].

(** Zone B reporting a soil reading. *)
Definition telemetryB (soil : JsSoil) : Payload :=
  mkPayload (Some "B"%string) None None (Some soil) None (Some 25%Q) None None
            None None None None None None.

(** * The page [IrrigationControl]: automatic mode in the browser *)

Module IrrigationControl.

Definition MIN_ON_MS : Z := 60 * 1000.
Definition MIN_INTERVAL_MS : Z := 5 * 60 * 1000.

(** A zone of the page ([lat] and [lon], which nothing reads, are left
    out). *)
Record Zone := mkZone {
  z_id : string;
  z_name : string;
  manualOn : bool;
  z_crop : string
}.

Definition defaultZones : list Zone :=
  [mkZone "A" "Zone A" false "tomato"; mkZone "B" "Zone B" false "maize"].

(** The table [cropDefaults]. *)
Definition cropDefaults : gmap string CropProfile :=
  list_to_map
    [("tomato"%string,
      mkCrop None (Some (9 # 10)%Q) (Some (3 # 4)%Q) (Some 30%Q) (Some 40%Q) (Some 10%Q) (Some 5%Q));
     ("maize"%string,
      mkCrop None (Some (115 # 100)%Q) (Some (7 # 10)%Q) (Some 50%Q) (Some 40%Q) (Some 10%Q) (Some 5%Q));
     ("wheat"%string,
      mkCrop None (Some (8 # 10)%Q) (Some (65 # 100)%Q) (Some 40%Q) (Some 40%Q) (Some 10%Q) (Some 5%Q));
     ("potato"%string,
      mkCrop None (Some 1%Q) (Some (3 # 4)%Q) (Some 30%Q) (Some 40%Q) (Some 10%Q) (Some 4%Q));
     ("cotton"%string,
      mkCrop None (Some (95 # 100)%Q) (Some (7 # 10)%Q) (Some 50%Q) (Some 40%Q) (Some 10%Q) (Some 5%Q));
     ("sugarcane"%string,
      mkCrop None (Some (12 # 10)%Q) (Some (8 # 10)%Q) (Some 60%Q) (Some 45%Q) (Some 12%Q) (Some 6%Q));
     ("banana"%string,
      mkCrop None (Some (11 # 10)%Q) (Some (8 # 10)%Q) (Some 60%Q) (Some 45%Q) (Some 12%Q) (Some 6%Q));
     ("soybean"%string,
      mkCrop None (Some (9 # 10)%Q) (Some (7 # 10)%Q) (Some 40%Q) (Some 40%Q) (Some 10%Q) (Some 5%Q))].

(** [cropDefaults[cropKey] || { Kc: 0.9, targetFraction: 0.7, ... }] with
    [cropKey = (zone.crop || '').toLowerCase()]. *)
Definition cropProfile_of (zone : Zone) : CropProfile :=
  default (mkCrop None (Some (9 # 10)%Q) (Some (7 # 10)%Q) (Some 30%Q) (Some 40%Q)
                  (Some 10%Q) (Some 5%Q))
          (cropDefaults !! toLowerCase (z_crop zone)).

(** A telemetry object as the page reads it: the soil reading under
    [soilPct] or [soil], and the temperature. *)
Record Latest := mkLatest {
  l_soilPct : option JsSoil;
  l_soil : option JsSoil;
  l_temperature : option Q
}.

(** What the telemetry socket holds: an object that is read as keyed by
    zone where it has the zone's key, and as the reading itself otherwise. *)
Record WsTelemetry := mkWsTelemetry {
  byZone : gmap string Latest;
  own : Latest
}.

(** [latest]: [{}] without telemetry, [telemetry[zoneId]] if there is one,
    [telemetry] otherwise. *)
Definition latest_of (telemetry : option WsTelemetry) (zoneId : string) : Latest :=
  match telemetry with
  | None => mkLatest None None None
  | Some t => default (own t) (byZone t !! zoneId)
  end.

(** [soilRaw.endsWith('%') ? soilRaw.slice(0, -1) : soilRaw] *)
Definition stripPercent (cs : list ascii) : list ascii :=
  match rev cs with
  | "%"%char :: r => rev r
  | _ => cs
  end.

(** [currentSoil]: [null], or [Number(soilRaw)], which may be [NaN]. *)
Definition currentSoil_of (latest : Latest) : option JsNumber :=
  match nullish_opt (l_soilPct latest) (l_soil latest) with
  | None => None
  | Some (SoilNum q) => Some (Num q)
  | Some (SoilStr s) =>
      Some (Number_of_chars (stripPercent (list_ascii_of_string s)))
  end.

(** [currentSoil <= threshold] and [currentSoil >= threshold]: [false] on
    [NaN]. *)
Definition le_threshold (soil : JsNumber) (threshold : Z) : bool :=
  match soil with
  | Num q => Qle_bool q (inject_Z threshold)
  | Infinity negative => negative
  | NaN => false
  end.

Definition ge_threshold (soil : JsNumber) (threshold : Z) : bool :=
  match soil with
  | Num q => Qle_bool (inject_Z threshold) q
  | Infinity negative => negb negative
  | NaN => false
  end.

(** The runtime state of a zone in [stateRef.current]. *)
Record Runtime := mkRuntime {
  st_relayState : bool;
  st_lastActionTs : Z;
  st_lastOnTs : Z
}.

(** [{ relayState: false, lastActionTs: 0, lastOnTs: 0 }] *)
Definition initial : Runtime := mkRuntime false 0 0.

(** The status record of a zone in [zoneStatus]; a property that is missing
    or [null] is [None]. *)
Record Status := mkStatus {
  currentSoil : option JsNumber;
  s_threshold_on : option Z;
  s_threshold_off : option Z;
  s_details : option Details;
  lastChecked : option Z;
  s_relayState : option bool;
  s_lastActionTs : option Z;
  info : option string;
  manualLocked : bool
}.

Definition noStatus : Status := mkStatus None None None None None None None None false.

(** A call of [publishRelay]: when, for which zone, with which action, and
    what was handed to [publish]: the topic, the message, and whether the
    MQTT client was connected (the message is dropped when it is not).
    [c_forced] tells the calls of [forceAction] from those of
    [runAutoCheck]. *)
Record RelayCall := mkRelayCall {
  c_at : Z;
  c_zoneId : string;
  c_action : string;
  c_topic : string;
  c_message : string;
  c_connected : bool;
  c_forced : bool
}.

(** [publishRelay(zoneId, action)]; [zoneToTopic] is the map of
    [zoneToRelayTopic]. *)
Definition publishRelay (now : Z) (connected forced : bool) (zoneId action : string)
    : RelayCall :=
  let topic :=
    if String.eqb zoneId "A" then "esp32/relay1"
    else if String.eqb zoneId "B" then "esp32/relay2"
    else "esp32/relay/" +:+ zoneId in
  mkRelayCall now zoneId action topic action connected forced.

(** The state of the page: the zones, the status records, the runtime
    states, and the trace of the calls of [publishRelay]. *)
Record Page := mkPage {
  zones : list Zone;
  zoneStatus : gmap string Status;
  stateRef : gmap string Runtime;
  calls : list RelayCall
}.

(** [manualOverrideToggle]. *)
Definition manualOverrideToggle (zoneId : string) (page : Page) : Page :=
  mkPage (map (fun z => if String.eqb (z_id z) zoneId
                        then mkZone (z_id z) (z_name z) (negb (manualOn z)) (z_crop z)
                        else z) (zones page))
         (zoneStatus page) (stateRef page) (calls page).

(** The state update of [setZoneCrop]. *)
Definition setZoneCrop (zoneId cropName : string) (page : Page) : Page :=
  mkPage (map (fun z => if String.eqb (z_id z) zoneId
                        then mkZone (z_id z) (z_name z) (manualOn z) cropName
                        else z) (zones page))
         (zoneStatus page) (stateRef page) (calls page).

(** ["Min-on not elapsed (" + Math.ceil(timeLeftMs / 1000) + "s left)"] *)
Definition min_on_info (timeLeftMs : Z) : string :=
  "Min-on not elapsed (" +:+ pretty ((timeLeftMs + 999) / 1000) +:+ "s left)".

(** The body of the loop of [runAutoCheck] for one zone.  [seen] is the
    [zoneStatus] that the callback closed over; [nextStatus], the runtime
    states and the calls are what the loop has built so far.  Of the
    telemetry, [computeThreshold] reads the temperature only, and the
    forecast is [{}]. *)
Definition checkZone (now : Z) (telemetry : option WsTelemetry)
    (seen : gmap string Status) (connected : bool)
    (acc : gmap string Status * gmap string Runtime * list RelayCall) (zone : Zone)
    : gmap string Status * gmap string Runtime * list RelayCall :=
  let '(nextStatus, ref, sent) := acc in
  let zoneId := z_id zone in
  let old := default noStatus (seen !! zoneId) in
  if manualOn zone then
    (<[zoneId := mkStatus (currentSoil old) (s_threshold_on old) (s_threshold_off old)
                          (s_details old) (Some now) (s_relayState old)
                          (s_lastActionTs old) (info old) true]> nextStatus,
     ref, sent)
  else
    let latest := latest_of telemetry zoneId in
    let currentSoil := currentSoil_of latest in
    let cropProfile := cropProfile_of zone in
    let r := Frontend.computeThreshold (mkTelemetry None (l_temperature latest) None)
                                       (Some (mkForecast None None)) cropProfile in
    let st := default initial (ref !! zoneId) in
    let status (relay : option bool) (action : option Z) (inf : option string) :=
      mkStatus currentSoil (Some (threshold_on r)) (Some (threshold_off r))
               (Some (details r)) (Some now) relay action inf (manualLocked old) in
    match currentSoil with
    | None =>
        (<[zoneId := status (s_relayState old) (s_lastActionTs old)
                            (Some "No numeric soil telemetry"%string)]> nextStatus,
         <[zoneId := st]> ref, sent)
    | Some soil =>
        let '(st1, relay1, action1, info1, sent1) :=
          if (le_threshold soil (threshold_on r) && negb (st_relayState st))%bool then
            if MIN_INTERVAL_MS <? now - st_lastActionTs st then
              (mkRuntime true now now, Some true, Some now, info old,
               sent ++ [publishRelay now connected false zoneId "ON"])
            else
              (st, s_relayState old, s_lastActionTs old,
               Some "Cooldown active"%string, sent)
          else (st, s_relayState old, s_lastActionTs old, info old, sent) in
        let '(st2, relay2, action2, info2, sent2) :=
          if (ge_threshold soil (threshold_off r) && st_relayState st1)%bool then
            let timeSinceOn := now - st_lastOnTs st1 in
            let timeLeftMs := Z.max 0 (MIN_ON_MS - timeSinceOn) in
            if timeLeftMs <=? 0 then
              (mkRuntime false now (st_lastOnTs st1), Some false, Some now, info1,
               sent1 ++ [publishRelay now connected false zoneId "OFF"])
            else (st1, relay1, action1, Some (min_on_info timeLeftMs), sent1)
          else (st1, relay1, action1, info1, sent1) in
        (<[zoneId := status relay2 action2 info2]> nextStatus,
         <[zoneId := st2]> ref, sent2)
    end.

(** [runAutoCheck]: nothing without zones; otherwise the loop, and then
    [setZoneStatus(prev => ({ ...prev, ...nextStatus }))]. *)
Definition runAutoCheck (now : Z) (telemetry : option WsTelemetry)
    (seen : gmap string Status) (connected : bool) (page : Page) : Page :=
  match zones page with
  | [] => page
  | _ =>
      let '(nextStatus, ref, sent) :=
        fold_left (checkZone now telemetry seen connected) (zones page)
                  (∅, stateRef page, calls page) in
      mkPage (zones page) (nextStatus ∪ zoneStatus page) ref sent
  end.

(** [forceAction]. *)
Definition forceAction (now : Z) (connected : bool) (zoneId action : string)
    (page : Page) : Page :=
  let st := default initial (stateRef page !! zoneId) in
  let '(st', call) :=
    if String.eqb action "ON"
    then (mkRuntime true now now, publishRelay now connected true zoneId "ON")
    else (mkRuntime false now (st_lastOnTs st),
          publishRelay now connected true zoneId "OFF") in
  let old := default noStatus (zoneStatus page !! zoneId) in
  mkPage (zones page)
         (<[zoneId := mkStatus (currentSoil old) (s_threshold_on old) (s_threshold_off old)
                               (s_details old) (lastChecked old)
                               (Some (st_relayState st')) (Some now) (info old)
                               (manualLocked old)]> (zoneStatus page))
         (<[zoneId := st']> (stateRef page))
         (calls page ++ [call]).

(** What happens on the page, each with the clock it reads. *)
Inductive Event :=
| AutoCheck (now : Z) (telemetry : option WsTelemetry) (seen : gmap string Status)
            (connected : bool)
| Force (now : Z) (connected : bool) (zoneId action : string)
| ToggleManual (zoneId : string)
| SetCrop (zoneId cropName : string).

Definition handle (page : Page) (ev : Event) : Page :=
  match ev with
  | AutoCheck now telemetry seen connected => runAutoCheck now telemetry seen connected page
  | Force now connected zoneId action => forceAction now connected zoneId action page
  | ToggleManual zoneId => manualOverrideToggle zoneId page
  | SetCrop zoneId cropName => setZoneCrop zoneId cropName page
  end.

Definition run (events : list Event) (page : Page) : Page :=
  fold_left handle events page.

(** The clock readings of a sequence of events. *)
Definition times (events : list Event) : list Z :=
  omap (fun ev => match ev with
                  | AutoCheck now _ _ _ => Some now
                  | Force now _ _ _ => Some now
                  | _ => None
                  end) events.

(** The calls of [publishRelay] made between two states of the page. *)
Definition calls_since (page page' : Page) : list RelayCall :=
  drop (length (calls page)) (calls page').

(** The runtime state of a zone, as the loop and [forceAction] read it. *)
Definition st_of (ref : gmap string Runtime) (zoneId : string) : Runtime :=
  default initial (ref !! zoneId).

(** The calls made for one zone. *)
Definition calls_for (zoneId : string) (cs : list RelayCall) : list RelayCall :=
  List.filter (fun c => String.eqb (c_zoneId c) zoneId) cs.

(** Two calls for the same zone, the later one an automatic ON: it comes
    more than [MIN_INTERVAL_MS] after the earlier one. *)
Definition cooled_down (c1 c2 : RelayCall) : Prop :=
  c_zoneId c1 = c_zoneId c2 -> c_forced c2 = false -> c_action c2 = "ON"%string ->
  MIN_INTERVAL_MS < c_at c2 - c_at c1.

(** Two calls for the same zone, an ON and a later automatic OFF: they are
    at least [MIN_ON_MS] apart. *)
Definition kept_on (c1 c2 : RelayCall) : Prop :=
  c_zoneId c1 = c_zoneId c2 -> c_action c1 = "ON"%string ->
  c_forced c2 = false -> c_action c2 = "OFF"%string ->
  MIN_ON_MS <= c_at c2 - c_at c1.

(** The invariant of a session at clock reading [now]: every command so
    far was issued no later than [now] and no later than the last action
    recorded for its zone, every ON no later than the last ON recorded for
    its zone, and the commands are spaced. *)
Definition session_inv (now : Z) (ref : gmap string Runtime) (cs : list RelayCall)
    : Prop :=
  Forall (fun c => c_at c <= now
                   /\ c_at c <= st_lastActionTs (st_of ref (c_zoneId c))
                   /\ (c_action c = "ON"%string
                       -> c_at c <= st_lastOnTs (st_of ref (c_zoneId c)))) cs
  /\ StronglySorted cooled_down cs
  /\ StronglySorted kept_on cs.

(** What a call decides, without whether it was sent. *)
Definition decision (c : RelayCall) : Z * string * string * bool :=
  (c_at c, c_zoneId c, c_action c, c_forced c).

(** A reading for every zone: the soil value [soil] at 25 degrees. *)
Definition reading (soil : Q) : option WsTelemetry :=
  Some (mkWsTelemetry ∅ (mkLatest (Some (SoilNum soil)) None (Some 25%Q))).

(** A dry check, a wet check 70 s later, and a dry check 301 s after that. *)
Definition scenario : list Event :=
  [AutoCheck 400000 (reading 20) ∅ true;
   AutoCheck 470000 (reading 50) ∅ true;
   AutoCheck 771000 (reading 20) ∅ true].

(** The page as mounted. *)
Definition mounted : Page :=
  mkPage defaultZones ∅ {["A"%string := initial; "B"%string := initial]} [].

End IrrigationControl.

(** * The debug route, the subscription and the crop seed *)

Module IrrigationDebug.

(** The body of a request to [POST /force-state]: [req.body] with the
    four properties the route reads.  [b_relayState] is [None] when the
    property is missing or is not a boolean; the timestamps are numbers of
    milliseconds. *)
Record Body := mkBody {
  b_deviceId : option string;
  b_relayState : option bool;
  b_lastOnTs : option Z;
  b_lastOffTs : option Z
}.

(** Truthiness of an optional number of milliseconds. *)
Definition truthy_ts (o : option Z) : bool :=
  match o with Some t => negb (t =? 0) | None => false end.

(** The object [update]: a property is set when the request has a
    boolean, respectively a truthy timestamp. *)
Record Update := mkUpdate {
  u_relayState : option bool;
  u_lastOnTs : option Z;
  u_lastOffTs : option Z
}.

Definition update_of (body : Body) : Update :=
  {| u_relayState := b_relayState body;
     u_lastOnTs := if truthy_ts (b_lastOnTs body) then b_lastOnTs body else None;
     u_lastOffTs := if truthy_ts (b_lastOffTs body) then b_lastOffTs body else None |}.

(** [findOneAndUpdate({ deviceId }, { $set: update }, { upsert: true })]:
    the paths of the schema are set on the document of the device, which is
    created with the defaults of the schema if there is none. *)
Definition DeviceState_findOneAndUpdate (deviceId : string) (update : Update)
    (w : World) : World :=
  let old := default (mkDeviceState false None None None None)
                     (deviceStates w !! deviceId) in
  let doc :=
    {| relayState := u_relayState update ?? relayState old;
       lastActionTs := lastActionTs old;
       lastOnTs := nullish_opt (strict DeviceStateSchema "lastOnTs" (u_lastOnTs update))
                               (lastOnTs old);
       lastOffTs := nullish_opt (strict DeviceStateSchema "lastOffTs" (u_lastOffTs update))
                                (lastOffTs old);
       lastTelemetry := lastTelemetry old |} in
  set_deviceStates (fun m => <[deviceId := doc]> m) w.

(** The answer of the route: status 400, or the document. *)
Inductive Response :=
| BadRequest
| Ok (deviceState : option DeviceState).

(** [POST /force-state]. *)
Definition force_state (body : Body) (w : World) : Response * World :=
  if truthy_str (b_deviceId body) then
    let deviceId := b_deviceId body ?? ""%string in
    let w' := DeviceState_findOneAndUpdate deviceId (update_of body) w in
    (Ok (deviceStates w' !! deviceId), w')
  else (BadRequest, w).

End IrrigationDebug.

(** ** The subscription of the controller *)

(** The default of [TELEMETRY_TOPIC]. *)
Definition TELEMETRY_TOPIC : string := "esp32/telemetry".

(** The listener that [mqttClient.subscribe(topic, opts, handler)]
    attaches to the client: it forwards the messages of [topic] only.  It
    calls the handler and does not await it; the world returned here is the
    one the started cycle leaves when it has completed. *)
Definition subscribe (topic : string) (handler : string -> Message -> World -> World)
    (t : string) (msg : Message) (w : World) : World :=
  if String.eqb t topic then handler t msg w else w.

(** [internalHandler] of [startController]. *)
Definition internalHandler (cfg : Config) (env : Env) (topic : string)
    (message : Message) (w : World) : World :=
  handleTelemetryMessage cfg env message w.

(** The listener that [startController] installs:
    [mqttClient.subscribe(TELEMETRY_TOPIC, {}, internalHandler)]. *)
Definition listener (cfg : Config) (env : Env) (t : string) (msg : Message)
    (w : World) : World :=
  subscribe TELEMETRY_TOPIC (internalHandler cfg env) t msg w.

(** ** The crop seed *)

Module SeedCrops.

(** [CropProfileSchema] of models/CropProfile.js. *)
Definition CropProfileSchema : list string :=
  ["name"; "Kc"; "targetFraction"; "rootDepth_cm"; "fieldCapacityPct";
   "wiltingPointPct"; "notes"]%string.

(** The properties of an update that the schema lets through. *)
Definition cast (c : CropProfile) : CropProfile :=
  {| name := strict CropProfileSchema "name" (name c);
     Kc := strict CropProfileSchema "Kc" (Kc c);
     targetFraction := strict CropProfileSchema "targetFraction" (targetFraction c);
     rootDepth_cm := strict CropProfileSchema "rootDepth_cm" (rootDepth_cm c);
     fieldCapacityPct := strict CropProfileSchema "fieldCapacityPct" (fieldCapacityPct c);
     wiltingPointPct := strict CropProfileSchema "wiltingPointPct" (wiltingPointPct c);
     hysteresisPct := strict CropProfileSchema "hysteresisPct" (hysteresisPct c) |}.

(** The array [crops]. *)
Definition crops : list CropProfile :=
  [mkCrop (Some "tomato"%string) (Some (9 # 10)%Q) (Some (3 # 4)%Q) (Some 30%Q)
          (Some 40%Q) (Some 10%Q) (Some 5%Q);
   mkCrop (Some "maize"%string) (Some (115 # 100)%Q) (Some (7 # 10)%Q) (Some 50%Q)
          (Some 40%Q) (Some 10%Q) (Some 5%Q);
   mkCrop (Some "wheat"%string) (Some (8 # 10)%Q) (Some (65 # 100)%Q) (Some 40%Q)
          (Some 40%Q) (Some 10%Q) (Some 5%Q);
   mkCrop (Some "potato"%string) (Some 1%Q) (Some (3 # 4)%Q) (Some 30%Q)
          (Some 40%Q) (Some 10%Q) (Some 4%Q);
   mkCrop (Some "cotton"%string) (Some (95 # 100)%Q) (Some (7 # 10)%Q) (Some 50%Q)
          (Some 40%Q) (Some 10%Q) (Some 5%Q);
   mkCrop (Some "sugarcane"%string) (Some (12 # 10)%Q) (Some (8 # 10)%Q) (Some 60%Q)
          (Some 45%Q) (Some 12%Q) (Some 6%Q);
   mkCrop (Some "banana"%string) (Some (11 # 10)%Q) (Some (8 # 10)%Q) (Some 60%Q)
          (Some 45%Q) (Some 12%Q) (Some 6%Q);
   mkCrop (Some "soybean"%string) (Some (9 # 10)%Q) (Some (7 # 10)%Q) (Some 40%Q)
          (Some 40%Q) (Some 10%Q) (Some 5%Q)].

(** [CropProfile.updateOne({ name: c.name }, { $set: c }, { upsert: true })]:
    the cast update is laid over the stored profile of that name, or over
    an empty one. *)
Definition updateOne (db : CropDb) (c : CropProfile) : CropDb :=
  let key := name c ?? ""%string in
  let old := default (mkCrop None None None None None None None) (db !! key) in
  <[key := spread old (cast c)]> db.

(** The loop of [seed]. *)
Definition seed (db : CropDb) : CropDb := fold_left updateOne crops db.

(** The names of the seeded crops. *)
Definition names : list string := omap name crops.

End SeedCrops.

(** A telemetry message of a device that names its crop. *)
Definition telemetryOf (deviceId crop : string) (soil : Q) : Payload :=
  mkPayload (Some deviceId) None None (Some (SoilNum soil)) None (Some 25%Q) None None
            (Some crop) None None None None None.

(** * The summary of the automatic mode *)

Module AutoMode.

(** The object [summary]. *)
Record Summary := mkSummary {
  on : nat;
  off : nat;
  unknown : nat;
  total : nat
}.

(** One round of [zones.forEach]: the status of the zone, or [{}], counts
    as on, off or unknown by its [relayState]. *)
Definition count (zoneStatus : gmap string IrrigationControl.Status)
    (acc : nat * nat * nat) (z : IrrigationControl.Zone) : nat * nat * nat :=
  let '(on, off, unknown) := acc in
  let st := default IrrigationControl.noStatus (zoneStatus !! IrrigationControl.z_id z) in
  match IrrigationControl.s_relayState st with
  | Some true => (S on, off, unknown)
  | Some false => (on, S off, unknown)
  | None => (on, off, S unknown)
  end.

(** [summary]. *)
Definition summary (zones : list IrrigationControl.Zone)
    (zoneStatus : gmap string IrrigationControl.Status) : Summary :=
  let '(on, off, unknown) := fold_left (count zoneStatus) zones (0, 0, 0)%nat in
  mkSummary on off unknown (length zones).

End AutoMode.

(** * Properties *)

(** ** The model on concrete inputs *)

Example tomato_25 :
  threshold_on (Threshold.computeThreshold ∅ telemetry25 None tomato) = 30
  /\ threshold_off (Threshold.computeThreshold ∅ telemetry25 None tomato) = 35.
Proof. vm_compute. split; reflexivity. Qed.

(** The scenario of the specification in doubles: ETo 1.5, raw threshold
    about 30.045, thresholds 30 and 35. *)
Example tomato_25_binary64 :
  Binary64.thresholds_Z 40 10 30 Binary64.d0_9 0.75 5 0 25 = (Some 30, Some 35).
Proof. vm_compute. reflexivity. Qed.

Example normalizeSoil_percent :
  normalizeSoil (Some (SoilStr " 28.5% ")) = Some (285 # 10)%Q.
Proof. vm_compute. reflexivity. Qed.

Example normalizeSoil_literals :
  map (fun s => normalizeSoil (Some (SoilStr s)))
      ["1e1"; "0x1A"; "0b101"; " 2.5e-1 "; ".5"; "5."; "-7"; ""; "010"]%string
  = [Some 10; Some 26; Some 5; Some (25 # 100); Some (5 # 10); Some 5; Some (-7);
     Some 0; Some 10]%Q
  /\ map (fun s => normalizeSoil (Some (SoilStr s)))
         ["Infinity"; "-Infinity"; "1e400"; "1_0"; "-0x10"; "1e"; "."; "12px"]%string
     = [None; None; None; None; None; None; None; None].
Proof. vm_compute. split; reflexivity. Qed.

(** White space around a reading is trimmed, also a no-break space
    (bytes 194, 160) and a line separator (bytes 226, 128, 168). *)
Example normalizeSoil_white_space :
  normalizeSoil
    (Some (SoilStr (string_of_list_ascii
                      (map ascii_of_nat [194; 160; 9]%nat
                       ++ list_ascii_of_string "28%"
                       ++ map ascii_of_nat [32; 226; 128; 168; 10]%nat))))
  = Some 28%Q.
Proof. vm_compute. reflexivity. Qed.

Example normalizeSoil_text : normalizeSoil (Some (SoilStr "dry")) = None.
Proof. vm_compute. reflexivity. Qed.

Arguments add_calls : simpl never.
Arguments step : simpl never.
Arguments persistEvent : simpl never.
Arguments publish : simpl never.
Arguments publishFormat : simpl never.

(** ** Publishing *)

Lemma add_calls_nil w : add_calls w [] = w.
Proof. destruct w; unfold add_calls; simpl. by rewrite app_nil_r. Qed.

Lemma add_calls_app w a b : add_calls (add_calls w a) b = add_calls w (a ++ b).
Proof. unfold add_calls; simpl. by rewrite app_assoc. Qed.

Lemma attempts_spec br topic payload n lastErr w :
  exists calls,
    (attempts br topic payload n lastErr w).2 = add_calls w calls
    /\ Forall (fun call => call.1 = (topic, payload)) calls
    /\ (attempts br topic payload n lastErr w).1.1 = existsb resolved calls.
Proof.
  revert lastErr w. induction n as [|n IH]; intros lastErr w; simpl.
  - exists []. by rewrite add_calls_nil.
  - unfold tryPublish.
    destruct (br (length (published w)) topic payload) as [e|] eqn:Hbr.
    + edestruct (IH (Some e)) as (calls & Hw & Hall & Hok).
      exists ((topic, payload, false) :: calls).
      rewrite Hw, Hok. split; [|split].
      * unfold add_calls; simpl. by rewrite <- app_assoc.
      * constructor; done.
      * done.
    + exists [(topic, payload, true)]. simpl. split; [|split].
      * unfold add_calls; simpl. done.
      * repeat constructor.
      * done.
Qed.

Lemma publishFormat_spec cfg br topic results w fmt_name fmt_payload :
  exists calls,
    (publishFormat cfg br topic (results, w) (fmt_name, fmt_payload)).2 = add_calls w calls
    /\ Forall (fun call => call.1 = (topic, fmt_payload)) calls
    /\ delivered (publishFormat cfg br topic (results, w) (fmt_name, fmt_payload)).1
       = (delivered results || existsb resolved calls)%bool.
Proof.
  unfold publishFormat.
  destruct (attempts_spec br topic fmt_payload
              (Z.to_nat (MQTT_RETRY_COUNT cfg + 1)) None w) as (calls & Hw & Hall & Hok).
  destruct (attempts br topic fmt_payload _ None w) as [[ok lastErr] w'].
  simpl in *. subst. exists calls. split; [done|]. split; [done|].
  unfold delivered; simpl.
  destruct (existsb resolved calls).
  - rewrite length_app; simpl. rewrite orb_true_r.
    apply Nat.ltb_lt. lia.
  - by rewrite orb_false_r.
Qed.

(** [publishManyFormats] only adds publish calls; each carries an encoding
    of the action to the topic; and the result reports a success exactly
    when one of the calls resolved. *)
Lemma publishManyFormats_spec cfg br topic action w :
  exists calls,
    (publishManyFormats cfg br topic action w).2 = add_calls w calls
    /\ Forall (commands topic action) calls
    /\ delivered (publishManyFormats cfg br topic action w).1 = existsb resolved calls.
Proof.
  unfold publishManyFormats, formats. cbn [fold_left].
  set (r0 := {| successes := []; failures := [] |}).
  destruct (publishFormat_spec cfg br topic r0 w "plain" action)
    as (c1 & Hw1 & Ha1 & Hd1).
  destruct (publishFormat cfg br topic (r0, w) ("plain"%string, action)) as [r1 w1].
  simpl in *. subst w1.
  set (numeric := if String.eqb action "ON" then "1"%string else "0"%string) in *.
  destruct (publishFormat_spec cfg br topic r1 (add_calls w c1) "numeric" numeric)
    as (c2 & Hw2 & Ha2 & Hd2).
  destruct (publishFormat cfg br topic (r1, add_calls w c1) ("numeric"%string, numeric))
    as [r2 w2].
  simpl in *. subst w2.
  destruct (publishFormat_spec cfg br topic r2 (add_calls (add_calls w c1) c2)
              "json" (JSON_stringify_cmd action)) as (c3 & Hw3 & Ha3 & Hd3).
  destruct (publishFormat cfg br topic (r2, _) ("json"%string, _)) as [r3 w3].
  simpl in *. subst w3.
  exists (c1 ++ c2 ++ c3). split; [|split].
  - by rewrite !add_calls_app.
  - unfold commands, encodings, formats. simpl. fold numeric.
    rewrite !Forall_app. repeat split.
    + eapply Forall_impl; [exact Ha1|]. intros call ->. simpl. set_solver.
    + eapply Forall_impl; [exact Ha2|]. intros call ->. simpl. set_solver.
    + eapply Forall_impl; [exact Ha3|]. intros call ->. simpl. set_solver.
  - rewrite Hd3, Hd2, Hd1. rewrite !existsb_app. by rewrite <- orb_assoc.
Qed.

Lemma publish_spec cfg br topic action m :
  exists pubRes calls,
    publish cfg br topic action m
      = (pubRes, {| state := state m; world := add_calls (world m) calls |})
    /\ publication topic action pubRes calls.
Proof.
  unfold publish.
  destruct (publishManyFormats_spec cfg br topic action (world m))
    as (calls & Hw & Hall & Hd).
  destruct (publishManyFormats cfg br topic action (world m)) as [pubRes w].
  simpl in *. subst. by exists pubRes, calls.
Qed.

(** The calls of one retry loop: failures, then at most one success, which
    ends the loop. *)
Lemma attempts_shape br topic payload n lastErr w :
  exists (k : nat) (ok : bool),
    (attempts br topic payload n lastErr w).2
    = add_calls w (replicate k (topic, payload, false)
                   ++ if ok then [(topic, payload, true)] else [])
    /\ (attempts br topic payload n lastErr w).1.1 = ok
    /\ (if ok then (k < n)%nat /\ (attempts br topic payload n lastErr w).1.2 = None
        else k = n
             /\ (n = 0%nat -> (attempts br topic payload n lastErr w).1.2 = lastErr)
             /\ (n <> 0%nat -> exists e, (attempts br topic payload n lastErr w).1.2 = Some e)).
Proof.
  revert lastErr w. induction n as [|n IH]; intros lastErr w; simpl.
  - exists 0%nat, false. cbn. rewrite add_calls_nil. repeat split; done.
  - unfold tryPublish.
    destruct (br (length (published w)) topic payload) as [e|] eqn:Hbr.
    + edestruct (IH (Some e)) as (k & ok & Hw & Hok & Hrest).
      exists (S k), ok. rewrite Hw, Hok. split; [|split; [done|]].
      * unfold add_calls; cbn. by rewrite <- app_assoc.
      * destruct ok.
        -- destruct Hrest as [? ?]. split; [lia|done].
        -- destruct Hrest as (-> & H0 & HS). split; [done|]. split; [done|].
           intros _. destruct n; [rewrite H0 by done; by eexists|by apply HS].
    + exists 0%nat, true. cbn. repeat split; try done; lia.
Qed.

(** One round of the outer loop: the format is reported once, as a
    success or as a failure. *)
Lemma publishFormat_shape cfg br topic results w fmt_name fmt_payload :
  0 <= MQTT_RETRY_COUNT cfg ->
  exists (k : nat) (ok : bool) (e : string),
    publishFormat cfg br topic (results, w) (fmt_name, fmt_payload)
    = ({| successes := if ok then successes results ++ [fmt_name] else successes results;
          failures := if ok then failures results
                      else failures results ++ [(fmt_name, e)] |},
       add_calls w (replicate k (topic, fmt_payload, false)
                    ++ if ok then [(topic, fmt_payload, true)] else []))
    /\ (Z.of_nat k + (if ok then 1 else 0) <= MQTT_RETRY_COUNT cfg + 1)
    /\ (ok = false -> Z.of_nat k = MQTT_RETRY_COUNT cfg + 1).
Proof.
  intros Hretry. unfold publishFormat.
  destruct (attempts_shape br topic fmt_payload
              (Z.to_nat (MQTT_RETRY_COUNT cfg + 1)) None w) as (k & ok & Hw & Hok & Hrest).
  destruct (attempts br topic fmt_payload _ None w) as [[ok' lastErr] w'].
  cbn in Hw, Hok, Hrest. subst ok' w'. destruct ok.
  - destruct Hrest as [Hk ->]. exists k, true, ""%string.
    split; [done|]. split; [lia|done].
  - destruct Hrest as (-> & _ & HS). destruct HS as [e ->]; [lia|].
    exists (Z.to_nat (MQTT_RETRY_COUNT cfg + 1)), false, e.
    split; [done|]. split; lia.
Qed.

(** The calls of one round carry the payload of the format at least once
    when the retry count is not negative. *)
Lemma round_sent (k : nat) (ok : bool) (topic payload : string) :
  (ok = false -> (0 < k)%nat) ->
  exists b, (topic, payload, b)
            ∈ replicate k (topic, payload, false)
              ++ if ok then [(topic, payload, true)] else [].
Proof.
  intros Hk. destruct ok.
  - exists true. apply elem_of_app. right. apply list_elem_of_here.
  - exists false. destruct k as [|k]; [specialize (Hk eq_refl); lia|].
    cbn. apply list_elem_of_here.
Qed.

(** With a retry count that is not negative, [publishManyFormats] sends
    every encoding of the action to the topic. *)
Lemma publishManyFormats_sends cfg br topic action w msg :
  0 <= MQTT_RETRY_COUNT cfg ->
  msg ∈ encodings action ->
  exists ok, (topic, msg, ok)
             ∈ calls_since w (publishManyFormats cfg br topic action w).2.
Proof.
  intros Hretry Hmsg. unfold publishManyFormats, encodings, formats in *.
  cbn [fold_left map snd] in *.
  set (r0 := {| successes := []; failures := [] |}).
  set (numeric := if String.eqb action "ON" then "1"%string else "0"%string) in *.
  destruct (publishFormat_shape cfg br topic r0 w "plain" action Hretry)
    as (k1 & ok1 & e1 & -> & Hk1 & Hf1).
  match goal with
  | |- context [publishFormat cfg br topic (?r, ?w0) ("numeric"%string, ?p)] =>
      destruct (publishFormat_shape cfg br topic r w0 "numeric" p Hretry)
        as (k2 & ok2 & e2 & -> & Hk2 & Hf2)
  end.
  match goal with
  | |- context [publishFormat cfg br topic (?r, ?w0) ("json"%string, ?p)] =>
      destruct (publishFormat_shape cfg br topic r w0 "json" p Hretry)
        as (k3 & ok3 & e3 & -> & Hk3 & Hf3)
  end.
  cbn [fst snd]. rewrite !add_calls_app.
  unfold calls_since, add_calls. cbn [published]. rewrite drop_app_length.
  rewrite !elem_of_cons, elem_of_nil in Hmsg.
  destruct Hmsg as [->|[->|[->|[]]]].
  - destruct (round_sent k1 ok1 topic action) as [b Hb]; [intros H; specialize (Hf1 H); lia|].
    exists b. apply elem_of_app. by left.
  - destruct (round_sent k2 ok2 topic numeric) as [b Hb]; [intros H; specialize (Hf2 H); lia|].
    exists b. apply elem_of_app. right. apply elem_of_app. by left.
  - destruct (round_sent k3 ok3 topic (JSON_stringify_cmd action)) as [b Hb];
      [intros H; specialize (Hf3 H); lia|].
    exists b. apply elem_of_app. right. apply elem_of_app. by right.
Qed.

(** With a broker that accepts every call and a retry count that is not
    negative, each encoding is sent once and delivered. *)
Lemma attempts_accepted br topic payload n lastErr w :
  br (length (published w)) topic payload = None ->
  attempts br topic payload (S n) lastErr w
  = (true, None, add_calls w [(topic, payload, true)]).
Proof. intros H. cbn. unfold tryPublish. by rewrite H. Qed.

Lemma publishManyFormats_accepted cfg br topic action w :
  0 <= MQTT_RETRY_COUNT cfg ->
  (forall n t msg, br n t msg = None) ->
  publishManyFormats cfg br topic action w
  = ({| successes := ["plain"; "numeric"; "json"]%string; failures := [] |},
     add_calls w (map (fun msg => (topic, msg, true)) (encodings action))).
Proof.
  intros Hretry Hbr. unfold publishManyFormats, encodings, formats.
  cbn [fold_left map snd]. unfold publishFormat.
  destruct (Z.to_nat (MQTT_RETRY_COUNT cfg + 1)) as [|n] eqn:Hn; [lia|].
  rewrite !attempts_accepted by apply Hbr. cbn.
  by rewrite !add_calls_app.
Qed.

(** [persistEvent] publishes nothing. *)
Lemma persistEvent_published c action reason extra m :
  published (world (persistEvent c action reason extra m)) = published (world m).
Proof. unfold persistEvent. cbn. by destruct (state m). Qed.

(** ** The effect of one [persistEvent] *)

Lemma step_nil c action reason extra m :
  step c action reason extra [] m = persistEvent c action reason extra m.
Proof. unfold step. rewrite add_calls_nil. by destruct m. Qed.

Lemma step_state c action reason extra calls m :
  state (step c action reason extra calls m) = commit action (c_now c) <$> state m.
Proof. reflexivity. Qed.

Lemma step_submitted c action reason extra calls m :
  submitted (world (step c action reason extra calls m))
  = submitted (world m) ++ [eventOf c action reason extra].
Proof.
  unfold step, persistEvent; cbn [world state submitted logIrrigationEvent].
  by destruct (state m).
Qed.

Lemma step_published c action reason extra calls m :
  published (world (step c action reason extra calls m)) = published (world m) ++ calls.
Proof.
  unfold step, persistEvent; cbn [world state published logIrrigationEvent].
  by destruct (state m).
Qed.

Lemma step_events c action reason extra calls m :
  events_since (world m) (world (step c action reason extra calls m))
  = [eventOf c action reason extra].
Proof. unfold events_since. by rewrite step_submitted, drop_app_length. Qed.

Lemma step_calls c action reason extra calls m :
  calls_since (world m) (world (step c action reason extra calls m)) = calls.
Proof. unfold calls_since. by rewrite step_published, drop_app_length. Qed.

Lemma step_deviceStates c action reason extra calls m :
  deviceStates (world (step c action reason extra calls m))
  = match state m with
    | Some s => <[c_deviceId c := DeviceState_stored (commit action (c_now c) s)]>
                  (deviceStates (world m))
    | None => deviceStates (world m)
    end.
Proof.
  unfold step, persistEvent; cbn [world state deviceStates logIrrigationEvent].
  by destruct (state m).
Qed.

Lemma step_irrigationEvents c action reason extra calls m :
  irrigationEvents (world (step c action reason extra calls m))
  = if has_path IrrigationEventSchema_action_enum action
    then irrigationEvents (world m) ++ [IrrigationEvent_stored (eventOf c action reason extra)]
    else irrigationEvents (world m).
Proof.
  unfold step, persistEvent;
    cbn [world state irrigationEvents logIrrigationEvent].
  unfold IrrigationEvent_create. cbn [ev_action eventOf].
  destruct (has_path IrrigationEventSchema_action_enum action);
    by destruct (state m).
Qed.

(** [commit] on the three actions the controller uses. *)
Lemma commit_ON now s :
  commit "ON" now s
  = {| relayState := true;
       lastActionTs := Some now; lastOnTs := Some now;
       lastOffTs := lastOffTs s; lastTelemetry := lastTelemetry s |}.
Proof. reflexivity. Qed.

Lemma commit_OFF now s :
  commit "OFF" now s
  = {| relayState := false;
       lastActionTs := Some now; lastOnTs := lastOnTs s;
       lastOffTs := Some now; lastTelemetry := lastTelemetry s |}.
Proof. reflexivity. Qed.

Lemma commit_RECOMMEND now s :
  commit "RECOMMEND" now s
  = {| relayState := relayState s;
       lastActionTs := Some now; lastOnTs := lastOnTs s;
       lastOffTs := lastOffTs s; lastTelemetry := lastTelemetry s |}.
Proof. reflexivity. Qed.

(** ** Every cycle runs one branch *)

Lemma watchdog_due_iff cfg c m :
  (relayIsOn_of (state m)
   && (MAX_ON_MS cfg <? c_now c - ts_of (state m) lastOnTs))%bool = true
  <-> watchdog_due cfg c m.
Proof.
  unfold watchdog_due. rewrite andb_true_iff, Z.ltb_lt. tauto.
Qed.

Lemma wants_on_iff c m soilPct :
  (Qle_bool soilPct (inject_Z (threshold_on (c_thresholds c)))
   && negb (relayIsOn_of (state m)))%bool = true
  <-> wants_on c m soilPct.
Proof.
  unfold wants_on. rewrite andb_true_iff, Qle_bool_iff, negb_true_iff. tauto.
Qed.

Lemma wants_off_iff c m soilPct :
  (Qle_bool (inject_Z (threshold_off (c_thresholds c))) soilPct
   && relayIsOn_of (state m))%bool = true
  <-> wants_off c m soilPct.
Proof.
  unfold wants_off. rewrite andb_true_iff, Qle_bool_iff. tauto.
Qed.

(** [decisionCycle] runs one of the branches. *)
Lemma decisionCycle_branch cfg br c m :
  Branch cfg c m (decisionCycle cfg br c m).
Proof.
  unfold decisionCycle.
  destruct (relayIsOn_of (state m)
            && (MAX_ON_MS cfg <? c_now c - ts_of (state m) lastOnTs))%bool eqn:Hwd.
  { apply watchdog_due_iff in Hwd.
    destruct (publish_spec cfg br (zoneToRelayTopic (c_deviceId c)) "OFF" m)
      as (pubRes & calls & -> & Hpub).
    by apply branch_watchdog. }
  assert (~ watchdog_due cfg c m) as Hnwd.
  { rewrite <- watchdog_due_iff. congruence. }
  destruct (c_soilPct c) as [soilPct|] eqn:Hsoil.
  2:{ rewrite <- step_nil. by apply branch_no_soil. }
  destruct (Qle_bool soilPct (inject_Z (threshold_on (c_thresholds c)))
            && negb (relayIsOn_of (state m)))%bool eqn:Hon.
  { apply wants_on_iff in Hon.
    destruct (DEBUG_ALLOW_REON cfg) eqn:Hdbg.
    - destruct (publish_spec cfg br (zoneToRelayTopic (c_deviceId c)) "ON" m)
        as (pubRes & calls & -> & Hpub).
      destruct (delivered pubRes) eqn:Hdel.
      + by eapply branch_debug_on.
      + by eapply branch_debug_failed.
    - fold (gate cfg c m). destruct (gate cfg c m) as [allowOn blockReason] eqn:Hgate.
      destruct allowOn.
      + destruct (publish_spec cfg br (zoneToRelayTopic (c_deviceId c)) "ON" m)
          as (pubRes & calls & -> & Hpub).
        destruct (delivered pubRes) eqn:Hdel.
        * eapply branch_on; eauto. by rewrite Hgate.
        * eapply branch_on_failed; eauto. by rewrite Hgate.
      + rewrite <- step_nil.
        replace blockReason with (gate cfg c m).2 by by rewrite Hgate.
        eapply branch_on_blocked; eauto. by rewrite Hgate. }
  assert (~ wants_on c m soilPct) as Hnon.
  { rewrite <- wants_on_iff. congruence. }
  destruct (Qle_bool (inject_Z (threshold_off (c_thresholds c))) soilPct
            && relayIsOn_of (state m))%bool eqn:Hoff.
  { apply wants_off_iff in Hoff.
    destruct (0 <? Z.max 0 (MIN_ON_MS cfg - (c_now c - ts_of (state m) lastOnTs)))
      eqn:Hmin.
    - apply Z.ltb_lt in Hmin. rewrite <- step_nil.
      replace (Z.max 0 (MIN_ON_MS cfg - (c_now c - ts_of (state m) lastOnTs)))
        with (MIN_ON_MS cfg - (c_now c - ts_of (state m) lastOnTs)) by lia.
      eapply branch_min_on; eauto. lia.
    - apply Z.ltb_ge in Hmin.
      destruct (c_now c - ts_of (state m) lastOffTs <? MIN_INTERVAL_BETWEEN_OFF_MS cfg)
        eqn:Hint.
      + apply Z.ltb_lt in Hint. rewrite <- step_nil.
        eapply branch_off_interval; eauto. lia.
      + apply Z.ltb_ge in Hint.
        destruct (publish_spec cfg br (zoneToRelayTopic (c_deviceId c)) "OFF" m)
          as (pubRes & calls & -> & Hpub).
        destruct (delivered pubRes) eqn:Hdel.
        * eapply branch_off; eauto; lia.
        * eapply branch_off_failed; eauto; lia. }
  assert (~ wants_off c m soilPct) as Hnoff.
  { rewrite <- wants_off_iff. congruence. }
  rewrite <- step_nil. by eapply branch_no_action.
Qed.

(** Discard the branches that the hypotheses at hand rule out. *)
Ltac same_soil :=
  repeat match goal with
         | H1 : c_soilPct ?c = Some ?a, H2 : c_soilPct ?c = Some ?b |- _ =>
             assert (b = a) by congruence; subst b; clear H2
         end.

Ltac discard :=
  try contradiction;
  try (exfalso; same_soil;
       first [ contradiction | congruence
             | repeat match goal with
                      | H : wants_on _ _ _ |- _ => destruct H
                      | H : wants_off _ _ _ |- _ => destruct H
                      | H : watchdog_due _ _ _ |- _ => destruct H
                      end;
               first [congruence | lia | tauto] ]).

(** The encodings of OFF and of ON have no message in common. *)
Lemma off_encoding_not_on msg : msg ∈ encodings "OFF" -> msg ∉ encodings "ON".
Proof.
  unfold encodings, formats. cbn. rewrite !elem_of_cons, !elem_of_nil.
  intros [->|[->|[->|[]]]]; intros [?|[?|[?|[]]]]; discriminate.
Qed.

Lemma commands_off_not_on topic call :
  commands topic "OFF" call -> call.1.2 ∉ encodings "ON".
Proof. intros [_ H]. by apply off_encoding_not_on. Qed.

(** ** Whole deliveries: [handleTelemetryMessage] on the collections *)

Lemma loadState_eq deviceId payload w :
  loadState deviceId payload w
  = {| state := Some (loaded deviceId payload w);
       world := DeviceState_save deviceId (loaded deviceId payload w) w |}.
Proof. unfold loadState, loaded. by destruct (DeviceState_findOne deviceId w). Qed.

Lemma handle_eq cfg env payload w :
  handleTelemetryMessage cfg env (JsonObject payload) w
  = world (decisionCycle cfg (broker env) (context env payload)
             (loadState (deviceId_of payload) payload w)).
Proof. reflexivity. Qed.

(** Every message is dropped or handled as the payload it carries. *)
Lemma handle_payload cfg env msg w :
  match truthyPayload (safeParseJSON msg) with
  | Some payload =>
      handleTelemetryMessage cfg env msg w
      = handleTelemetryMessage cfg env (JsonObject payload) w
  | None => handleTelemetryMessage cfg env msg w = w
  end.
Proof. by destruct msg as [text|payload|[|]]. Qed.

Lemma events_since_load deviceId payload w w' :
  events_since (world (loadState deviceId payload w)) w' = events_since w w'.
Proof. by rewrite loadState_eq. Qed.

Lemma calls_since_load deviceId payload w w' :
  calls_since (world (loadState deviceId payload w)) w' = calls_since w w'.
Proof. by rewrite loadState_eq. Qed.

(** What [findOne] returns never has a [lastOffTs]. *)
Lemma findOne_lastOffTs deviceId w s :
  DeviceState_findOne deviceId w = Some s -> lastOffTs s = None.
Proof.
  unfold DeviceState_findOne. destruct (deviceStates w !! deviceId); [|done].
  by intros [= <-].
Qed.

Lemma loaded_relayState deviceId payload w :
  relayState (loaded deviceId payload w)
  = default false (relayState <$> DeviceState_findOne deviceId w).
Proof. unfold loaded. by destruct (DeviceState_findOne deviceId w). Qed.

Lemma loaded_lastOnTs deviceId payload w :
  lastOnTs (loaded deviceId payload w)
  = DeviceState_findOne deviceId w ≫= lastOnTs.
Proof. unfold loaded. by destruct (DeviceState_findOne deviceId w). Qed.

Lemma loaded_lastOffTs deviceId payload w :
  lastOffTs (loaded deviceId payload w) = None.
Proof.
  unfold loaded. destruct (DeviceState_findOne deviceId w) eqn:H; [|done].
  cbn. by eapply findOne_lastOffTs.
Qed.

(** A cycle writes the document of its own device only. *)
Lemma decisionCycle_other cfg br c m deviceId :
  c_deviceId c <> deviceId ->
  deviceStates (world (decisionCycle cfg br c m)) !! deviceId
  = deviceStates (world m) !! deviceId.
Proof.
  intros Hne.
  destruct (decisionCycle_branch cfg br c m);
    rewrite step_deviceStates; destruct (state m); try done;
    by rewrite lookup_insert_ne.
Qed.

Lemma handle_other cfg env payload w deviceId :
  deviceId_of payload <> deviceId ->
  DeviceState_findOne deviceId (handleTelemetryMessage cfg env (JsonObject payload) w)
  = DeviceState_findOne deviceId w.
Proof.
  intros Hne. unfold DeviceState_findOne.
  rewrite handle_eq, decisionCycle_other by done.
  rewrite loadState_eq. cbn. by rewrite lookup_insert_ne.
Qed.

(** Every delivery starts its cycle with [lastOffTs] read as [0], whatever
    was committed before. *)
Lemma cycle_reads_no_lastOffTs deviceId payload w :
  ts_of (state (loadState deviceId payload w)) lastOffTs = 0.
Proof. rewrite loadState_eq. cbn. by rewrite loaded_lastOffTs. Qed.

(** ** The outcome of a delivery *)

Lemma stored_stored d : DeviceState_stored (DeviceState_stored d) = DeviceState_stored d.
Proof. reflexivity. Qed.

(** The document of the device after a cycle that started from the
    loaded one. *)
Lemma step_findOne c action reason extra calls deviceId payload w :
  c_deviceId c = deviceId ->
  DeviceState_findOne deviceId
    (world (step c action reason extra calls (loadState deviceId payload w)))
  = Some (DeviceState_stored (commit action (c_now c) (loaded deviceId payload w))).
Proof.
  intros <-. unfold DeviceState_findOne.
  rewrite step_deviceStates, loadState_eq. cbn [state world].
  by rewrite lookup_insert_eq.
Qed.

Lemma step_recorded c action reason extra calls m :
  irrigationEvents (world (step c action reason extra calls m))
  = irrigationEvents (world m) ++ recorded [eventOf c action reason extra].
Proof.
  rewrite step_irrigationEvents. unfold recorded. cbn [List.filter ev_action eventOf].
  destruct (has_path IrrigationEventSchema_action_enum action); [done|].
  by rewrite app_nil_r.
Qed.

(** The outcome of a delivery: its action, the calls it made, and what
    allowed the action. *)
Lemma delivery_outcome cfg env payload w :
  let id := deviceId_of payload in
  let c := context env payload in
  let w' := handleTelemetryMessage cfg env (JsonObject payload) w in
  let due := stored_relay id w = true /\ MAX_ON_MS cfg < now env - stored_lastOn id w in
  exists action reason extra calls,
    events_since w w' = [eventOf c action reason extra]
    /\ calls_since w w' = calls
    /\ submitted w' = submitted w ++ [eventOf c action reason extra]
    /\ irrigationEvents w'
       = irrigationEvents w ++ recorded [eventOf c action reason extra]
    /\ DeviceState_findOne id w'
       = Some (DeviceState_stored (commit action (now env) (loaded id payload w)))
    /\ ((action = "OFF"%string /\ reason = "watchdog_forced_off"%string /\ due
         /\ Forall (commands (zoneToRelayTopic id) "OFF") calls)
        \/ (action = "OFF"%string /\ reason = "soil_above_threshold_off"%string /\ ~ due
            /\ stored_relay id w = true
            /\ MIN_ON_MS cfg <= now env - stored_lastOn id w
            /\ (exists soilPct, c_soilPct c = Some soilPct
                  /\ (inject_Z (threshold_off (c_thresholds c)) <= soilPct)%Q)
            /\ Forall (commands (zoneToRelayTopic id) "OFF") calls
            /\ existsb resolved calls = true)
        \/ (action = "ON"%string /\ ~ due
            /\ stored_relay id w = false
            /\ (exists soilPct, c_soilPct c = Some soilPct
                  /\ (soilPct <= inject_Z (threshold_on (c_thresholds c)))%Q)
            /\ (DEBUG_ALLOW_REON cfg = false ->
                (onGate cfg (now env) (stored_lastOn id w) 0).1 = true)
            /\ Forall (commands (zoneToRelayTopic id) "ON") calls
            /\ existsb resolved calls = true)
        \/ (action = "RECOMMEND"%string /\ ~ due
            /\ (c_soilPct c = None ->
                reason = "no_numeric_soil"%string /\ extra = ExtraNone /\ calls = [])
            /\ (Forall (commands (zoneToRelayTopic id) "ON") calls
                \/ Forall (commands (zoneToRelayTopic id) "OFF") calls)
            /\ existsb resolved calls = false)).
Proof.
  intros id c w' due. subst w'. rewrite handle_eq.
  rewrite <- (events_since_load id payload w), <- (calls_since_load id payload w).
  fold id c.
  assert (relayIsOn_of (state (loadState id payload w)) = stored_relay id w) as Hrel.
  { rewrite loadState_eq. cbn. apply loaded_relayState. }
  assert (ts_of (state (loadState id payload w)) lastOnTs = stored_lastOn id w) as Hon.
  { rewrite loadState_eq. cbn. by rewrite loaded_lastOnTs. }
  assert (ts_of (state (loadState id payload w)) lastOffTs = 0) as Hoff
    by apply cycle_reads_no_lastOffTs.
  assert (watchdog_due cfg c (loadState id payload w) <-> due) as Hdue.
  { unfold watchdog_due, due. rewrite Hrel, Hon. reflexivity. }
  assert (submitted (world (loadState id payload w)) = submitted w
          /\ irrigationEvents (world (loadState id payload w)) = irrigationEvents w)
    as [Hsub Hirr] by (by rewrite loadState_eq).
  destruct (decisionCycle_branch cfg (broker env) c (loadState id payload w))
    as [pubRes calls Hwd [Hall Hdel]
       |Hnwd Hsoil
       |soilPct pubRes calls Hnwd Hsoil [Hle Hr] Hdbg [Hall Hdel] Hok
       |soilPct pubRes calls Hnwd Hsoil [Hle Hr] Hdbg [Hall Hdel] Hok
       |soilPct pubRes calls Hnwd Hsoil [Hle Hr] Hdbg Hgate [Hall Hdel] Hok
       |soilPct pubRes calls Hnwd Hsoil [Hle Hr] Hdbg Hgate [Hall Hdel] Hok
       |soilPct Hnwd Hsoil [Hle Hr] Hdbg Hgate
       |soilPct Hnwd Hsoil [Hle Hr] Hmin
       |soilPct Hnwd Hsoil [Hle Hr] Hmin Hint
       |soilPct pubRes calls Hnwd Hsoil [Hle Hr] Hmin Hint [Hall Hdel] Hok
       |soilPct pubRes calls Hnwd Hsoil [Hle Hr] Hmin Hint [Hall Hdel] Hok
       |soilPct Hnwd Hsoil Hnon Hnoff];
    rewrite step_events, step_calls, step_submitted, step_recorded,
      step_findOne, Hsub, Hirr by done;
    do 4 eexists;
    (split; [reflexivity|]); (split; [reflexivity|]); (split; [reflexivity|]);
    (split; [reflexivity|]); (split; [reflexivity|]).
  all: rewrite <- ?Hdue, <- ?Hrel, <- ?Hon.
  all: match goal with
       | |- ("OFF"%string = _ /\ "watchdog_forced_off"%string = _ /\ _) \/ _ => left
       | |- ("OFF"%string = _ /\ _) \/ _ => right; left
       | |- ("ON"%string = _ /\ _) \/ _ => right; right; left
       | |- _ => do 3 right
       end.
  all: split_and!; try done; try congruence; try (by eexists);
       try (by left); try (by right).
  intros _. unfold gate in Hgate. by rewrite Hoff in Hgate.
Qed.

Lemma stored_relay_after deviceId w d :
  DeviceState_findOne deviceId w = Some d -> stored_relay deviceId w = relayState d.
Proof. unfold stored_relay. by intros ->. Qed.

Lemma stored_lastOn_after deviceId w d :
  DeviceState_findOne deviceId w = Some d -> stored_lastOn deviceId w = lastOnTs d ?? 0.
Proof. unfold stored_lastOn. by intros ->. Qed.

Lemma delivers_exists topic action calls :
  Forall (commands topic action) calls ->
  existsb resolved calls = true ->
  Exists (delivers topic action) calls.
Proof.
  induction 1 as [|call calls Hc Hall IH]; cbn; [done|].
  destruct (resolved call) eqn:Hres; cbn.
  - intros _. by left.
  - intros H. right. by apply IH.
Qed.

(** ** The watchdog *)

(** The watchdog branch of a cycle: whatever the context holds, a document
    with the relay on for longer than [MAX_ON_MS] is switched off. *)
Lemma watchdog_cycle (cfg : Config) (br : Broker) (c : Ctx) (m : Cycle)
    (s : DeviceState) :
  state m = Some s ->
  relayState s = true ->
  MAX_ON_MS cfg < c_now c - (lastOnTs s ?? 0) ->
  let m' := decisionCycle cfg br c m in
  (exists pubRes,
      events_since (world m) (world m')
      = [eventOf c "OFF" "watchdog_forced_off" (ExtraPublishResults pubRes)]
      /\ delivered pubRes = existsb resolved (calls_since (world m) (world m')))
  /\ Forall (commands (zoneToRelayTopic (c_deviceId c)) "OFF")
            (calls_since (world m) (world m'))
  /\ state m' = Some (commit "OFF" (c_now c) s)
  /\ deviceStates (world m')
     = <[c_deviceId c := DeviceState_stored (commit "OFF" (c_now c) s)]>
         (deviceStates (world m)).
Proof.
  intros Hs Hrel Hmax m'. subst m'.
  assert (watchdog_due cfg c m) as Hwd.
  { unfold watchdog_due. rewrite Hs. by cbn. }
  destruct (decisionCycle_branch cfg br c m)
    as [pubRes calls _ [Hall Hdel]| | | | | | | | | | |]; discard.
  rewrite step_events, step_calls, step_state, step_deviceStates, Hs.
  split; [by eexists|]. done.
Qed.

(** The watchdog branch is one [publishManyFormats] of OFF followed by one
    [persistEvent]. *)
Lemma watchdog_runs (cfg : Config) (br : Broker) (c : Ctx) (m : Cycle) :
  watchdog_due cfg c m ->
  decisionCycle cfg br c m
  = persistEvent c "OFF" "watchdog_forced_off"
      (ExtraPublishResults
         (publishManyFormats cfg br (zoneToRelayTopic (c_deviceId c)) "OFF" (world m)).1)
      {| state := state m;
         world := (publishManyFormats cfg br (zoneToRelayTopic (c_deviceId c)) "OFF"
                     (world m)).2 |}.
Proof.
  intros [Hrel Hmax]. apply Z.ltb_lt in Hmax.
  unfold decisionCycle. rewrite Hrel, Hmax. cbn [andb]. unfold publish.
  by destruct (publishManyFormats cfg br _ "OFF" (world m)).
Qed.

(** With a retry count that is not negative and a broker that accepts
    every call, the watchdog publishes the three encodings of OFF, once
    each. *)
Lemma watchdog_accepted (cfg : Config) (br : Broker) (c : Ctx) (m : Cycle) :
  0 <= MQTT_RETRY_COUNT cfg ->
  (forall n t msg, br n t msg = None) ->
  watchdog_due cfg c m ->
  calls_since (world m) (world (decisionCycle cfg br c m))
  = map (fun msg => (zoneToRelayTopic (c_deviceId c), msg, true)) (encodings "OFF").
Proof.
  intros Hretry Hbr Hwd. rewrite watchdog_runs by done.
  unfold calls_since. rewrite persistEvent_published. cbn [world].
  rewrite publishManyFormats_accepted by done.
  unfold add_calls. cbn [snd published]. by rewrite drop_app_length.
Qed.

(** With a retry count that is not negative, the watchdog sends every
    encoding of OFF to the relay topic of the device. *)
Lemma watchdog_sends (cfg : Config) (br : Broker) (c : Ctx) (m : Cycle) (msg : string) :
  0 <= MQTT_RETRY_COUNT cfg ->
  watchdog_due cfg c m ->
  msg ∈ encodings "OFF" ->
  exists ok, (zoneToRelayTopic (c_deviceId c), msg, ok)
             ∈ calls_since (world m) (world (decisionCycle cfg br c m)).
Proof.
  intros Hretry Hwd Hmsg. rewrite watchdog_runs by done.
  unfold calls_since. rewrite persistEvent_published. cbn [world].
  by apply publishManyFormats_sends.
Qed.

(** C4, amended.  A telemetry event for a device whose stored relay state
    is on and whose [lastOnTs] is older than [MAX_ON_MS] forces the relay
    OFF, whatever the soil reading of the message is (missing, at or below
    [threshold_on], anything).  When [MQTT_RETRY_COUNT] is not negative the
    delivery sends every encoding of OFF to the relay topic of the device,
    and if the broker accepts every call these three calls are all it
    publishes; every message it publishes is an encoding of OFF on that
    topic and none an encoding of ON; it logs one event, OFF with reason
    [watchdog_forced_off], which carries the results of the publication;
    and the stored document has [relayState = false] and
    [lastActionTs = now].  None of the intervals of the configuration is
    consulted. *)
Theorem watchdog_precedence (cfg : Config) (env : Env) (payload : Payload)
    (w : World) (s : DeviceState) :
  DeviceState_findOne (deviceId_of payload) w = Some s ->
  relayState s = true ->
  MAX_ON_MS cfg < now env - (lastOnTs s ?? 0) ->
  let topic := zoneToRelayTopic (deviceId_of payload) in
  let w' := handleTelemetryMessage cfg env (JsonObject payload) w in
  (0 <= MQTT_RETRY_COUNT cfg ->
   forall msg, msg ∈ encodings "OFF" -> exists ok, (topic, msg, ok) ∈ calls_since w w')
  /\ (0 <= MQTT_RETRY_COUNT cfg ->
      (forall n t msg, broker env n t msg = None) ->
      calls_since w w' = map (fun msg => (topic, msg, true)) (encodings "OFF"))
  /\ Forall (commands topic "OFF") (calls_since w w')
  /\ Forall (fun call => call.1.2 ∉ encodings "ON") (calls_since w w')
  /\ (exists ev pubRes,
        events_since w w' = [ev]
        /\ ev = eventOf (context env payload) "OFF" "watchdog_forced_off"
                  (ExtraPublishResults pubRes)
        /\ ev_deviceId ev = deviceId_of payload
        /\ ev_action ev = "OFF"%string
        /\ ev_reason ev = "watchdog_forced_off"%string
        /\ ev_timestamp ev = now env
        /\ ev_extra ev = Some (ExtraPublishResults pubRes)
        /\ delivered pubRes = existsb resolved (calls_since w w'))
  /\ (exists d, DeviceState_findOne (deviceId_of payload) w' = Some d
        /\ relayState d = false
        /\ lastActionTs d = Some (now env)
        /\ lastOnTs d = lastOnTs s).
Proof.
  intros Hs Hrel Hmax topic w'. subst topic w'. rewrite handle_eq.
  rewrite <- (events_since_load (deviceId_of payload) payload w),
          <- (calls_since_load (deviceId_of payload) payload w).
  assert (state (loadState (deviceId_of payload) payload w)
          = Some (loaded (deviceId_of payload) payload w)) as Hst
    by by rewrite loadState_eq.
  assert (relayState (loaded (deviceId_of payload) payload w) = true) as Hrel'
    by (rewrite loaded_relayState, Hs; exact Hrel).
  assert (MAX_ON_MS cfg
          < c_now (context env payload)
            - (lastOnTs (loaded (deviceId_of payload) payload w) ?? 0)) as Hmax'
    by (rewrite loaded_lastOnTs, Hs; exact Hmax).
  destruct (watchdog_cycle cfg (broker env) (context env payload) _ _ Hst Hrel' Hmax')
    as ((pubRes & Hev & Hdel) & Hcalls & _ & Hdb).
  assert (watchdog_due cfg (context env payload)
            (loadState (deviceId_of payload) payload w)) as Hwd.
  { unfold watchdog_due. rewrite Hst. cbn. by rewrite Hrel'. }
  split.
  { intros Hretry msg Hmsg.
    by apply (watchdog_sends cfg (broker env) (context env payload)). }
  split.
  { intros Hretry Hbr.
    by apply (watchdog_accepted cfg (broker env) (context env payload)). }
  split; [exact Hcalls|]. split.
  { eapply Forall_impl; [exact Hcalls|]. intros call. apply commands_off_not_on. }
  split.
  { exists (eventOf (context env payload) "OFF" "watchdog_forced_off"
                    (ExtraPublishResults pubRes)), pubRes.
    split; [exact Hev|]. by repeat split. }
  unfold DeviceState_findOne. rewrite Hdb.
  change (c_deviceId (context env payload)) with (deviceId_of payload).
  rewrite lookup_insert_eq. eexists. split; [reflexivity|].
  rewrite commit_OFF. cbn. by rewrite loaded_lastOnTs, Hs.
Qed.

(** Zone A has been on since time 0 and is seen again five hours later
    with a soil reading far below the ON threshold: the three encodings of
    OFF go to its relay topic, and the document is switched off. *)
Lemma watchdog_precedence_witness :
  (forall msg, msg ∈ encodings "OFF" ->
               exists ok, ("esp32/relay1"%string, msg, ok)
                          ∈ calls_since staleWorld watchdogWorld)
  /\ exists d, DeviceState_findOne "A" watchdogWorld = Some d
               /\ relayState d = false
               /\ lastActionTs d = Some 18000000
               /\ lastOnTs d = Some 0.
Proof.
  pose proof (watchdog_precedence default_config (envAt 18000000 brokerUp)
                (telemetryA (SoilNum 5%Q)) staleWorld
                (mkDeviceState true (Some 0) (Some 0) None None)) as H.
  destruct H as (Hsent & _ & _ & _ & _ & Hdoc).
  - vm_compute. reflexivity.
  - reflexivity.
  - vm_compute. reflexivity.
  - split; [|exact Hdoc]. apply Hsent. vm_compute. discriminate.
Defined.

(** The same delivery on concrete values: what is published and logged. *)
Example watchdog_on_stale_zone :
  calls_since staleWorld watchdogWorld
  = [("esp32/relay1", "OFF", true); ("esp32/relay1", "0", true);
     ("esp32/relay1", JSON_stringify_cmd "OFF", true)]%string
  /\ map (fun ev => (ev_action ev, ev_reason ev)) (events_since staleWorld watchdogWorld)
     = [("OFF", "watchdog_forced_off")]%string.
Proof. vm_compute. split; reflexivity. Qed.

(** C4 as stated fails where the retry loop has no round to run: with
    [MQTT_RETRY_COUNT = -1] the same delivery publishes nothing, and still
    logs the OFF and records the relay as off. *)
Lemma watchdog_without_attempts_sends_nothing :
  relayState <$> DeviceState_findOne "A" staleWorld = Some true
  /\ MAX_ON_MS no_attempt_config < 18000000 - stored_lastOn "A" staleWorld
  /\ calls_since staleWorld unattemptedWatchdog = []
  /\ map (fun ev => (ev_action ev, ev_reason ev))
         (events_since staleWorld unattemptedWatchdog)
     = [("OFF", "watchdog_forced_off")]%string
  /\ relayState <$> DeviceState_findOne "A" unattemptedWatchdog = Some false.
Proof. vm_compute. repeat split; reflexivity. Qed.

(** ** Minimum on-time *)

(** While the relay has been on for less than the minimum on-time and for
    no longer than the watchdog limit, no branch of the cycle publishes
    anything or turns the relay off, whatever the reading. *)
Lemma relay_held (cfg : Config) (br : Broker) (c : Ctx) (m : Cycle)
    (s : DeviceState) (t0 : Z) :
  state m = Some s ->
  relayState s = true ->
  lastOnTs s = Some t0 ->
  c_now c - t0 <= MAX_ON_MS cfg ->
  c_now c < t0 + MIN_ON_MS cfg ->
  let m' := decisionCycle cfg br c m in
  calls_since (world m) (world m') = []
  /\ (exists extra,
        events_since (world m) (world m')
        = [eventOf c "RECOMMEND" (held_reason c) extra])
  /\ state m' = Some (commit "RECOMMEND" (c_now c) s)
  /\ deviceStates (world m')
     = <[c_deviceId c := DeviceState_stored (commit "RECOMMEND" (c_now c) s)]>
         (deviceStates (world m)).
Proof.
  intros Hs Hrel Hon Hmax Hnow m'. subst m'.
  assert (relayIsOn_of (state m) = true) as Hr by by rewrite Hs.
  assert (ts_of (state m) lastOnTs = t0) as Ht by (rewrite Hs; cbn; by rewrite Hon).
  assert (~ watchdog_due cfg c m) as Hnwd by (intros [_ ?]; lia).
  unfold held_reason.
  destruct (decisionCycle_branch cfg br c m)
    as [|? Hsoil| | | | | |? ? Hsoil [Hoff _] ?| | | |? ? Hsoil ? Hnoff]; discard;
    rewrite step_events, step_calls, step_state, step_deviceStates, Hs, Hsoil.
  - eauto 10.
  - apply Qle_bool_iff in Hoff. rewrite Hoff. eauto 10.
  - destruct (Qle_bool _ _) eqn:Hq; [|eauto 10].
    apply Qle_bool_iff in Hq. by destruct Hnoff.
Qed.

(** The same under a configuration whose watchdog limit is not below the
    minimum on-time. *)
Lemma relay_held_on (cfg : Config) (br : Broker) (c : Ctx) (m : Cycle)
    (s : DeviceState) (t0 : Z) :
  MIN_ON_MS cfg <= MAX_ON_MS cfg ->
  state m = Some s ->
  relayState s = true ->
  lastOnTs s = Some t0 ->
  c_now c < t0 + MIN_ON_MS cfg ->
  let m' := decisionCycle cfg br c m in
  calls_since (world m) (world m') = []
  /\ (exists extra,
        events_since (world m) (world m')
        = [eventOf c "RECOMMEND" (held_reason c) extra])
  /\ state m' = Some (commit "RECOMMEND" (c_now c) s)
  /\ deviceStates (world m')
     = <[c_deviceId c := DeviceState_stored (commit "RECOMMEND" (c_now c) s)]>
         (deviceStates (world m)).
Proof.
  intros Hcfg Hs Hrel Hon Hnow. apply (relay_held cfg br c m s t0); try done. lia.
Qed.

(** A cycle that finds the relay on never commands ON, whatever the
    configuration, the clock and the reading: the ON evaluation is entered
    with the relay off only. *)
Lemma relay_on_never_on_again (cfg : Config) (br : Broker) (c : Ctx) (m : Cycle) :
  relayIsOn_of (state m) = true ->
  exists action reason extra calls,
    decisionCycle cfg br c m = step c action reason extra calls m
    /\ action <> "ON"%string
    /\ Forall (fun call => call.1.2 ∉ encodings "ON") calls.
Proof.
  intros Hrel.
  destruct (decisionCycle_branch cfg br c m)
    as [? ? ? [Hall _]| | | | | | | | |? ? ? ? ? ? ? ? [Hall _]
       |? ? ? ? ? ? ? ? [Hall _]|]; discard;
    do 4 eexists; (split; [reflexivity|]); (split; [discriminate|]);
    try constructor;
    (eapply Forall_impl; [exact Hall|]; intros call; apply commands_off_not_on).
Qed.

Lemma commit_keeps_lastOnTs action now s :
  action <> "ON"%string -> lastOnTs (commit action now s) = lastOnTs s.
Proof.
  intros Hne. unfold commit.
  destruct (String.eqb_spec action "ON"); [done|].
  by destruct (String.eqb action "OFF").
Qed.

(** The same with the event of the OFF evaluation spelled out. *)
Lemma min_on_blocks_off (cfg : Config) (br : Broker) (c : Ctx) (m : Cycle)
    (s : DeviceState) (t0 : Z) (soilPct : Q) :
  MIN_ON_MS cfg <= MAX_ON_MS cfg ->
  state m = Some s ->
  relayState s = true ->
  lastOnTs s = Some t0 ->
  c_soilPct c = Some soilPct ->
  (inject_Z (threshold_off (c_thresholds c)) <= soilPct)%Q ->
  c_now c < t0 + MIN_ON_MS cfg ->
  events_since (world m) (world (decisionCycle cfg br c m))
  = [eventOf c "RECOMMEND" "min_on_not_elapsed"
             (ExtraMinOnLeft (t0 + MIN_ON_MS cfg - c_now c))].
Proof.
  intros Hcfg Hs Hrel Hon Hsoil Hoff Hnow.
  assert (relayIsOn_of (state m) = true) as Hr by by rewrite Hs.
  assert (ts_of (state m) lastOnTs = t0) as Ht by (rewrite Hs; cbn; by rewrite Hon).
  assert (~ watchdog_due cfg c m) as Hnwd by (intros [_ ?]; lia).
  assert (wants_off c m soilPct) as Hwo by done.
  destruct (decisionCycle_branch cfg br c m); discard.
  rewrite step_events, Ht. do 3 f_equal. lia.
Qed.

(** C7, amended.  Under a configuration whose watchdog limit is not below
    the minimum on-time ([MIN_ON_MS <= MAX_ON_MS], as with the defaults of
    60 s and 4 h), a device turned ON at [t0] that reports a soil reading at
    or above [threshold_off] before [t0 + MIN_ON_MS] is not turned OFF: the
    delivery publishes nothing, logs a RECOMMEND with reason
    [min_on_not_elapsed] carrying the remaining wait [t0 + MIN_ON_MS - now],
    and the stored document keeps [relayState = true] and [lastOnTs = t0]. *)
Theorem min_on_enforced (cfg : Config) (env : Env) (payload : Payload) (w : World)
    (s : DeviceState) (t0 : Z) (soilPct : Q) :
  MIN_ON_MS cfg <= MAX_ON_MS cfg ->
  DeviceState_findOne (deviceId_of payload) w = Some s ->
  relayState s = true ->
  lastOnTs s = Some t0 ->
  c_soilPct (context env payload) = Some soilPct ->
  (inject_Z (threshold_off (c_thresholds (context env payload))) <= soilPct)%Q ->
  now env < t0 + MIN_ON_MS cfg ->
  let w' := handleTelemetryMessage cfg env (JsonObject payload) w in
  calls_since w w' = []
  /\ (exists ev,
        events_since w w' = [ev]
        /\ ev = eventOf (context env payload) "RECOMMEND" "min_on_not_elapsed"
                  (ExtraMinOnLeft (t0 + MIN_ON_MS cfg - now env))
        /\ ev_deviceId ev = deviceId_of payload
        /\ ev_action ev = "RECOMMEND"%string
        /\ ev_reason ev = "min_on_not_elapsed"%string
        /\ ev_timestamp ev = now env
        /\ ev_extra ev = Some (ExtraMinOnLeft (t0 + MIN_ON_MS cfg - now env)))
  /\ (exists d, DeviceState_findOne (deviceId_of payload) w' = Some d
        /\ relayState d = true /\ lastOnTs d = Some t0).
Proof.
  intros Hcfg Hs Hrel Hon Hsoil Hoff Hnow w'. subst w'. rewrite handle_eq.
  rewrite <- (events_since_load (deviceId_of payload) payload w),
          <- (calls_since_load (deviceId_of payload) payload w).
  assert (state (loadState (deviceId_of payload) payload w)
          = Some (loaded (deviceId_of payload) payload w)) as Hst
    by by rewrite loadState_eq.
  assert (relayState (loaded (deviceId_of payload) payload w) = true) as Hrel'
    by (rewrite loaded_relayState, Hs; exact Hrel).
  assert (lastOnTs (loaded (deviceId_of payload) payload w) = Some t0) as Hon'
    by (rewrite loaded_lastOnTs, Hs; exact Hon).
  destruct (relay_held_on cfg (broker env) (context env payload)
              _ _ t0 Hcfg Hst Hrel' Hon' Hnow)
    as (Hcalls & _ & _ & Hdb).
  split; [exact Hcalls|]. split.
  { eexists. split.
    - by apply (min_on_blocks_off cfg (broker env) (context env payload)
                  _ _ t0 soilPct Hcfg Hst Hrel' Hon').
    - by repeat split. }
  unfold DeviceState_findOne. rewrite Hdb.
  change (c_deviceId (context env payload)) with (deviceId_of payload).
  rewrite lookup_insert_eq. eexists. split; [reflexivity|].
  rewrite commit_RECOMMEND. cbn. by rewrite Hrel', Hon'.
Qed.

(** Zone A, turned ON at [t_first], reports a soaked soil one second
    later: nothing is published, and the event carries the 59 s left. *)
Lemma min_on_enforced_witness :
  calls_since redelivery_w1 minOnWorld = []
  /\ map (fun ev => (ev_action ev, ev_reason ev, ev_extra ev))
         (events_since redelivery_w1 minOnWorld)
     = [("RECOMMEND"%string, "min_on_not_elapsed"%string, Some (ExtraMinOnLeft 59000))].
Proof.
  pose proof (min_on_enforced default_config (envAt (t_first + 1000) brokerUp)
                (telemetryA (SoilNum 90%Q)) redelivery_w1
                (mkDeviceState true (Some t_first) (Some t_first) None
                   (Some (telemetryA (SoilNum 28%Q))))
                t_first 90%Q) as H.
  destruct H as (Hcalls & (ev & Hev & _ & _ & Hact & Hreason & _ & Hextra) & _).
  - vm_compute. discriminate.
  - vm_compute. reflexivity.
  - reflexivity.
  - reflexivity.
  - reflexivity.
  - vm_compute. discriminate.
  - vm_compute. reflexivity.
  - split; [exact Hcalls|].
    change (handleTelemetryMessage default_config (envAt (t_first + 1000) brokerUp)
              (JsonObject (telemetryA (SoilNum 90%Q))) redelivery_w1)
      with minOnWorld in Hev.
    rewrite Hev. cbn [map]. by rewrite Hact, Hreason, Hextra.
Defined.

(** C7 as stated fails when the watchdog limit is below the minimum
    on-time.  With [MAX_ON_MS] at 1 s and [MIN_ON_MS] at 60 s, zone A is
    switched on at [t_first]; a reading of 90, above [threshold_off = 35],
    arrives 2 s later, 58 s before the minimum on-time has elapsed, and
    the relay is switched OFF by the watchdog, which is tested first. *)
Lemma min_on_cut_short_by_watchdog :
  map (fun ev => (ev_action ev, ev_reason ev)) (events_since emptyWorld cutShort_w1)
  = [("ON", "soil_below_threshold_on")]%string
  /\ (fun s => (relayState s, lastOnTs s)) <$> DeviceState_findOne "A" cutShort_w1
     = Some (true, Some t_first)
  /\ t_first + 2000 < t_first + MIN_ON_MS short_watchdog_config
  /\ map (fun ev => (ev_action ev, ev_reason ev, ev_soilPct ev, ev_threshold_off ev))
         (events_since cutShort_w1 cutShort_w2)
     = [("OFF"%string, "watchdog_forced_off"%string, Some 90%Q, 35)]
  /\ calls_since cutShort_w1 cutShort_w2
     = [("esp32/relay1", "OFF", true); ("esp32/relay1", "0", true);
        ("esp32/relay1", JSON_stringify_cmd "OFF", true)]%string
  /\ relayState <$> DeviceState_findOne "A" cutShort_w2 = Some false.
Proof. vm_compute. repeat split; reflexivity. Qed.

(** ** Sequences of deliveries *)

(** One delivery before the minimum on-time has elapsed leaves a relay that
    is on recorded as on, whichever device the message is about. *)
Lemma handle_holds_relay (cfg : Config) (env : Env) (msg : Message) (w : World)
    (deviceId : string) (s : DeviceState) (t0 : Z) :
  MIN_ON_MS cfg <= MAX_ON_MS cfg ->
  DeviceState_findOne deviceId w = Some s ->
  relayState s = true ->
  lastOnTs s = Some t0 ->
  now env < t0 + MIN_ON_MS cfg ->
  exists s', DeviceState_findOne deviceId (handleTelemetryMessage cfg env msg w) = Some s'
             /\ relayState s' = true /\ lastOnTs s' = Some t0.
Proof.
  intros Hcfg Hs Hrel Hon Hnow.
  pose proof (handle_payload cfg env msg w) as Hmsg.
  destruct (truthyPayload (safeParseJSON msg)) as [payload|];
    rewrite Hmsg; [|by eauto].
  destruct (decide (deviceId_of payload = deviceId)) as [<-|Hne].
  2:{ rewrite handle_other by done. eauto. }
  rewrite handle_eq.
  destruct (relay_held_on cfg (broker env) (context env payload)
              (loadState (deviceId_of payload) payload w)
              (loaded (deviceId_of payload) payload w) t0 Hcfg)
    as (_ & _ & _ & Hdb).
  { by rewrite loadState_eq. }
  { by rewrite loaded_relayState, Hs, <- Hrel. }
  { by rewrite loaded_lastOnTs, Hs. }
  { done. }
  unfold DeviceState_findOne. rewrite Hdb.
  change (c_deviceId (context env payload)) with (deviceId_of payload).
  rewrite lookup_insert_eq. eexists. split; [reflexivity|].
  rewrite commit_RECOMMEND. cbn.
  rewrite loaded_relayState, loaded_lastOnTs, Hs. cbn. by rewrite Hrel, Hon.
Qed.

(** However many messages are handled in turn before [t0 + MIN_ON_MS],
    about whatever devices and with whatever readings, the relay turned on
    at [t0] stays recorded as on. *)
Lemma run_holds_relay (cfg : Config) (deliveries : list (Env * Message)) (w : World)
    (deviceId : string) (s : DeviceState) (t0 : Z) :
  MIN_ON_MS cfg <= MAX_ON_MS cfg ->
  DeviceState_findOne deviceId w = Some s ->
  relayState s = true ->
  lastOnTs s = Some t0 ->
  Forall (fun d => now d.1 < t0 + MIN_ON_MS cfg) deliveries ->
  exists s', DeviceState_findOne deviceId (run_in_turn cfg deliveries w) = Some s'
             /\ relayState s' = true /\ lastOnTs s' = Some t0.
Proof.
  intros Hcfg. revert w s.
  induction deliveries as [|d ds IH]; intros w s Hs Hrel Hon Hall; [by eauto|].
  inversion Hall as [|? ? Hd Hds]; subst.
  destruct (handle_holds_relay cfg d.1 d.2 w deviceId s t0 Hcfg Hs Hrel Hon Hd)
    as (s1 & Hs1 & Hrel1 & Hon1).
  cbn. by eapply IH.
Qed.

(** ** The ON gate *)

Lemma onGate_allowed cfg now lastOn lastOff :
  (onGate cfg now lastOn lastOff).1 = on_allowed cfg now lastOn lastOff.
Proof.
  unfold onGate, on_allowed. rewrite Z.gtb_ltb, !Z.geb_leb.
  by repeat case_match.
Qed.








(** ** Publish failures *)

Lemma none_resolved calls :
  Forall (fun call => resolved call = false) calls -> existsb resolved calls = false.
Proof.
  induction 1 as [|call calls Hc _ IH]; [done|]. cbn. by rewrite Hc, IH.
Qed.

(** C2, amended.  In a cycle that is not cut short by the watchdog, when
    the controller publishes a relay command (in the ON evaluation, with or
    without the debug flag, or in the OFF evaluation) and none of the calls
    resolves, it logs one RECOMMEND event with a publish-failure reason, and
    the document keeps its [relayState], [lastOnTs] and [lastOffTs]: the only
    assignment is [lastActionTs = now].  No relay transition is recorded. *)
Theorem publish_failure_keeps_relay_state (cfg : Config) (br : Broker) (c : Ctx)
    (m : Cycle) :
  ~ watchdog_due cfg c m ->
  let m' := decisionCycle cfg br c m in
  calls_since (world m) (world m') <> [] ->
  Forall (fun call => resolved call = false) (calls_since (world m) (world m')) ->
  (exists reason extra,
      events_since (world m) (world m') = [eventOf c "RECOMMEND" reason extra]
      /\ reason ∈ publish_failure_reasons)
  /\ state m' = commit "RECOMMEND" (c_now c) <$> state m
  /\ relayIsOn_of (state m') = relayIsOn_of (state m)
  /\ ts_of (state m') lastOnTs = ts_of (state m) lastOnTs
  /\ ts_of (state m') lastOffTs = ts_of (state m) lastOffTs
  /\ deviceStates (world m')
     = match state m with
       | Some s => <[c_deviceId c := DeviceState_stored (commit "RECOMMEND" (c_now c) s)]>
                     (deviceStates (world m))
       | None => deviceStates (world m)
       end.
Proof.
  intros Hnwd m'. subst m'.
  destruct (decisionCycle_branch cfg br c m)
    as [|
        |? ? ? ? ? ? ? [_ Hd] Hdel |? ? ? ? ? ? ? _ _
        |? ? ? ? ? ? ? ? [_ Hd] Hdel |? ? ? ? ? ? ? ? _ _
        | | |
        |? ? ? ? ? ? ? ? [_ Hd] Hdel |? ? ? ? ? ? ? ? _ _
        |]; discard;
    rewrite step_calls, step_events, step_state, step_deviceStates; intros Hne Hall;
    try done;
    try (apply none_resolved in Hall; congruence).
  all: split; [do 2 eexists; split; [reflexivity|]; unfold publish_failure_reasons;
               set_solver|].
  all: split; [done|]; by destruct (state m).
Qed.

(** Zone A, never switched, reads 28 while the broker rejects every call. *)
Lemma publish_failure_keeps_relay_state_witness :
  relayIsOn_of
    (state (decisionCycle default_config brokerDown (ctxA 40000 brokerDown) freshA))
  = false.
Proof.
  pose proof (publish_failure_keeps_relay_state default_config brokerDown
                (ctxA 40000 brokerDown) freshA) as H.
  destruct H as (_ & _ & Hrel & _).
  - vm_compute. intros [H _]. discriminate H.
  - vm_compute. discriminate.
  - vm_compute. repeat constructor.
  - exact Hrel.
Defined.

(** C2 as stated fails at two inputs.  In the ON evaluation of a new device
    with the broker down, six calls are made and none resolves, the event is
    a RECOMMEND with reason [publish_failed_on], and yet the stored document
    changes: [lastActionTs] goes from [null] to [now].  On the watchdog path
    with the broker down, none of the calls resolves either, and the cycle
    logs OFF and records the relay as switched off. *)
Lemma publish_failure_still_updates_state :
  (length (calls_since (world freshA) (world failedA)) = 6%nat
   /\ Forall (fun call => resolved call = false)
             (calls_since (world freshA) (world failedA))
   /\ map (fun ev => (ev_action ev, ev_reason ev))
          (events_since (world freshA) (world failedA))
      = [("RECOMMEND", "publish_failed_on")]%string
   /\ lastActionTs <$> DeviceState_findOne "A" (world freshA) = Some None
   /\ lastActionTs <$> DeviceState_findOne "A" (world failedA) = Some (Some 40000)
   /\ DeviceState_findOne "A" (world failedA) <> DeviceState_findOne "A" (world freshA))
  /\ (length (calls_since staleWorld failedWatchdog) = 6%nat
      /\ Forall (fun call => resolved call = false)
                (calls_since staleWorld failedWatchdog)
      /\ map (fun ev => (ev_action ev, ev_reason ev))
             (events_since staleWorld failedWatchdog)
         = [("OFF", "watchdog_forced_off")]%string
      /\ relayState <$> DeviceState_findOne "A" staleWorld = Some true
      /\ relayState <$> DeviceState_findOne "A" failedWatchdog = Some false).
Proof.
  vm_compute. repeat split; try reflexivity.
  - repeat constructor.
  - discriminate.
  - repeat constructor.
Qed.

(** ** The debug flag *)

Lemma commands_on_not_off topic call :
  commands topic "ON" call -> ~ commands topic "OFF" call.
Proof.
  intros [_ Hon] [_ Hoff]. by apply off_encoding_not_on in Hoff.
Qed.

(** C10, amended.  With [DEBUG_ALLOW_REON] false, a cycle that publishes an
    encoding of ON, or logs an ON event, has passed the interval gate.  With
    the flag true, a reading at or below [threshold_on] on a device whose
    relay is off publishes ON whatever the timestamps are; if at least one
    call resolves the cycle logs ON with reason [debug_force_on] and records
    [relayState = true] and [lastOnTs = now] at once, and if none resolves
    it logs a RECOMMEND with reason [debug_publish_failed_on] and the relay
    stays recorded as off. *)
Theorem debug_flag_bypass (cfg : Config) (br : Broker) (c : Ctx) (m : Cycle) :
  let m' := decisionCycle cfg br c m in
  let topic := zoneToRelayTopic (c_deviceId c) in
  (DEBUG_ALLOW_REON cfg = false ->
   Exists (commands topic "ON") (calls_since (world m) (world m'))
   \/ (exists ev, events_since (world m) (world m') = [ev] /\ ev_action ev = "ON"%string) ->
   on_allowed cfg (c_now c) (ts_of (state m) lastOnTs) (ts_of (state m) lastOffTs) = true)
  /\ (DEBUG_ALLOW_REON cfg = true ->
      forall (s : DeviceState) (soilPct : Q),
        state m = Some s ->
        relayState s = false ->
        c_soilPct c = Some soilPct ->
        (soilPct <= inject_Z (threshold_on (c_thresholds c)))%Q ->
        exists pubRes calls,
          publication topic "ON" pubRes calls
          /\ calls_since (world m) (world m') = calls
          /\ if existsb resolved calls
             then events_since (world m) (world m')
                  = [eventOf c "ON" "debug_force_on" (ExtraPublishResults pubRes)]
                  /\ relayIsOn_of (state m') = true
                  /\ ts_of (state m') lastOnTs = c_now c
                  /\ relayState <$> DeviceState_findOne (c_deviceId c) (world m')
                     = Some true
             else events_since (world m) (world m')
                  = [eventOf c "RECOMMEND" "debug_publish_failed_on"
                             (ExtraPublishResults pubRes)]
                  /\ relayIsOn_of (state m') = false
                  /\ relayState <$> DeviceState_findOne (c_deviceId c) (world m')
                     = Some false).
Proof.
  intros m' topic. subst m' topic. split.
  - intros Hdbg. rewrite <- onGate_allowed. fold (gate cfg c m).
    destruct (decisionCycle_branch cfg br c m)
      as [? calls ? [Hall _]| | | | | | | | |? ? calls ? ? ? ? ? [Hall _]
          |? ? calls ? ? ? ? ? [Hall _]|];
      discard; rewrite step_calls, step_events; try done;
      intros [Hex|(ev & [= <-] & Hact)];
      try (by apply Exists_nil in Hex); try discriminate Hact.
    all: apply Exists_exists in Hex as (call & Hin & Hon);
      rewrite Forall_forall in Hall; specialize (Hall call Hin);
      by apply commands_on_not_off in Hon.
  - intros Hdbg s soilPct Hs Hrel Hsoil Hle.
    assert (relayIsOn_of (state m) = false) as Hr by by rewrite Hs.
    assert (wants_on c m soilPct) as Hwo by done.
    assert (~ watchdog_due cfg c m) as Hnwd by (intros [? _]; congruence).
    destruct (decisionCycle_branch cfg br c m)
      as [| |? pubRes calls ? ? ? ? Hpub Hdel |? pubRes calls ? ? ? ? Hpub Hdel
          | | | | | | | |]; discard;
      exists pubRes, calls; (split; [exact Hpub|]);
      rewrite step_calls, step_events, step_state, Hs; (split; [done|]);
      destruct Hpub as [_ <-]; rewrite Hdel;
      unfold DeviceState_findOne; rewrite step_deviceStates, Hs, lookup_insert_eq.
    + rewrite commit_ON. by cbn.
    + rewrite commit_RECOMMEND. cbn. by rewrite Hrel.
Qed.

(** With the flag set, zone A is switched on 1 s after an OFF and 2 s after
    the previous ON, inside both intervals. *)
Lemma debug_flag_bypass_witness :
  on_allowed debug_config 10000 8000 9000 = false
  /\ relayIsOn_of
       (state (decisionCycle debug_config brokerUp (ctxA 10000 brokerUp) cooledA))
     = true.
Proof.
  split; [reflexivity|].
  destruct (proj2 (debug_flag_bypass debug_config brokerUp (ctxA 10000 brokerUp) cooledA)
              eq_refl (mkDeviceState false (Some 9000) (Some 8000) (Some 9000) None)
              28%Q)
    as (pubRes & calls & _ & Hcalls & H).
  - reflexivity.
  - reflexivity.
  - reflexivity.
  - vm_compute. discriminate.
  - rewrite <- Hcalls in H.
    replace (existsb resolved _) with true in H by (vm_compute; reflexivity).
    exact (proj1 (proj2 H)).
Defined.

(** C10 as stated fails at this input: the flag is set, the reading (28) is
    below the threshold (30) and the relay is off, but the broker rejects
    every call, so nothing is committed: the event is a RECOMMEND and the
    relay is still recorded as off. *)
Lemma debug_on_needs_delivery :
  DEBUG_ALLOW_REON debug_config = true
  /\ c_soilPct (ctxA 40000 brokerDown) = Some 28%Q
  /\ threshold_on (c_thresholds (ctxA 40000 brokerDown)) = 30
  /\ relayIsOn_of (state freshA) = false
  /\ map (fun ev => (ev_action ev, ev_reason ev))
         (events_since (world freshA)
            (world (decisionCycle debug_config brokerDown (ctxA 40000 brokerDown) freshA)))
     = [("RECOMMEND", "debug_publish_failed_on")]%string
  /\ relayIsOn_of
       (state (decisionCycle debug_config brokerDown (ctxA 40000 brokerDown) freshA))
     = false
  /\ relayState <$> DeviceState_findOne "A"
        (world (decisionCycle debug_config brokerDown (ctxA 40000 brokerDown) freshA))
     = Some false.
Proof. vm_compute. repeat split; reflexivity. Qed.

(** ** The event log *)

(** Every parsed message hands exactly one event to [logIrrigationEvent],
    with action ON, OFF or RECOMMEND; the collection takes it unless the
    action is RECOMMEND, which the enum of the schema does not list. *)
Lemma cycle_logs_once cfg env payload w :
  let w' := handleTelemetryMessage cfg env (JsonObject payload) w in
  exists ev,
    events_since w w' = [ev]
    /\ ev_action ev ∈ controller_actions
    /\ irrigationEvents w'
       = if String.eqb (ev_action ev) "RECOMMEND"
         then irrigationEvents w
         else irrigationEvents w ++ [IrrigationEvent_stored ev].
Proof.
  intros w'. subst w'. rewrite handle_eq.
  rewrite <- (events_since_load (deviceId_of payload) payload w).
  replace (irrigationEvents w)
    with (irrigationEvents (world (loadState (deviceId_of payload) payload w)))
    by by rewrite loadState_eq.
  destruct (decisionCycle_branch cfg (broker env) (context env payload)
              (loadState (deviceId_of payload) payload w));
    rewrite step_events, step_irrigationEvents;
    (eexists; split; [reflexivity|]); cbn;
    (split; [unfold controller_actions; set_solver|done]).
Qed.

(** C1: the code evaluated where the claim fails.  Zone A reports a soil
    reading of 50 with the relay off: the cycle takes the [no_action] branch
    and hands one RECOMMEND event to [IrrigationEvent.create]; RECOMMEND is
    not in the enum of the schema, the rejection is swallowed, and the
    collection stays empty. *)
Theorem recommend_is_not_recorded :
  map (fun ev => (ev_action ev, ev_reason ev))
      (submitted (handleTelemetryMessage default_config (envAt 40000 brokerUp)
                    (JsonObject (telemetryA (SoilNum 50%Q))) emptyWorld))
  = [("RECOMMEND", "no_action")]%string
  /\ has_path IrrigationEventSchema_action_enum "RECOMMEND" = false
  /\ irrigationEvents (handleTelemetryMessage default_config (envAt 40000 brokerUp)
                         (JsonObject (telemetryA (SoilNum 50%Q))) emptyWorld) = [].
Proof. vm_compute. repeat split; reflexivity. Qed.

(** ** Re-delivery *)

(** C5, amended.  If a delivery commits an ON, the identical message
    delivered again and handled after that cycle has completed, with
    nothing in between, never leads to a second ON, under any configuration
    and at any time: the relay is now recorded as on, so the ON evaluation
    (and with it the between-ON gate) is not entered; no message that the
    second delivery publishes is an encoding of ON, its event is not an ON,
    and the [lastOnTs] on record stays that of the first delivery.  If the
    second delivery is handled while the relay has been on for no longer
    than [MAX_ON_MS] and for less than [MIN_ON_MS] (with the defaults: less
    than 60 s later, which covers the 30 s of [MIN_INTERVAL_BETWEEN_ON_MS]),
    it publishes nothing at all and logs a RECOMMEND whose reason is
    [no_action], or [min_on_not_elapsed] when the reading is also at or
    above [threshold_off]; the document keeps [relayState = true]. *)
Theorem redelivery_is_not_a_second_on (cfg : Config) (env1 env2 : Env)
    (payload : Payload) (w : World) :
  let id := deviceId_of payload in
  let w1 := handleTelemetryMessage cfg env1 (JsonObject payload) w in
  let w2 := handleTelemetryMessage cfg env2 (JsonObject payload) w1 in
  (exists ev, events_since w w1 = [ev] /\ ev_action ev = "ON"%string) ->
  Forall (fun call => call.1.2 ∉ encodings "ON") (calls_since w1 w2)
  /\ (exists ev, events_since w1 w2 = [ev]
                 /\ ev_action ev <> "ON"%string
                 /\ ev_deviceId ev = id
                 /\ ev_timestamp ev = now env2)
  /\ (exists d, DeviceState_findOne id w2 = Some d /\ lastOnTs d = Some (now env1))
  /\ (now env2 - now env1 <= MAX_ON_MS cfg ->
      now env2 < now env1 + MIN_ON_MS cfg ->
      calls_since w1 w2 = []
      /\ (exists ev reason extra,
            events_since w1 w2 = [ev]
            /\ ev = eventOf (context env2 payload) "RECOMMEND" reason extra
            /\ ev_action ev = "RECOMMEND"%string
            /\ ev_reason ev = reason
            /\ (reason = "no_action"%string \/ reason = "min_on_not_elapsed"%string))
      /\ (exists d, DeviceState_findOne id w2 = Some d
            /\ relayState d = true /\ lastOnTs d = Some (now env1))).
Proof.
  intros id w1 w2 (ev & Hev & Hact).
  (* the first delivery took an ON branch *)
  assert (exists d, DeviceState_findOne id w1 = Some d
            /\ relayState d = true /\ lastOnTs d = Some (now env1)
            /\ is_Some (c_soilPct (context env1 payload))) as (d & Hd & Hrel & Hon & Hsoil).
  { subst w1.
    destruct (delivery_outcome cfg env1 payload w)
      as (action & reason & extra & calls & Hev1 & _ & _ & _ & Hdoc & Hcase).
    fold id in Hdoc, Hcase. rewrite Hev1 in Hev. injection Hev as <-.
    cbn [ev_action eventOf] in Hact. subst action.
    destruct Hcase as [(? & _)|[(? & _)|[(_ & _ & _ & (soil & Hs & _) & _)|(? & _)]]];
      try discriminate.
    eexists. split; [exact Hdoc|]. rewrite commit_ON.
    split; [reflexivity|]. split; [reflexivity|]. rewrite Hs. by eexists. }
  (* the second delivery finds the relay on *)
  clearbody w1. clear Hev. subst w2. rewrite handle_eq. fold id.
  rewrite <- (events_since_load id payload w1), <- (calls_since_load id payload w1).
  assert (state (loadState id payload w1) = Some (loaded id payload w1)) as Hst
    by by rewrite loadState_eq.
  assert (relayState (loaded id payload w1) = true) as Hrel'
    by (rewrite loaded_relayState, Hd; exact Hrel).
  assert (lastOnTs (loaded id payload w1) = Some (now env1)) as Hon'
    by (rewrite loaded_lastOnTs, Hd; exact Hon).
  destruct (relay_on_never_on_again cfg (broker env2) (context env2 payload)
              (loadState id payload w1)) as (action & reason & extra & calls & Heq & Hne & Hall).
  { by rewrite Hst. }
  split; [|split; [|split]].
  - rewrite Heq, step_calls. exact Hall.
  - rewrite Heq, step_events. eexists. split; [reflexivity|]. by repeat split.
  - unfold DeviceState_findOne. rewrite Heq, step_deviceStates, Hst.
    change (c_deviceId (context env2 payload)) with id.
    rewrite lookup_insert_eq. eexists. split; [reflexivity|].
    cbn. change (strict DeviceStateSchema "lastOnTs" ?x) with x.
    by rewrite commit_keeps_lastOnTs.
  - intros Hmax Hmin.
    destruct (relay_held cfg (broker env2) (context env2 payload)
                (loadState id payload w1) (loaded id payload w1) (now env1)
                Hst Hrel' Hon' Hmax Hmin)
      as (Hcalls & (extra' & Hev2) & _ & Hdb).
    split; [exact Hcalls|]. split.
    + exists (eventOf (context env2 payload) "RECOMMEND"
                      (held_reason (context env2 payload)) extra'),
             (held_reason (context env2 payload)), extra'.
      split; [exact Hev2|]. split; [reflexivity|]. split; [reflexivity|].
      split; [reflexivity|].
      unfold held_reason.
      change (c_soilPct (context env2 payload)) with (c_soilPct (context env1 payload)).
      destruct Hsoil as [soil ->]. case_match; auto.
    + unfold DeviceState_findOne. rewrite Hdb.
      change (c_deviceId (context env2 payload)) with id.
      rewrite lookup_insert_eq. eexists. split; [reflexivity|].
      rewrite commit_RECOMMEND. cbn. by rewrite Hrel', Hon'.
Qed.

(** The scenario of the specification: the second delivery, 10 s after
    the first, publishes nothing and is not an ON. *)
Lemma redelivery_is_not_a_second_on_witness :
  calls_since redelivery_w1 redelivery_w2 = []
  /\ exists ev, events_since redelivery_w1 redelivery_w2 = [ev]
                /\ ev_action ev <> "ON"%string
                /\ ev_deviceId ev = "A"%string
                /\ ev_timestamp ev = t_first + 10000.
Proof.
  pose proof (redelivery_is_not_a_second_on default_config
                (envAt t_first brokerUp) (envAt (t_first + 10000) brokerUp)
                (telemetryA (SoilNum 28%Q)) emptyWorld) as H.
  destruct H as (_ & Hev & _ & Hquiet).
  - eexists. split; vm_compute; reflexivity.
  - split; [|exact Hev]. apply Hquiet; vm_compute; [discriminate|reflexivity].
Defined.

(** C5 as stated fails on that scenario: the first delivery commits the ON,
    and the second logs a RECOMMEND whose reason is [no_action], not a
    reason of the between-ON gate. *)
Lemma redelivery_reason_is_no_action :
  map (fun ev => (ev_action ev, ev_reason ev)) (events_since emptyWorld redelivery_w1)
  = [("ON", "soil_below_threshold_on")]%string
  /\ relayState <$> DeviceState_findOne "A" redelivery_w1 = Some true
  /\ calls_since redelivery_w1 redelivery_w2 = []
  /\ map (fun ev => (ev_action ev, ev_reason ev)) (events_since redelivery_w1 redelivery_w2)
     = [("RECOMMEND", "no_action")]%string
  /\ Forall (fun ev => String.prefix "blocked_by_min_between_on" (ev_reason ev) = false)
            (events_since redelivery_w1 redelivery_w2).
Proof.
  vm_compute. repeat split; try reflexivity. repeat constructor.
Qed.

(** Past the watchdog limit the second delivery is not a RECOMMEND: with
    [MAX_ON_MS] at 1 s the duplicate that arrives 10 s after the ON is
    answered by the watchdog's OFF.  It is not a second ON either. *)
Example redelivery_past_the_watchdog_limit :
  map (fun ev => (ev_action ev, ev_reason ev)) (events_since emptyWorld cutShort_w1)
  = [("ON", "soil_below_threshold_on")]%string
  /\ map (fun ev => (ev_action ev, ev_reason ev))
         (events_since cutShort_w1 cutShort_redelivery)
     = [("OFF", "watchdog_forced_off")]%string
  /\ map (fun call => call.1.2) (calls_since cutShort_w1 cutShort_redelivery)
     = encodings "OFF".
Proof. vm_compute. repeat split; reflexivity. Qed.

(** What the amended statement leaves out.  The listener does not wait
    for a cycle to end before it starts the next, and the second of two
    cycles that have both read the document before either has saved its
    decision finds the relay off, as the first did: the duplicate is
    answered with a second ON, 5 ms after the first. *)
Example overlapping_redelivery_switches_on_twice :
  map (fun ev => (ev_action ev, ev_reason ev, ev_timestamp ev))
      (events_since emptyWorld overlap_w2)
  = [("ON"%string, "soil_below_threshold_on"%string, t_first);
     ("ON"%string, "soil_below_threshold_on"%string, t_first + 5)]
  /\ map (fun call => call.1.2) (calls_since emptyWorld overlap_w2)
     = encodings "ON" ++ encodings "ON"
  /\ (fun s => (relayState s, lastOnTs s)) <$> DeviceState_findOne "A" overlap_w2
     = Some (true, Some (t_first + 5)).
Proof. vm_compute. repeat split; reflexivity. Qed.

(** ** The record of the last OFF *)

(** C3: the schema evaluated.  [lastOffTs] is not a path of
    [DeviceStateSchema], so no document read back from the collection has
    it.  In the run above the OFF is committed, the stored document has no
    [lastOffTs], and the dry reading 1 s later is answered with an ON: the
    gate compares [0] with [lastOnTs] and applies the between-ON interval,
    where the timestamps of the run ([lastOffTs > lastOnTs], 1 s since the
    OFF) would have blocked. *)
Theorem lastOffTs_is_not_stored :
  has_path DeviceStateSchema "lastOffTs" = false
  /\ map (fun ev => (ev_action ev, ev_reason ev)) (events_since cooldown_w1 cooldown_w2)
     = [("OFF", "soil_above_threshold_off")]%string
  /\ (fun s => (relayState s, lastOnTs s, lastOffTs s))
       <$> DeviceState_findOne "A" cooldown_w2
     = Some (false, Some t_first, None)
  /\ map (fun ev => (ev_action ev, ev_reason ev)) (events_since cooldown_w2 cooldown_w3)
     = [("ON", "soil_below_threshold_on")]%string
  /\ on_allowed default_config (t_first + 71000) t_first (t_first + 70000) = false.
Proof.
  vm_compute. repeat split; reflexivity.
Qed.

(** ** The threshold band *)

Lemma Math_round_mono (x y : Q) : (x <= y)%Q -> Math_round x <= Math_round y.
Proof.
  intros H. unfold Math_round. apply Qfloor_resp_le.
  apply Qplus_le_compat; [exact H|apply Qle_refl].
Qed.

Lemma Math_round_inject (n : Z) : Math_round (inject_Z n) = n.
Proof.
  unfold Math_round, inject_Z, Qplus, Qfloor. cbn.
  change (Z.pos (1 * 2)) with 2. rewrite Z.mul_1_r.
  rewrite Z.div_add_l by discriminate.
  replace (1 `div` 2) with 0 by reflexivity. lia.
Qed.

Lemma Math_round_comp (x y : Q) : (x == y)%Q -> Math_round x = Math_round y.
Proof.
  intros H. unfold Math_round. apply Qfloor_comp. by rewrite H.
Qed.

(** [max(lo, min(hi, v))] lies in [[lo, hi]] when that interval is not
    empty, and is [lo] when it is. *)
Lemma clamp_bounds (v lo hi : Q) :
  (lo <= hi)%Q -> (lo <= Qmax lo (Qmin hi v) <= hi)%Q.
Proof.
  intros H. split; [apply Q.le_max_l|].
  apply Q.max_lub; [exact H|apply Q.le_min_l].
Qed.

(** The two roundings of a band [[wp + 3, fc - 3]] that is not empty and
    ends at most at 97: backend and frontend. *)
Lemma band_core (raw wp fc h : Q) :
  (fc <= 100)%Q -> (wp + 3 <= fc - 3)%Q -> (0 <= h)%Q ->
  let ton := Math_round (Qmax (wp + 3) (Qmin (fc - 3) raw)) in
  let toff := Math_round (Qmin 100 (inject_Z ton + h)) in
  let toff' := Math_round (Frontend.clamp (inject_Z ton + h) (inject_Z ton) 100) in
  Math_round (wp + 3) <= ton <= Math_round (fc - 3)
  /\ ton <= 97
  /\ ton <= toff <= 100
  /\ ton <= toff' <= 100.
Proof.
  intros Hfc Hband Hh ton toff toff'.
  destruct (clamp_bounds raw (wp + 3) (fc - 3) Hband) as [Hlo Hhi].
  assert (Math_round (wp + 3) <= ton <= Math_round (fc - 3)) as Hton.
  { split; by apply Math_round_mono. }
  assert (ton <= 97) as H97.
  { etrans; [apply Hton|]. rewrite <- (Math_round_inject 97).
    apply Math_round_mono. change (inject_Z 97) with 97%Q. lra. }
  assert (inject_Z ton <= 97)%Q as HtonQ.
  { change 97%Q with (inject_Z 97). by rewrite <- Zle_Qle. }
  split; [exact Hton|]. split; [exact H97|]. split; split.
  - rewrite <- (Math_round_inject ton) at 1. apply Math_round_mono.
    apply Q.min_glb; lra.
  - rewrite <- (Math_round_inject 100). apply Math_round_mono.
    change (inject_Z 100) with 100%Q. apply Q.le_min_l.
  - rewrite <- (Math_round_inject ton) at 1. apply Math_round_mono.
    unfold Frontend.clamp. apply Q.le_max_l.
  - rewrite <- (Math_round_inject 100). apply Math_round_mono.
    change (inject_Z 100) with 100%Q. unfold Frontend.clamp.
    apply Q.max_lub; [lra|apply Q.le_min_l].
Qed.

(** C8, amended.  For a valid profile whose band is not empty
    ([wiltingPointPct + 3 <= fieldCapacityPct - 3]), and any telemetry and
    forecast, both implementations of [computeThreshold] return integers with
    [threshold_on <= threshold_off <= 100] and [threshold_on] between the
    roundings of [wiltingPointPct + 3] and [fieldCapacityPct - 3]; when the
    two percentages are whole numbers these are the bounds themselves:
    [wiltingPointPct + 3 <= threshold_on <= fieldCapacityPct - 3]. *)
Theorem band_ordering (crops : gmap string CropProfile) (telemetry : Telemetry)
    (forecast : option Forecast) (cropProfile : CropProfile) :
  let r := Threshold.computeThreshold crops telemetry forecast cropProfile in
  let r' := Frontend.computeThreshold telemetry forecast cropProfile in
  let band (r : ThresholdResult) :=
    let fc := d_fieldCapacityPct (details r) in
    let wp := d_wiltingPointPct (details r) in
    valid_band fc wp (d_hysteresisPct (details r)) ->
    (wp + 3 <= fc - 3)%Q ->
    threshold_on r <= threshold_off r <= 100
    /\ Math_round (wp + 3) <= threshold_on r <= Math_round (fc - 3)
    /\ (forall w : Z, (wp == inject_Z w)%Q -> w + 3 <= threshold_on r)
    /\ (forall f : Z, (fc == inject_Z f)%Q -> threshold_on r <= f - 3) in
  band r /\ band r'.
Proof.
  intros r r' band.
  assert (forall raw wp fc h,
            valid_band fc wp h -> (wp + 3 <= fc - 3)%Q ->
            let ton := Math_round (Qmax (wp + 3) (Qmin (fc - 3) raw)) in
            (forall w : Z, (wp == inject_Z w)%Q -> w + 3 <= ton)
            /\ (forall f : Z, (fc == inject_Z f)%Q -> ton <= f - 3)) as Hint.
  { intros raw wp fc h (_ & _ & Hfc & Hh) Hband ton.
    destruct (band_core raw wp fc h Hfc Hband Hh) as ([Hlo Hhi] & _).
    split.
    - intros w Hw. etrans; [|exact Hlo].
      rewrite (Math_round_comp (wp + 3) (inject_Z (w + 3))).
      + by rewrite Math_round_inject.
      + rewrite Hw, inject_Z_plus. reflexivity.
    - intros f Hf. etrans; [exact Hhi|].
      rewrite (Math_round_comp (fc - 3) (inject_Z (f - 3))).
      + by rewrite Math_round_inject.
      + rewrite Hf. unfold Z.sub. rewrite inject_Z_plus, inject_Z_opp. reflexivity. }
  split; subst band r r'; cbv zeta;
    unfold Threshold.computeThreshold, Frontend.computeThreshold; cbv zeta;
    cbn [details threshold_on threshold_off d_fieldCapacityPct d_wiltingPointPct
         d_hysteresisPct];
    intros Hvalid Hband;
    pose proof Hvalid as (_ & _ & Hfc & Hh).
  - match goal with
    | |- context [Qmin (?fc - 3) ?raw] =>
        destruct (band_core raw _ _ _ Hfc Hband Hh) as (Hton & _ & Hoff & _);
        destruct (Hint raw _ _ _ Hvalid Hband) as [Hw Hf]
    end.
    by repeat split; try apply Hton; try apply Hoff.
  - match goal with
    | |- context [Frontend.clamp ?raw (_ + 3)%Q _] =>
        destruct (band_core raw _ _ _ Hfc Hband Hh) as (Hton & _ & _ & Hoff);
        destruct (Hint raw _ _ _ Hvalid Hband) as [Hw Hf]
    end.
    by repeat split; try apply Hton; try apply Hoff.
Qed.

(** The tomato profile at 25 degrees, without forecast. *)
Lemma band_ordering_witness :
  threshold_on (Threshold.computeThreshold ∅ telemetry25 None tomato)
  <= threshold_off (Threshold.computeThreshold ∅ telemetry25 None tomato)
  <= 100.
Proof.
  refine (proj1 (proj1 (band_ordering ∅ telemetry25 None tomato) _ _)).
  - repeat split; vm_compute; discriminate.
  - vm_compute; discriminate.
Defined.

(** C8 as stated fails on the narrow profile: the lower bound
    [wiltingPointPct + 3 = 101] wins the clamp over the upper bound 97, so
    [threshold_on = 101] exceeds [fieldCapacityPct - 3], 100, and the
    backend's [threshold_off = 100].  (On the fractional profile the
    rounding alone takes [threshold_on = 13] below
    [wiltingPointPct + 3 = 13.4].)  Neither result depends on how the
    deficit term is rounded: the clamp returns its lower bound. *)
Lemma band_ordering_fails_on_narrow_band :
  valid_band 100 98 5
  /\ threshold_on (Threshold.computeThreshold ∅ telemetry25 None narrow_profile) = 101
  /\ threshold_off (Threshold.computeThreshold ∅ telemetry25 None narrow_profile) = 100
  /\ ~ threshold_on (Threshold.computeThreshold ∅ telemetry25 None narrow_profile)
       <= threshold_off (Threshold.computeThreshold ∅ telemetry25 None narrow_profile)
  /\ ~ threshold_on (Threshold.computeThreshold ∅ telemetry25 None narrow_profile) <= 100
  /\ ~ threshold_on (Threshold.computeThreshold ∅ telemetry25 None narrow_profile)
       <= 100 - 3
  /\ threshold_on (Frontend.computeThreshold telemetry25 None narrow_profile) = 101
  /\ valid_band 40 (52 # 5) 5
  /\ threshold_on (Threshold.computeThreshold ∅ telemetry25 None fractional_profile) = 13
  /\ ~ ((52 # 5) + 3
        <= inject_Z (threshold_on
                       (Threshold.computeThreshold ∅ telemetry25 None fractional_profile)))%Q.
Proof.
  vm_compute. repeat split; try reflexivity; try discriminate; intros H; by apply H.
Qed.

(** The narrow profile in doubles: the same 101 and 100. *)
Example narrow_band_binary64 :
  Binary64.thresholds_Z 100 98 30 Binary64.d0_9 0.75 5 0 25 = (Some 101, Some 100).
Proof. vm_compute. reflexivity. Qed.

(** ** Rain lowers the ON threshold *)

(** C9. With the crop profile, the telemetry and the forecast temperature
    fixed, a larger forecast rain amount [rain24] never gives a larger
    [threshold_on]. *)
Theorem threshold_on_antitone_in_rain (crops : gmap string CropProfile)
    (telemetry : Telemetry) (forecast1 forecast2 : option Forecast)
    (cropProfile : CropProfile) :
  current_temp_of forecast1 = current_temp_of forecast2 ->
  (rain24_of forecast1 <= rain24_of forecast2)%Q ->
  threshold_on (Threshold.computeThreshold crops telemetry forecast2 cropProfile)
  <= threshold_on (Threshold.computeThreshold crops telemetry forecast1 cropProfile).
Proof.
  intros Htemp Hrain.
  unfold Threshold.computeThreshold; cbv zeta; cbn [threshold_on].
  unfold tDay_of. rewrite Htemp.
  apply Math_round_mono, Q.max_le_compat_l, Q.min_le_compat_l.
  apply Qplus_le_compat; [apply Qle_refl|].
  unfold Qdiv. apply Qmult_le_compat_r.
  - apply Q.max_le_compat_l. unfold Qminus.
    apply Qplus_le_compat; [apply Qle_refl|].
    apply Qopp_le_compat. apply Qmult_le_compat_r; [exact Hrain|discriminate].
  - apply Qinv_le_0_compat.
    apply Qle_trans with 5%Q; [discriminate|apply Q.le_max_l].
Qed.

(** Ten millimetres of forecast rain against none, on shallow roots at 45
    degrees: the threshold drops from 31 to 30. *)
Lemma threshold_on_antitone_in_rain_witness :
  threshold_on (Threshold.computeThreshold ∅ telemetry45 None shallow_profile) = 31
  /\ threshold_on (Threshold.computeThreshold ∅ telemetry45 wet_forecast shallow_profile)
     = 30
  /\ threshold_on (Threshold.computeThreshold ∅ telemetry45 wet_forecast shallow_profile)
     <= threshold_on (Threshold.computeThreshold ∅ telemetry45 None shallow_profile).
Proof.
  split; [vm_compute; reflexivity|]. split; [vm_compute; reflexivity|].
  apply (threshold_on_antitone_in_rain ∅ telemetry45 None wet_forecast shallow_profile).
  - reflexivity.
  - vm_compute. discriminate.
Defined.

(** The same two runs in doubles: 31 without rain, 30 with 10 mm. *)
Example shallow_binary64 :
  Binary64.thresholds_Z 40 10 5 Binary64.d0_9 0.75 5 0 45 = (Some 31, Some 36)
  /\ Binary64.thresholds_Z 40 10 5 Binary64.d0_9 0.75 5 10 45 = (Some 30, Some 35).
Proof. vm_compute. split; reflexivity. Qed.

(** * Further properties of the controller *)

(** ** What one delivery does to the document of its device *)

(** X1. After a telemetry message has been processed, a relay that is
    recorded as on has been on for at most [MAX_ON_MS]: either the cycle
    just switched it on, or the watchdog test found it young enough. *)
Theorem relay_on_is_never_stale (cfg : Config) (env : Env) (payload : Payload)
    (w : World) (d : DeviceState) :
  0 <= MAX_ON_MS cfg ->
  DeviceState_findOne (deviceId_of payload)
    (handleTelemetryMessage cfg env (JsonObject payload) w) = Some d ->
  relayState d = true ->
  now env - (lastOnTs d ?? 0) <= MAX_ON_MS cfg.
Proof.
  intros Hmax Hd Hrel.
  destruct (delivery_outcome cfg env payload w)
    as (action & reason & extra & calls & _ & _ & _ & _ & Hdoc & Hcase).
  rewrite Hd in Hdoc. injection Hdoc as ->.
  destruct Hcase as [(-> & _)|[(-> & _)|[(-> & _)|(-> & Hndue & _)]]];
    cbn in Hrel |- *; try discriminate.
  - lia.
  - rewrite loaded_relayState in Hrel. rewrite loaded_lastOnTs.
    fold (stored_relay (deviceId_of payload) w) in Hrel.
    fold (stored_lastOn (deviceId_of payload) w).
    destruct (Z_le_gt_dec (now env - stored_lastOn (deviceId_of payload) w)
                          (MAX_ON_MS cfg)); [done|].
    destruct Hndue. split; [done|lia].
Qed.

(** Zone A, switched on at [t_first], is seen on at that time. *)
Lemma relay_on_is_never_stale_witness :
  t_first - t_first <= MAX_ON_MS default_config.
Proof.
  refine (relay_on_is_never_stale default_config (envAt t_first brokerUp) dryA emptyWorld
            (mkDeviceState true (Some t_first) (Some t_first) None (Some dryA)) _ _ _).
  - vm_compute. discriminate.
  - vm_compute. reflexivity.
  - reflexivity.
Defined.

(** X2. The record of a relay goes from off to on only in a cycle that
    read a soil value at or below [threshold_on] and in which the broker
    accepted at least one encoding of ON on the relay topic of the device;
    the event logged is then ON. *)
Theorem relay_turns_on_only_after_delivery (cfg : Config) (env : Env)
    (payload : Payload) (w : World) :
  let id := deviceId_of payload in
  let w' := handleTelemetryMessage cfg env (JsonObject payload) w in
  stored_relay id w = false ->
  stored_relay id w' = true ->
  Exists (delivers (zoneToRelayTopic id) "ON") (calls_since w w')
  /\ (exists soilPct,
        c_soilPct (context env payload) = Some soilPct
        /\ (soilPct <= inject_Z (threshold_on (c_thresholds (context env payload))))%Q)
  /\ map ev_action (events_since w w') = ["ON"%string].
Proof.
  intros id w' Hoff Hon. subst w'.
  destruct (delivery_outcome cfg env payload w)
    as (action & reason & extra & calls & Hev & Hcalls & _ & _ & Hdoc & Hcase).
  fold id in Hev, Hcalls, Hdoc, Hcase.
  rewrite (stored_relay_after _ _ _ Hdoc) in Hon. rewrite Hev, Hcalls.
  destruct Hcase as [(-> & _)|[(-> & _)|[(-> & _ & _ & Hsoil & _ & Hall & Hres)
                                        |(-> & _)]]];
    cbn in Hon; try discriminate.
  - split; [by apply delivers_exists|]. done.
  - rewrite loaded_relayState in Hon. fold (stored_relay id w) in Hon. congruence.
Qed.

Lemma relay_turns_on_only_after_delivery_witness :
  map ev_action (events_since emptyWorld redelivery_w1) = ["ON"%string].
Proof.
  refine (proj2 (proj2 (relay_turns_on_only_after_delivery default_config
                          (envAt t_first brokerUp) dryA emptyWorld _ _))).
  - reflexivity.
  - vm_compute. reflexivity.
Defined.

(** X3. The record of a relay goes from on to off only through the
    watchdog (on for longer than [MAX_ON_MS]) or in a cycle that read a soil
    value at or above [threshold_off], at least [MIN_ON_MS] after the last
    ON, and in which the broker accepted an encoding of OFF on the relay
    topic of the device. *)
Theorem relay_turns_off_only_by_watchdog_or_delivery (cfg : Config) (env : Env)
    (payload : Payload) (w : World) :
  let id := deviceId_of payload in
  let w' := handleTelemetryMessage cfg env (JsonObject payload) w in
  stored_relay id w = true ->
  stored_relay id w' = false ->
  map ev_action (events_since w w') = ["OFF"%string]
  /\ (MAX_ON_MS cfg < now env - stored_lastOn id w
      \/ (MIN_ON_MS cfg <= now env - stored_lastOn id w
          /\ (exists soilPct,
                c_soilPct (context env payload) = Some soilPct
                /\ (inject_Z (threshold_off (c_thresholds (context env payload)))
                    <= soilPct)%Q)
          /\ Exists (delivers (zoneToRelayTopic id) "OFF") (calls_since w w'))).
Proof.
  intros id w' Hon Hoff. subst w'.
  destruct (delivery_outcome cfg env payload w)
    as (action & reason & extra & calls & Hev & Hcalls & _ & _ & Hdoc & Hcase).
  fold id in Hev, Hcalls, Hdoc, Hcase.
  rewrite (stored_relay_after _ _ _ Hdoc) in Hoff. rewrite Hev, Hcalls.
  destruct Hcase as [(-> & _ & [_ Hdue] & _)
                    |[(-> & _ & _ & _ & Hmin & Hsoil & Hall & Hres)
                     |[(-> & _)|(-> & _)]]];
    cbn in Hoff; try discriminate.
  - split; [done|]. by left.
  - split; [done|]. right. split; [done|]. split; [done|]. by apply delivers_exists.
  - rewrite loaded_relayState in Hoff. fold (stored_relay id w) in Hoff. congruence.
Qed.

(** Zone A, on since [t_first], reports a wet reading 70 s later. *)
Lemma relay_turns_off_only_by_watchdog_or_delivery_witness :
  map ev_action (events_since cooldown_w1 cooldown_w2) = ["OFF"%string].
Proof.
  refine (proj1 (relay_turns_off_only_by_watchdog_or_delivery default_config
                   (envAt (t_first + 70000) brokerUp) (telemetryA (SoilNum 50%Q))
                   cooldown_w1 _ _)).
  - vm_compute. reflexivity.
  - vm_compute. reflexivity.
Defined.

Lemma loaded_lastTelemetry deviceId payload w :
  lastTelemetry (loaded deviceId payload w) = Some payload.
Proof. unfold loaded. by destruct (DeviceState_findOne deviceId w). Qed.

(** X4. Every parsed telemetry message leaves a document for its device
    that holds the message as [lastTelemetry] and the time of the cycle as
    [lastActionTs], whatever was decided; [lastOnTs] becomes that time when
    the event logged is ON and keeps its value otherwise; [relayState]
    follows the event (ON, OFF) or keeps its value (RECOMMEND); and the
    document has no [lastOffTs]. *)
Theorem delivery_updates_document (cfg : Config) (env : Env) (payload : Payload)
    (w : World) :
  let id := deviceId_of payload in
  let w' := handleTelemetryMessage cfg env (JsonObject payload) w in
  exists ev d,
    events_since w w' = [ev]
    /\ ev_deviceId ev = id
    /\ ev_timestamp ev = now env
    /\ ev_action ev ∈ controller_actions
    /\ DeviceState_findOne id w' = Some d
    /\ lastActionTs d = Some (now env)
    /\ lastTelemetry d = Some payload
    /\ lastOffTs d = None
    /\ lastOnTs d = (if String.eqb (ev_action ev) "ON" then Some (now env)
                     else DeviceState_findOne id w ≫= lastOnTs)
    /\ relayState d = (if String.eqb (ev_action ev) "ON" then true
                       else if String.eqb (ev_action ev) "OFF" then false
                       else stored_relay id w).
Proof.
  intros id w'. subst w'.
  destruct (delivery_outcome cfg env payload w)
    as (action & reason & extra & calls & Hev & _ & _ & _ & Hdoc & Hcase).
  fold id in Hev, Hdoc, Hcase. rewrite Hev, Hdoc.
  do 2 eexists. split; [reflexivity|]. split; [reflexivity|]. split; [reflexivity|].
  assert (action ∈ controller_actions) as Hact.
  { unfold controller_actions.
    destruct Hcase as [(-> & _)|[(-> & _)|[(-> & _)|(-> & _)]]]; set_solver. }
  split; [exact Hact|]. split; [reflexivity|].
  unfold controller_actions in Hact.
  rewrite !elem_of_cons, elem_of_nil in Hact.
  destruct Hact as [->|[->|[->|[]]]]; cbn;
    rewrite ?loaded_lastTelemetry, ?loaded_lastOnTs, ?loaded_relayState; done.
Qed.

(** ** Devices do not interfere *)

Lemma zoneToRelayTopic_inj (z1 z2 : string) :
  zoneToRelayTopic z1 = zoneToRelayTopic z2 -> z1 = z2.
Proof.
  unfold zoneToRelayTopic.
  destruct (String.eqb_spec z1 "A") as [->|?], (String.eqb_spec z2 "A") as [->|?];
    try destruct (String.eqb_spec z1 "B") as [->|?];
    try destruct (String.eqb_spec z2 "B") as [->|?];
    cbn; try done; try discriminate.
  intros [=]. done.
Qed.

(** X5. A telemetry message of one device leaves the document of every
    other device as it is, and none of the messages it publishes goes to
    the relay topic of another device. *)
Theorem delivery_touches_one_device (cfg : Config) (env : Env) (payload : Payload)
    (w : World) (other : string) :
  other <> deviceId_of payload ->
  let w' := handleTelemetryMessage cfg env (JsonObject payload) w in
  DeviceState_findOne other w' = DeviceState_findOne other w
  /\ Forall (fun call => call.1.1 <> zoneToRelayTopic other) (calls_since w w').
Proof.
  intros Hne w'. subst w'. split; [by apply handle_other|].
  destruct (delivery_outcome cfg env payload w)
    as (action & reason & extra & calls & _ & -> & _ & _ & _ & Hcase).
  assert (exists a, Forall (commands (zoneToRelayTopic (deviceId_of payload)) a) calls)
    as [a Hall].
  { destruct Hcase as [(_ & _ & _ & ?)|[(_ & _ & _ & _ & _ & _ & ? & _)
                      |[(_ & _ & _ & _ & _ & ? & _)|(_ & _ & _ & [?|?] & _)]]];
      by eexists. }
  eapply Forall_impl; [exact Hall|]. intros call [Htopic _] Heq.
  rewrite Htopic in Heq. by apply zoneToRelayTopic_inj in Heq.
Qed.

(** A dry reading of zone A while zone B is on record. *)
Lemma delivery_touches_one_device_witness :
  DeviceState_findOne "B"
    (handleTelemetryMessage default_config (envAt t_first brokerUp) (JsonObject dryA)
       (handleTelemetryMessage default_config (envAt 40000 brokerUp)
          (JsonObject (telemetryB (SoilNum 50%Q))) emptyWorld))
  = DeviceState_findOne "B"
      (handleTelemetryMessage default_config (envAt 40000 brokerUp)
         (JsonObject (telemetryB (SoilNum 50%Q))) emptyWorld).
Proof.
  refine (proj1 (delivery_touches_one_device default_config (envAt t_first brokerUp)
                   dryA _ "B" _)).
  vm_compute. discriminate.
Defined.

(** ** Messages without a soil value *)

(** X6. A message whose soil reading is missing, or is a string that
    [Number] reads as [NaN] or as an infinity (and for which the watchdog is
    not due), makes the controller publish nothing: it logs RECOMMEND with
    reason [no_numeric_soil], and the relay state and [lastOnTs] on record
    stay as they were. *)
Theorem no_soil_no_action (cfg : Config) (env : Env) (payload : Payload) (w : World) :
  let id := deviceId_of payload in
  let w' := handleTelemetryMessage cfg env (JsonObject payload) w in
  normalizeSoil (nullish_opt (p_soilPct payload) (p_soil payload)) = None ->
  ~ (stored_relay id w = true /\ MAX_ON_MS cfg < now env - stored_lastOn id w) ->
  calls_since w w' = []
  /\ events_since w w'
     = [eventOf (context env payload) "RECOMMEND" "no_numeric_soil" ExtraNone]
  /\ stored_relay id w' = stored_relay id w
  /\ stored_lastOn id w' = stored_lastOn id w.
Proof.
  intros id w' Hsoil Hndue. subst w'.
  change (c_soilPct (context env payload) = None) in Hsoil.
  destruct (delivery_outcome cfg env payload w)
    as (action & reason & extra & calls & Hev & Hcalls & _ & _ & Hdoc & Hcase).
  fold id in Hev, Hcalls, Hdoc, Hcase.
  rewrite (stored_relay_after _ _ _ Hdoc), (stored_lastOn_after _ _ _ Hdoc), Hcalls.
  destruct Hcase as [(_ & _ & Hdue & _)
                    |[(_ & _ & _ & _ & _ & (? & ? & _) & _)
                     |[(_ & _ & _ & (? & ? & _) & _)|(-> & _ & Hno & _)]]];
    try contradiction; try congruence.
  destruct (Hno Hsoil) as (-> & -> & ->). split; [done|]. split; [done|].
  cbn. by rewrite loaded_relayState, loaded_lastOnTs.
Qed.

(** Zone A sends a reading that is not a number. *)
Lemma no_soil_no_action_witness :
  calls_since emptyWorld
    (handleTelemetryMessage default_config (envAt 40000 brokerUp)
       (JsonObject (telemetryA (SoilStr "dry"))) emptyWorld) = [].
Proof.
  refine (proj1 (no_soil_no_action default_config (envAt 40000 brokerUp)
                   (telemetryA (SoilStr "dry")) emptyWorld _ _)).
  - vm_compute. reflexivity.
  - vm_compute. intros [? _]. discriminate.
Defined.

(** ** Sequences of deliveries *)

Lemma recorded_app evs1 evs2 : recorded (evs1 ++ evs2) = recorded evs1 ++ recorded evs2.
Proof. unfold recorded. by rewrite List.filter_app, map_app. Qed.

Lemma on_times_app deviceId evs1 evs2 :
  on_times deviceId (evs1 ++ evs2) = on_times deviceId evs1 ++ on_times deviceId evs2.
Proof. unfold on_times. by rewrite List.filter_app, map_app. Qed.

Lemma run_snoc cfg deliveries d w :
  run_in_turn cfg (deliveries ++ [d]) w = handleTelemetryMessage cfg d.1 d.2 (run_in_turn cfg deliveries w).
Proof. unfold run_in_turn. by rewrite fold_left_app. Qed.

(** What one delivery adds to the log. *)
Lemma handle_log cfg env msg w :
  let w' := handleTelemetryMessage cfg env msg w in
  exists evs,
    submitted w' = submitted w ++ evs
    /\ irrigationEvents w' = irrigationEvents w ++ recorded evs
    /\ map ev_timestamp evs = (if parsed (env, msg) then [now env] else [])
    /\ Forall (fun ev => ev_action ev ∈ controller_actions) evs.
Proof.
  cbn zeta. unfold parsed. cbn [snd].
  pose proof (handle_payload cfg env msg w) as Hmsg.
  destruct (truthyPayload (safeParseJSON msg)) as [payload|]; rewrite Hmsg.
  - destruct (delivery_outcome cfg env payload w)
      as (action & reason & extra & calls & _ & _ & Hsub & Hirr & _ & Hcase).
    eexists. split; [exact Hsub|]. split; [exact Hirr|]. split; [reflexivity|].
    constructor; [|constructor]. unfold controller_actions. cbn.
    destruct Hcase as [(-> & _)|[(-> & _)|[(-> & _)|(-> & _)]]]; set_solver.
  - exists []. cbn. by rewrite !app_nil_r.
Qed.

(** The log over a sequence of deliveries. *)
Lemma run_log (cfg : Config) (deliveries : list (Env * Message)) (w : World) :
  exists evs,
    submitted (run_in_turn cfg deliveries w) = submitted w ++ evs
    /\ map ev_timestamp evs = map (fun d => now d.1) (List.filter parsed deliveries)
    /\ Forall (fun ev => ev_action ev ∈ controller_actions) evs
    /\ irrigationEvents (run_in_turn cfg deliveries w) = irrigationEvents w ++ recorded evs.
Proof.
  induction deliveries as [|[env msg] deliveries IH] using rev_ind.
  - exists []. cbn. by rewrite !app_nil_r.
  - destruct IH as (evs & Hsub & Hts & Hact & Hirr).
    destruct (handle_log cfg env msg (run_in_turn cfg deliveries w))
      as (new & Hsub' & Hirr' & Hts' & Hact').
    exists (evs ++ new). rewrite run_snoc. cbn [fst snd].
    rewrite Hsub', Hirr', Hsub, Hirr, recorded_app, !app_assoc.
    split; [done|]. split; [|split; [by apply Forall_app|done]].
    rewrite map_app, List.filter_app, map_app, Hts, Hts'. f_equal.
    cbn [List.filter]. by destruct (parsed (env, msg)).
Qed.

(** A JSON text whose value is not an object: [123] is truthy, has none
    of the properties read, and is handled as a message of device
    [unknown] without a soil reading; [0] and [null] end the handler. *)
Example truthy_value_is_device_unknown :
  map (fun ev => (ev_deviceId ev, ev_action ev, ev_reason ev))
      (events_since emptyWorld
         (handleTelemetryMessage default_config (envAt 40000 brokerUp)
            (JsonOther true) emptyWorld))
  = [("unknown", "RECOMMEND", "no_numeric_soil")]%string
  /\ handleTelemetryMessage default_config (envAt 40000 brokerUp)
       (JsonOther false) emptyWorld = emptyWorld.
Proof. vm_compute. split; reflexivity. Qed.

(** X7. Over any sequence of deliveries that are handled in turn (each
    cycle completed before the next message is handled), the controller
    hands exactly one event to the log for each message whose JSON value is
    truthy (an object, or another truthy value, which is handled as device
    [unknown]), in the order of the deliveries and stamped with the clock of
    its cycle, and none for the others; each is an ON, an OFF or a
    RECOMMEND; and the collection of events only grows, by the events whose
    action the schema accepts. *)
Theorem run_logs_one_event_per_message (cfg : Config)
    (deliveries : list (Env * Message)) (w : World) :
  let w' := run_in_turn cfg deliveries w in
  submitted w' = submitted w ++ events_since w w'
  /\ map ev_timestamp (events_since w w')
     = map (fun d => now d.1) (List.filter parsed deliveries)
  /\ Forall (fun ev => ev_action ev ∈ controller_actions) (events_since w w')
  /\ irrigationEvents w' = irrigationEvents w ++ recorded (events_since w w').
Proof.
  cbn zeta. destruct (run_log cfg deliveries w) as (evs & Hsub & Hts & Hact & Hirr).
  unfold events_since. rewrite Hsub, drop_app_length. done.
Qed.

(** X27. What the controller adds to the collection of events over any
    sequence of deliveries are ON and OFF events only, never a RECOMMEND,
    and none of them carries the [extra] object: the publish results and
    the remaining waits that the controller attaches to its events are not
    stored. *)
Theorem stored_events_are_switchings (cfg : Config)
    (deliveries : list (Env * Message)) (w : World) :
  let w' := run_in_turn cfg deliveries w in
  Forall (fun ev => (ev_action ev = "ON"%string \/ ev_action ev = "OFF"%string)
                    /\ ev_extra ev = None)
         (drop (length (irrigationEvents w)) (irrigationEvents w')).
Proof.
  cbn zeta. destruct (run_log cfg deliveries w) as (evs & _ & _ & Hact & ->).
  rewrite drop_app_length. unfold recorded.
  induction Hact as [|ev evs Hev Hact IH]; cbn [List.filter map]; [constructor|].
  unfold controller_actions in Hev. rewrite !elem_of_cons, elem_of_nil in Hev.
  destruct Hev as [Hev|[Hev|[Hev|[]]]]; rewrite Hev; cbn; try done;
    (constructor; [|done]); cbn; rewrite Hev; split; auto.
Qed.

(** What one delivery does to the last ON time on record. *)
Lemma handle_lastOn cfg env payload w :
  let id := deviceId_of payload in
  let w' := handleTelemetryMessage cfg env (JsonObject payload) w in
  exists ev,
    submitted w' = submitted w ++ [ev]
    /\ ev_deviceId ev = id
    /\ ev_timestamp ev = now env
    /\ (forall other, other <> id -> stored_lastOn other w' = stored_lastOn other w)
    /\ ((ev_action ev = "ON"%string
         /\ stored_lastOn id w' = now env
         /\ (DEBUG_ALLOW_REON cfg = false ->
             (onGate cfg (now env) (stored_lastOn id w) 0).1 = true))
        \/ (ev_action ev <> "ON"%string
            /\ stored_lastOn id w' = stored_lastOn id w)).
Proof.
  intros id w'. subst w'.
  destruct (delivery_outcome cfg env payload w)
    as (action & reason & extra & calls & _ & _ & Hsub & _ & Hdoc & Hcase).
  fold id in Hdoc, Hcase.
  eexists. split; [exact Hsub|]. split; [reflexivity|]. split; [reflexivity|].
  split.
  { intros other Hne. unfold stored_lastOn. by rewrite handle_other. }
  rewrite (stored_lastOn_after _ _ _ Hdoc). cbn [ev_action eventOf].
  destruct Hcase as [(-> & _)|[(-> & _)|[(-> & _ & _ & _ & Hgate & _)|(-> & _)]]];
    [right|right|left|right]; (split; [done|]); cbn;
    rewrite ?loaded_lastOnTs; done.
Qed.

(** The gate of the ON evaluation, once a last ON time that is not
    negative is on record. *)
Lemma onGate_between cfg now lastOn :
  0 <= lastOn ->
  (onGate cfg now lastOn 0).1 = true ->
  MIN_INTERVAL_BETWEEN_ON_MS cfg <= now - lastOn.
Proof.
  intros Hpos. unfold onGate.
  destruct (lastOn <? 0) eqn:Hlt; [apply Z.ltb_lt in Hlt; lia|].
  destruct (MIN_INTERVAL_BETWEEN_ON_MS cfg <=? now - lastOn) eqn:Hle; [|done].
  intros _. by apply Z.leb_le.
Qed.

(** X8. With the debug flag off, the ON events that the controller logs
    for one device over any sequence of deliveries that are handled in turn
    (each cycle completed before the next message is handled) are at least
    [MIN_INTERVAL_BETWEEN_ON_MS] apart, each from every earlier one.  Cycles
    that overlap are not covered: [overlapping_redelivery_switches_on_twice]
    has two ON events 5 ms apart. *)
Theorem on_events_are_spaced (cfg : Config) (deliveries : list (Env * Message))
    (w : World) (deviceId : string) :
  DEBUG_ALLOW_REON cfg = false ->
  0 <= MIN_INTERVAL_BETWEEN_ON_MS cfg ->
  Forall (fun d => 0 <= now d.1) deliveries ->
  StronglySorted (fun t1 t2 => MIN_INTERVAL_BETWEEN_ON_MS cfg <= t2 - t1)
    (on_times deviceId (events_since w (run_in_turn cfg deliveries w))).
Proof.
  intros Hdbg Hmin Hnow.
  assert (exists evs,
            submitted (run_in_turn cfg deliveries w) = submitted w ++ evs
            /\ StronglySorted (fun t1 t2 => MIN_INTERVAL_BETWEEN_ON_MS cfg <= t2 - t1)
                 (on_times deviceId evs)
            /\ Forall (fun t => 0 <= t <= stored_lastOn deviceId (run_in_turn cfg deliveries w))
                 (on_times deviceId evs)) as (evs & Hsub & Hsorted & _).
  { induction deliveries as [|[env msg] deliveries IH] using rev_ind.
    - exists []. cbn. rewrite app_nil_r. repeat split; constructor.
    - rewrite Forall_app, Forall_singleton in Hnow.
      destruct Hnow as [Hnow Hnow1]. cbn in Hnow1.
      destruct (IH Hnow) as (evs & Hsub & Hsorted & Hbound). clear IH.
      rewrite run_snoc. cbn [fst snd].
      pose proof (handle_payload cfg env msg (run_in_turn cfg deliveries w)) as Hmsg.
      destruct (truthyPayload (safeParseJSON msg)) as [payload|]; rewrite Hmsg.
      2:{ exists evs. done. }
      destruct (handle_lastOn cfg env payload (run_in_turn cfg deliveries w))
        as (ev & Hsub' & Hid & Hts & Hother & Hcase).
      exists (evs ++ [ev]). rewrite Hsub', Hsub, app_assoc. split; [done|].
      rewrite on_times_app. unfold on_times at 2 4. cbn [List.filter map].
      destruct (String.eqb_spec (ev_deviceId ev) deviceId) as [Heq|Hne].
      2:{ rewrite andb_false_r. cbn [map]. rewrite app_nil_r.
          assert (deviceId <> deviceId_of payload) as Hne' by congruence.
          rewrite (Hother deviceId Hne'). done. }
      rewrite andb_true_r. rewrite Hid in Heq. rewrite Heq in Hcase.
      destruct Hcase as [(Hact & Hlast & Hgate)|(Hact & Hlast)].
      + rewrite Hact, String.eqb_refl. cbn [map].
        rewrite Hts, Hlast.
        assert (Forall (fun t => 0 <= t
                                 /\ MIN_INTERVAL_BETWEEN_ON_MS cfg <= now env - t)
                       (on_times deviceId evs)) as Hold.
        { eapply Forall_impl; [exact Hbound|]. cbn. intros t [H0 Ht].
          split; [done|].
          pose proof (onGate_between cfg (now env)
                        (stored_lastOn deviceId (run_in_turn cfg deliveries w))
                        ltac:(lia) (Hgate Hdbg)). lia. }
        split.
        * apply StronglySorted_app_2; [|done|repeat constructor].
          intros t1 t2 Ht1 Ht2. apply list_elem_of_singleton in Ht2 as ->.
          rewrite Forall_forall in Hold. by apply Hold.
        * apply Forall_app. split; [|repeat constructor; lia].
          eapply Forall_impl; [exact Hold|]. cbn. intros t [? ?]. lia.
      + apply String.eqb_neq in Hact. rewrite Hact. cbn [map]. rewrite app_nil_r.
        rewrite Hlast. done. }
  unfold events_since. by rewrite Hsub, drop_app_length.
Qed.

(** The cool-down scenario: zone A is switched on, off 70 s later, and on
    again after another second. *)
Lemma on_events_are_spaced_witness :
  StronglySorted (fun t1 t2 => 30000 <= t2 - t1) [t_first; t_first + 71000].
Proof.
  refine (on_events_are_spaced default_config cooldown_deliveries emptyWorld "A" _ _ _).
  - reflexivity.
  - vm_compute. discriminate.
  - repeat constructor; vm_compute; discriminate.
Defined.

(** ** The retry loop and the three encodings *)

Lemma unresolved_replicate (k : nat) (topic payload : string) :
  List.filter resolved (replicate k (topic, payload, false)) = [].
Proof. induction k; cbn; done. Qed.

(** X9. With a retry count that is not negative, [publishManyFormats]
    reports each of the three formats exactly once, as a success or as a
    failure; it makes between 3 and [3 * (MQTT_RETRY_COUNT + 1)] publish
    calls; and the calls that the broker accepted are as many as the
    successes reported: an encoding that was delivered is not sent again. *)
Theorem publishManyFormats_accounts (cfg : Config) (br : Broker)
    (topic action : string) (w : World) :
  0 <= MQTT_RETRY_COUNT cfg ->
  let pubRes := (publishManyFormats cfg br topic action w).1 in
  let calls := calls_since w (publishManyFormats cfg br topic action w).2 in
  successes pubRes ++ map fst (failures pubRes) ≡ₚ ["plain"; "numeric"; "json"]%string
  /\ 3 <= Z.of_nat (length calls) <= 3 * (MQTT_RETRY_COUNT cfg + 1)
  /\ length (List.filter resolved calls) = length (successes pubRes).
Proof.
  intros Hretry. cbn zeta. unfold publishManyFormats, formats. cbn [fold_left].
  set (r0 := {| successes := []; failures := [] |}).
  set (numeric := if String.eqb action "ON" then "1"%string else "0"%string).
  destruct (publishFormat_shape cfg br topic r0 w "plain" action Hretry)
    as (k1 & ok1 & e1 & -> & Hk1 & Hf1).
  destruct (publishFormat_shape cfg br topic
              {| successes := if ok1 then successes r0 ++ ["plain"%string]
                              else successes r0;
                 failures := if ok1 then failures r0
                             else failures r0 ++ [("plain"%string, e1)] |}
              (add_calls w (replicate k1 (topic, action, false)
                            ++ if ok1 then [(topic, action, true)] else []))
              "numeric" numeric Hretry)
    as (k2 & ok2 & e2 & -> & Hk2 & Hf2).
  match goal with
  | |- context [publishFormat cfg br topic (?r, ?w0) ("json"%string, ?p)] =>
      destruct (publishFormat_shape cfg br topic r w0 "json" p Hretry)
        as (k3 & ok3 & e3 & -> & Hk3 & Hf3)
  end.
  cbn [fst snd successes failures r0]. rewrite !add_calls_app.
  unfold calls_since, add_calls. cbn [published]. rewrite drop_app_length.
  split; [|split].
  - destruct ok1, ok2, ok3; cbn; by apply (bool_decide_unpack _).
  - rewrite !length_app, !length_replicate.
    destruct ok1, ok2, ok3; cbn [length]; lia.
  - rewrite !List.filter_app, !unresolved_replicate.
    by destruct ok1, ok2, ok3.
Qed.

(** The broker is down and the retry count is the default: six calls. *)
Lemma publishManyFormats_accounts_witness :
  length (List.filter resolved
            (calls_since emptyWorld
               (publishManyFormats default_config brokerDown "esp32/relay1" "ON"
                  emptyWorld).2))
  = length (successes (publishManyFormats default_config brokerDown "esp32/relay1" "ON"
                         emptyWorld).1).
Proof.
  refine (proj2 (proj2 (publishManyFormats_accounts default_config brokerDown
                          "esp32/relay1" "ON" emptyWorld _))).
  vm_compute. discriminate.
Defined.

(** * Further properties of the threshold model *)

(** X10. Whatever the profile, the telemetry and the forecast, the
    backend's [threshold_off] is at most 100, and its [threshold_on] is at
    least the rounding of [wiltingPointPct + 3]: the lower bound of the
    clamp is applied last, and so it always holds. *)
Theorem backend_threshold_bounds (crops : gmap string CropProfile)
    (telemetry : Telemetry) (forecast : option Forecast) (cropProfile : CropProfile) :
  let r := Threshold.computeThreshold crops telemetry forecast cropProfile in
  threshold_off r <= 100
  /\ Math_round (d_wiltingPointPct (details r) + 3) <= threshold_on r.
Proof.
  cbv zeta. unfold Threshold.computeThreshold; cbv zeta.
  cbn [threshold_on threshold_off details d_wiltingPointPct]. split.
  - rewrite <- (Math_round_inject 100) at 2. apply Math_round_mono.
    change (inject_Z 100) with 100%Q. apply Q.le_min_l.
  - apply Math_round_mono, Q.le_max_l.
Qed.

(** X11. Whatever the profile, the telemetry and the forecast, the
    frontend's thresholds are ordered, [threshold_on <= threshold_off]: its
    [threshold_off] is clamped from below by [threshold_on]. *)
Theorem frontend_band_is_ordered (telemetry : Telemetry) (forecast : option Forecast)
    (cropProfile : CropProfile) :
  let r := Frontend.computeThreshold telemetry forecast cropProfile in
  threshold_on r <= threshold_off r
  /\ Math_round (d_wiltingPointPct (details r) + 3) <= threshold_on r.
Proof.
  cbv zeta. unfold Frontend.computeThreshold; cbv zeta.
  cbn [threshold_on threshold_off details d_wiltingPointPct]. split.
  - match goal with
    | |- ?ton <= _ => rewrite <- (Math_round_inject ton) at 1
    end.
    apply Math_round_mono. unfold Frontend.clamp at 1. apply Q.le_max_l.
  - apply Math_round_mono. unfold Frontend.clamp. apply Q.le_max_l.
Qed.

(** X12. With a crop coefficient that is not negative, a higher day
    temperature never gives a lower [threshold_on], the profile and the
    forecast being the same. *)
Theorem threshold_on_monotone_in_temperature (crops : gmap string CropProfile)
    (telemetry1 telemetry2 : Telemetry) (forecast : option Forecast)
    (cropProfile : CropProfile) :
  let r1 := Threshold.computeThreshold crops telemetry1 forecast cropProfile in
  let r2 := Threshold.computeThreshold crops telemetry2 forecast cropProfile in
  (0 <= d_Kc (details r1))%Q ->
  (tDay_of telemetry1 forecast <= tDay_of telemetry2 forecast)%Q ->
  threshold_on r1 <= threshold_on r2.
Proof.
  cbv zeta. unfold Threshold.computeThreshold; cbv zeta.
  cbn [threshold_on details d_Kc]. intros HKc Htemp.
  apply Math_round_mono, Q.max_le_compat_l, Q.min_le_compat_l.
  apply Qplus_le_compat; [apply Qle_refl|].
  unfold Qdiv. apply Qmult_le_compat_r.
  - apply Q.max_le_compat_l. unfold Qminus.
    apply Qplus_le_compat; [|apply Qle_refl].
    apply Qmult_le_compat_r; [|exact HKc].
    apply Q.max_le_compat_l. apply Qmult_le_l; [reflexivity|].
    unfold Qminus. apply Qplus_le_compat; [exact Htemp|apply Qle_refl].
  - apply Qinv_le_0_compat.
    apply Qle_trans with 5%Q; [discriminate|apply Q.le_max_l].
Qed.

(** The tomato profile at 25 and at 45 degrees. *)
Lemma threshold_on_monotone_in_temperature_witness :
  threshold_on (Threshold.computeThreshold ∅ telemetry25 None tomato)
  <= threshold_on (Threshold.computeThreshold ∅ telemetry45 None tomato).
Proof.
  apply (threshold_on_monotone_in_temperature ∅ telemetry25 telemetry45 None tomato).
  - vm_compute. discriminate.
  - vm_compute. discriminate.
Defined.

(** X13. For a profile that carries a crop coefficient, so that the
    backend does not consult the crop collection, the backend and the
    frontend compute the same [threshold_on] and the same details; and they
    compute the same [threshold_off] whenever [threshold_on] is at most 100
    and the hysteresis is not negative. *)
Theorem backend_and_frontend_agree (crops : gmap string CropProfile)
    (telemetry : Telemetry) (forecast : option Forecast) (cropProfile : CropProfile) :
  let r := Threshold.computeThreshold crops telemetry forecast cropProfile in
  let r' := Frontend.computeThreshold telemetry forecast cropProfile in
  truthy_optQ (Kc cropProfile) = true ->
  threshold_on r = threshold_on r'
  /\ details r = details r'
  /\ (threshold_on r <= 100 -> (0 <= d_hysteresisPct (details r))%Q ->
      threshold_off r = threshold_off r').
Proof.
  cbv zeta. intros HKc.
  unfold Threshold.computeThreshold, Frontend.computeThreshold; cbv zeta.
  unfold Threshold.mergeProfile. rewrite HKc, andb_false_r.
  cbn [threshold_on threshold_off details d_hysteresisPct].
  split; [reflexivity|]. split; [reflexivity|].
  intros Hton Hh. apply Math_round_comp.
  unfold Frontend.clamp at 1. symmetry. apply Q.max_r.
  apply Q.min_glb.
  - change 100%Q with (inject_Z 100). by rewrite <- Zle_Qle.
  - eapply Qle_trans; [|apply Qplus_le_compat; [apply Qle_refl|exact Hh]].
    rewrite Qplus_0_r. apply Qle_refl.
Qed.

Lemma backend_and_frontend_agree_witness :
  threshold_on (Threshold.computeThreshold ∅ telemetry25 None tomato)
  = threshold_on (Frontend.computeThreshold telemetry25 None tomato).
Proof.
  refine (proj1 (backend_and_frontend_agree ∅ telemetry25 None tomato _)).
  reflexivity.
Defined.

(** X29. The deficit term only raises the ON threshold: [threshold_on]
    is never below the rounding of the clamped baseline
    [fieldCapacityPct * targetFraction], whatever the temperature, the crop
    coefficient and the forecast are, and it is that rounding when the
    effective rain covers the crop's demand. *)
Theorem deficit_only_raises_threshold_on (crops : gmap string CropProfile)
    (telemetry : Telemetry) (forecast : option Forecast) (cropProfile : CropProfile) :
  let r := Threshold.computeThreshold crops telemetry forecast cropProfile in
  let base := Math_round (Qmax (d_wiltingPointPct (details r) + 3)
                               (Qmin (d_fieldCapacityPct (details r) - 3)
                                     (d_baselinePct (details r)))) in
  base <= threshold_on r
  /\ ((d_ETc (details r) <= d_rainEff (details r))%Q -> threshold_on r = base).
Proof.
  cbv zeta. unfold Threshold.computeThreshold; cbv zeta.
  cbn [threshold_on details d_wiltingPointPct d_fieldCapacityPct d_baselinePct d_ETc
       d_rainEff].
  set (baseline := (_ * _)%Q).
  set (ETc := (Qmax 0 _ * _)%Q).
  set (rainEff := (rain24_of forecast * (4 # 5))%Q).
  set (mmPerPct := Qmax 5 _).
  assert (0 <= / mmPerPct)%Q as Hmm.
  { apply Qinv_le_0_compat. apply Qle_trans with 5%Q; [discriminate|apply Q.le_max_l]. }
  assert (0 <= Qmax 0 (ETc - rainEff) / mmPerPct)%Q as Hdelta.
  { unfold Qdiv. apply Qmult_le_0_compat; [apply Q.le_max_l|exact Hmm]. }
  split.
  - apply Math_round_mono, Q.max_le_compat_l, Q.min_le_compat_l. lra.
  - intros Hrain.
    assert (Qmax 0 (ETc - rainEff) == 0)%Q as H0 by (apply Q.max_l; lra).
    assert (Qmax 0 (ETc - rainEff) / mmPerPct == 0)%Q as H1.
    { unfold Qdiv. rewrite H0. apply Qmult_0_l. }
    apply Z.le_antisymm.
    + apply Math_round_mono, Q.max_le_compat_l, Q.min_le_compat_l. lra.
    + apply Math_round_mono, Q.max_le_compat_l, Q.min_le_compat_l. lra.
Qed.

(** Ten millimetres of forecast rain at 25 degrees cover the demand. *)
Lemma deficit_only_raises_threshold_on_witness :
  threshold_on (Threshold.computeThreshold ∅ telemetry25 wet_forecast tomato) = 30.
Proof.
  refine (proj2 (deficit_only_raises_threshold_on ∅ telemetry25 wet_forecast tomato) _).
  vm_compute. discriminate.
Defined.

(** * Automatic mode in the browser *)

Section AutomaticMode.
Import IrrigationControl.

(** What one round of the loop of [runAutoCheck] does to the runtime
    states and to the trace: nothing for a zone in manual mode; otherwise
    at most one command, an ON after the cool-down or an OFF after the
    minimum on-time. *)
Lemma checkZone_spec now telemetry seen connected nextStatus ref sent zone :
  exists nextStatus' ref' new,
    checkZone now telemetry seen connected (nextStatus, ref, sent) zone
    = (nextStatus', ref', sent ++ new)
    /\ (forall id, id <> z_id zone -> ref' !! id = ref !! id)
    /\ Forall (fun c => c_zoneId c = z_id zone /\ c_at c = now /\ c_forced c = false
                        /\ c_connected c = connected
                        /\ c_topic c = zoneToRelayTopic (c_zoneId c)
                        /\ c_message c = c_action c) new
    /\ (manualOn zone = true -> ref' = ref /\ new = [])
    /\ (let st := st_of ref (z_id zone) in
        manualOn zone = false ->
        (ref' = <[z_id zone := st]> ref /\ new = [])
        \/ (ref' = <[z_id zone := mkRuntime true now now]> ref
            /\ map c_action new = ["ON"%string]
            /\ st_relayState st = false
            /\ MIN_INTERVAL_MS < now - st_lastActionTs st)
        \/ (ref' = <[z_id zone := mkRuntime false now (st_lastOnTs st)]> ref
            /\ map c_action new = ["OFF"%string]
            /\ st_relayState st = true
            /\ MIN_ON_MS <= now - st_lastOnTs st)).
Proof.
  unfold checkZone, st_of.
  destruct (manualOn zone) eqn:Hman.
  { do 2 eexists. exists []. rewrite app_nil_r. repeat split; done. }
  destruct (currentSoil_of (latest_of telemetry (z_id zone))) as [soil|].
  2:{ do 2 eexists. exists []. rewrite app_nil_r.
      split; [reflexivity|]. split; [intros id Hne; by rewrite lookup_insert_ne|].
      split; [constructor|]. split; [done|]. intros _. by left. }
  set (r := Frontend.computeThreshold _ _ _).
  set (st := default initial (ref !! z_id zone)).
  destruct (le_threshold soil (threshold_on r) && negb (st_relayState st))%bool eqn:Hon.
  - apply andb_true_iff in Hon as [_ Hrel]. apply negb_true_iff in Hrel.
    destruct (MIN_INTERVAL_MS <? now - st_lastActionTs st) eqn:Hcool.
    + apply Z.ltb_lt in Hcool. cbn [st_relayState st_lastOnTs].
      rewrite andb_true_r, Z.sub_diag.
      replace (Z.max 0 (MIN_ON_MS - 0) <=? 0) with false by reflexivity.
      destruct (ge_threshold soil (threshold_off r));
        (do 2 eexists; exists [publishRelay now connected false (z_id zone) "ON"];
         split; [reflexivity|]; split; [intros id Hne; by rewrite lookup_insert_ne|];
         split; [by repeat constructor|]; split; [done|]; intros _; right; left; done).
    + rewrite Hrel, andb_false_r.
      do 2 eexists. exists []. rewrite app_nil_r.
      split; [reflexivity|]. split; [intros id Hne; by rewrite lookup_insert_ne|].
      split; [constructor|]. split; [done|]. intros _. by left.
  - destruct (ge_threshold soil (threshold_off r) && st_relayState st)%bool eqn:Hoff.
    + apply andb_true_iff in Hoff as [_ Hrel].
      destruct (Z.max 0 (MIN_ON_MS - (now - st_lastOnTs st)) <=? 0) eqn:Hmin.
      * apply Z.leb_le in Hmin.
        do 2 eexists. exists [publishRelay now connected false (z_id zone) "OFF"].
        split; [reflexivity|]. split; [intros id Hne; by rewrite lookup_insert_ne|].
        split; [by repeat constructor|]. split; [done|]. intros _. right; right.
        repeat split; try done. lia.
      * do 2 eexists. exists []. rewrite app_nil_r.
        split; [reflexivity|]. split; [intros id Hne; by rewrite lookup_insert_ne|].
        split; [constructor|]. split; [done|]. intros _. by left.
    + do 2 eexists. exists []. rewrite app_nil_r.
      split; [reflexivity|]. split; [intros id Hne; by rewrite lookup_insert_ne|].
      split; [constructor|]. split; [done|]. intros _. by left.
Qed.

(** [runAutoCheck] is the loop over the zones, whether or not there are
    any. *)
Lemma runAutoCheck_loop now telemetry seen connected page :
  runAutoCheck now telemetry seen connected page
  = let '(nextStatus, ref, sent) :=
      fold_left (checkZone now telemetry seen connected) (zones page)
                (∅, stateRef page, calls page) in
    mkPage (zones page) (nextStatus ∪ zoneStatus page) ref sent.
Proof.
  unfold runAutoCheck. destruct page as [zs status ref sent]; cbn.
  destruct zs; [|done]. cbn. by rewrite (left_id_L ∅ (∪)).
Qed.

Lemma st_of_insert ref zoneId st : st_of (<[zoneId := st]> ref) zoneId = st.
Proof. unfold st_of. by rewrite lookup_insert_eq. Qed.

Lemma st_of_insert_ne ref zoneId zoneId' st :
  zoneId' <> zoneId -> st_of (<[zoneId := st]> ref) zoneId' = st_of ref zoneId'.
Proof. intros Hne. unfold st_of. by rewrite lookup_insert_ne. Qed.

Lemma st_of_other ref ref' zoneId :
  ref' !! zoneId = ref !! zoneId -> st_of ref' zoneId = st_of ref zoneId.
Proof. unfold st_of. by intros ->. Qed.

(** ** Zones in manual mode *)

Lemma loop_manual now telemetry seen connected zoneId zs nextStatus ref sent :
  Forall (fun z => z_id z = zoneId -> manualOn z = true) zs ->
  exists nextStatus' ref' new,
    fold_left (checkZone now telemetry seen connected) zs (nextStatus, ref, sent)
    = (nextStatus', ref', sent ++ new)
    /\ ref' !! zoneId = ref !! zoneId
    /\ Forall (fun c => c_zoneId c <> zoneId) new.
Proof.
  revert nextStatus ref sent.
  induction zs as [|z zs IH]; intros nextStatus ref sent Hall; cbn [fold_left].
  - do 2 eexists. exists []. by rewrite app_nil_r.
  - apply Forall_cons in Hall as [Hz Hall].
    destruct (checkZone_spec now telemetry seen connected nextStatus ref sent z)
      as (ns1 & ref1 & new1 & -> & Hother & Hnew & Hman & _).
    destruct (IH ns1 ref1 (sent ++ new1) Hall) as (ns2 & ref2 & new2 & -> & Href & Hnew2).
    do 2 eexists. exists (new1 ++ new2). rewrite app_assoc. split; [done|].
    destruct (decide (z_id z = zoneId)) as [Heq|Hne].
    + destruct (Hman (Hz Heq)) as [-> ->]. by split.
    + split; [rewrite Href; apply Hother; congruence|].
      apply Forall_app. split; [|done].
      eapply Forall_impl; [exact Hnew|]. cbn. intros c (-> & _). done.
Qed.

(** X14. A zone that is in manual mode is left alone by the automatic
    check: its runtime state is not touched, not even created, and no
    command is published for it, whatever its soil reading. *)
Theorem manual_zone_is_left_alone (now : Z) (telemetry : option WsTelemetry)
    (seen : gmap string Status) (connected : bool) (page : Page) (zoneId : string) :
  Forall (fun z => z_id z = zoneId -> manualOn z = true) (zones page) ->
  let page' := runAutoCheck now telemetry seen connected page in
  stateRef page' !! zoneId = stateRef page !! zoneId
  /\ calls_for zoneId (calls_since page page') = [].
Proof.
  intros Hall page'. subst page'. rewrite runAutoCheck_loop.
  destruct (loop_manual now telemetry seen connected zoneId (zones page) ∅
              (stateRef page) (calls page) Hall) as (ns & ref & new & -> & Href & Hnew).
  cbn. split; [done|]. unfold calls_since. cbn. rewrite drop_app_length.
  unfold calls_for. induction Hnew as [|c new Hc Hnew IH]; cbn; [done|].
  apply String.eqb_neq in Hc. by rewrite Hc.
Qed.

(** Zone A is switched to manual mode and the soil is dry. *)
Lemma manual_zone_is_left_alone_witness :
  calls_for "A"
    (calls_since (manualOverrideToggle "A" mounted)
       (runAutoCheck 400000 (reading 20) ∅ true (manualOverrideToggle "A" mounted)))
  = [].
Proof.
  refine (proj2 (manual_zone_is_left_alone 400000 (reading 20) ∅ true
                   (manualOverrideToggle "A" mounted) "A" _)).
  repeat constructor; cbn; intros; try reflexivity; discriminate.
Defined.

(** ** One command for a zone in a check *)

Lemma calls_for_app zoneId cs1 cs2 :
  calls_for zoneId (cs1 ++ cs2) = calls_for zoneId cs1 ++ calls_for zoneId cs2.
Proof. unfold calls_for. by rewrite List.filter_app. Qed.

Lemma calls_for_other zoneId id cs :
  id <> zoneId -> Forall (fun c => c_zoneId c = id) cs -> calls_for zoneId cs = [].
Proof.
  intros Hne. unfold calls_for.
  induction 1 as [|c cs Hc Hcs IH]; cbn; [done|].
  rewrite Hc. apply String.eqb_neq in Hne. by rewrite Hne.
Qed.

Lemma calls_for_same zoneId cs :
  Forall (fun c => c_zoneId c = zoneId) cs -> calls_for zoneId cs = cs.
Proof.
  unfold calls_for. induction 1 as [|c cs Hc Hcs IH]; cbn; [done|].
  rewrite Hc, String.eqb_refl. by f_equal.
Qed.

Lemma loop_once now telemetry seen connected zoneId zs nextStatus ref sent old :
  (calls_for zoneId old = []
   \/ (length (calls_for zoneId old) = 1%nat
       /\ st_lastActionTs (st_of ref zoneId) = now
       /\ (st_relayState (st_of ref zoneId) = true
           -> st_lastOnTs (st_of ref zoneId) = now))) ->
  exists nextStatus' ref' new,
    fold_left (checkZone now telemetry seen connected) zs (nextStatus, ref, sent)
    = (nextStatus', ref', sent ++ new)
    /\ (length (calls_for zoneId (old ++ new)) <= 1)%nat.
Proof.
  revert nextStatus ref sent old.
  induction zs as [|z zs IH]; intros nextStatus ref sent old Hinv; cbn [fold_left].
  - do 2 eexists. exists []. rewrite !app_nil_r. split; [done|].
    destruct Hinv as [->|[-> _]]; cbn; lia.
  - destruct (checkZone_spec now telemetry seen connected nextStatus ref sent z)
      as (ns1 & ref1 & new1 & -> & Hother & Hnew & Hman & Hauto).
    assert (Forall (fun c => c_zoneId c = z_id z) new1) as Hzone.
    { eapply Forall_impl; [exact Hnew|]. by intros c (? & _). }
    destruct (IH ns1 ref1 (sent ++ new1) (old ++ new1)) as (ns2 & ref2 & new2 & -> & Hlen).
    2:{ do 2 eexists. exists (new1 ++ new2). by rewrite !app_assoc in *. }
    rewrite calls_for_app.
    destruct (decide (z_id z = zoneId)) as [Heq|Hne].
    2:{ rewrite (calls_for_other zoneId (z_id z) new1 Hne Hzone), app_nil_r.
        rewrite (st_of_other ref ref1 zoneId) by (apply Hother; congruence). done. }
    rewrite Heq in *. rewrite (calls_for_same zoneId new1 Hzone).
    destruct (manualOn z) eqn:Hm.
    { destruct (Hman eq_refl) as [-> ->]. by rewrite app_nil_r. }
    destruct (Hauto eq_refl) as [(-> & ->)|[(-> & Hact & Hrel & Hcool)
                                            |(-> & Hact & Hrel & Hmin)]];
      rewrite st_of_insert.
    + by rewrite app_nil_r.
    + right. destruct Hinv as [->|(_ & Hlast & _)].
      * cbn. split; [|done]. by rewrite <- (length_map c_action), Hact.
      * unfold MIN_INTERVAL_MS in Hcool. lia.
    + right. destruct Hinv as [->|(_ & _ & Hlast)].
      * cbn. split; [|done]. by rewrite <- (length_map c_action), Hact.
      * specialize (Hlast Hrel). unfold MIN_ON_MS in Hmin. lia.
Qed.

(** X15. One automatic check publishes at most one command for a zone:
    an ON sets the time of the last ON to now, so that the OFF evaluation
    that follows in the same round finds the minimum on-time not elapsed,
    and a zone that is listed twice is held by the cool-down. *)
Theorem at_most_one_command_per_check (now : Z) (telemetry : option WsTelemetry)
    (seen : gmap string Status) (connected : bool) (page : Page) (zoneId : string) :
  let page' := runAutoCheck now telemetry seen connected page in
  (length (calls_for zoneId (calls_since page page')) <= 1)%nat.
Proof.
  cbn zeta. rewrite runAutoCheck_loop.
  destruct (loop_once now telemetry seen connected zoneId (zones page) ∅
              (stateRef page) (calls page) []) as (ns & ref & new & -> & Hlen).
  { by left. }
  unfold calls_since. cbn. by rewrite drop_app_length.
Qed.

(** ** The cool-down and the minimum on-time over a session *)

Lemma session_inv_later now now' ref cs :
  now <= now' -> session_inv now ref cs -> session_inv now' ref cs.
Proof.
  intros Hle (Hall & Hcool & Hon). split; [|done].
  eapply Forall_impl; [exact Hall|]. cbn. intros c (? & ? & ?).
  split; [lia|done].
Qed.

(** A zone gets a fresh runtime state, or the one it has. *)
Lemma session_inv_touch now ref cs zoneId :
  session_inv now ref cs -> session_inv now (<[zoneId := st_of ref zoneId]> ref) cs.
Proof.
  intros (Hall & Hcool & Hon). split; [|done].
  eapply Forall_impl; [exact Hall|]. cbn. intros c (? & Ha & Hb).
  split; [done|].
  destruct (decide (c_zoneId c = zoneId)) as [Heq|Hne].
  - rewrite <- Heq, st_of_insert. by split.
  - rewrite st_of_insert_ne by done. by split.
Qed.

(** A command at [now] that sets the last action of its zone to [now], and
    the last ON too if it is an ON. *)
Lemma session_inv_command now ref cs c st' :
  session_inv now ref cs ->
  c_at c = now ->
  st_lastActionTs st' = now ->
  (if String.eqb (c_action c) "ON" then st_lastOnTs st' = now
   else st_lastOnTs st' = st_lastOnTs (st_of ref (c_zoneId c))) ->
  Forall (fun c1 => cooled_down c1 c /\ kept_on c1 c) cs ->
  session_inv now (<[c_zoneId c := st']> ref) (cs ++ [c]).
Proof.
  intros (Hall & Hcool & Hon) Hat Hact Hlast Hrel. split; [|split].
  - apply Forall_app. split.
    + eapply Forall_impl; [exact Hall|]. cbn. intros c1 (? & Ha & Hb).
      split; [done|].
      destruct (decide (c_zoneId c1 = c_zoneId c)) as [Heq|Hne].
      * rewrite Heq, st_of_insert. split; [lia|]. intros H1.
        destruct (String.eqb (c_action c) "ON"); [lia|].
        rewrite Hlast, <- Heq. by apply Hb.
      * rewrite st_of_insert_ne by done. by split.
    + constructor; [|constructor]. rewrite st_of_insert.
      split; [lia|]. split; [lia|]. intros H1. rewrite H1 in Hlast. cbn in Hlast. lia.
  - apply StronglySorted_app_2; [|done|repeat constructor].
    intros c1 c2 H1 H2. apply list_elem_of_singleton in H2 as ->.
    rewrite Forall_forall in Hrel. by apply Hrel.
  - apply StronglySorted_app_2; [|done|repeat constructor].
    intros c1 c2 H1 H2. apply list_elem_of_singleton in H2 as ->.
    rewrite Forall_forall in Hrel. by apply Hrel.
Qed.

Lemma loop_session now telemetry seen connected zs nextStatus ref sent cs :
  session_inv now ref cs ->
  exists nextStatus' ref' new,
    fold_left (checkZone now telemetry seen connected) zs (nextStatus, ref, sent)
    = (nextStatus', ref', sent ++ new)
    /\ session_inv now ref' (cs ++ new).
Proof.
  revert nextStatus ref sent cs.
  induction zs as [|z zs IH]; intros nextStatus ref sent cs Hinv; cbn [fold_left].
  - do 2 eexists. exists []. by rewrite !app_nil_r.
  - destruct (checkZone_spec now telemetry seen connected nextStatus ref sent z)
      as (ns1 & ref1 & new1 & -> & Hother & Hnew & Hman & Hauto).
    assert (session_inv now ref1 (cs ++ new1)) as Hinv1.
    { destruct (manualOn z) eqn:Hm.
      { destruct (Hman eq_refl) as [-> ->]. by rewrite app_nil_r. }
      destruct (Hauto eq_refl) as [(-> & ->)|[(-> & Hact & Hrel & Hcool)
                                              |(-> & Hact & Hrel & Hmin)]].
      - rewrite app_nil_r. by apply session_inv_touch.
      - destruct new1 as [|c [|? ?]]; try discriminate.
        apply Forall_singleton in Hnew as (Hz & Hat & Hforced & _ & _ & _).
        injection Hact as Hact. rewrite <- Hz.
        apply session_inv_command; try done; [by rewrite Hact|].
        destruct Hinv as (Hall & _). eapply Forall_impl; [exact Hall|].
        cbn. intros c1 (_ & Ha & _). split.
        + intros Hsame _ _. rewrite Hsame, Hz in Ha. lia.
        + intros _ _ _ Hoff. congruence.
      - destruct new1 as [|c [|? ?]]; try discriminate.
        apply Forall_singleton in Hnew as (Hz & Hat & Hforced & _ & _ & _).
        injection Hact as Hact. rewrite <- Hz.
        apply session_inv_command; try done; [by rewrite Hact, Hz|].
        destruct Hinv as (Hall & _). eapply Forall_impl; [exact Hall|].
        cbn. intros c1 (_ & _ & Hb). split.
        + intros _ _ Hon. congruence.
        + intros Hsame Hon _ _. specialize (Hb Hon). rewrite Hsame, Hz in Hb. lia. }
    destruct (IH ns1 ref1 (sent ++ new1) (cs ++ new1) Hinv1)
      as (ns2 & ref2 & new2 & -> & Hinv2).
    do 2 eexists. exists (new1 ++ new2). by rewrite !app_assoc in *.
Qed.

(** One event of a session. *)
Lemma handle_session ev page cs now :
  times [ev] = [now] \/ times [ev] = [] ->
  session_inv now (stateRef page) cs ->
  exists new,
    calls (handle page ev) = calls page ++ new
    /\ session_inv now (stateRef (handle page ev)) (cs ++ new).
Proof.
  intros Hnow Hinv. destruct ev as [t telemetry seen connected|t connected zoneId action| |];
    cbn [handle].
  - destruct Hnow as [[= ->]|[=]]. rewrite runAutoCheck_loop.
    destruct (loop_session now telemetry seen connected (zones page) ∅
                (stateRef page) (calls page) cs Hinv) as (ns & ref & new & -> & Hinv').
    by exists new.
  - destruct Hnow as [[= ->]|[=]]. unfold forceAction.
    destruct (String.eqb action "ON") eqn:Hact; cbn [calls stateRef]; eexists;
      (split; [reflexivity|]).
    + apply (session_inv_command now (stateRef page) cs
               (publishRelay now connected true zoneId "ON")); try done.
      apply Forall_forall. intros c1 _. split.
      * intros _ Hf. discriminate.
      * intros _ _ Hf. discriminate.
    + apply (session_inv_command now (stateRef page) cs
               (publishRelay now connected true zoneId "OFF")); try done.
      apply Forall_forall. intros c1 _. split.
      * intros _ Hf. discriminate.
      * intros _ _ Hf. discriminate.
  - exists []. by rewrite !app_nil_r.
  - exists []. by rewrite !app_nil_r.
Qed.

Lemma times_app evs1 evs2 : times (evs1 ++ evs2) = times evs1 ++ times evs2.
Proof. unfold times. by rewrite omap_app. Qed.

(** The invariant holds along every session whose clock does not run
    backwards. *)
Lemma run_session (events : list Event) (page : Page) :
  StronglySorted Z.le (times events) ->
  exists new,
    calls (run events page) = calls page ++ new
    /\ (times events = [] -> new = [])
    /\ (forall now, last (times events) = Some now ->
        session_inv now (stateRef (run events page)) new).
Proof.
  induction events as [|ev events IH] using rev_ind; intros Hsorted.
  - exists []. cbn. rewrite app_nil_r. repeat split; done.
  - rewrite times_app in Hsorted. apply StronglySorted_app in Hsorted as (Hle & Hs & _).
    destruct (IH Hs) as (new & Hcalls & Hnone & Hinv). clear IH.
    unfold run in *. rewrite fold_left_app. cbn [fold_left].
    set (page1 := fold_left handle events page) in *.
    rewrite times_app.
    destruct (times [ev]) as [|now [|? ?]] eqn:Hev.
    + exists new. rewrite app_nil_r.
      destruct ev; try discriminate; cbn [handle]; done.
    + assert (session_inv now (stateRef page1) new) as Hinv1.
      { destruct (last (times events)) as [t|] eqn:Hlast.
        - apply (session_inv_later t); [|by apply Hinv].
          apply Hle; [|by apply list_elem_of_singleton].
          apply last_Some in Hlast as [l' ->]. apply elem_of_app. right.
          by apply list_elem_of_singleton.
        - apply last_None in Hlast. rewrite (Hnone Hlast). repeat constructor. }
      destruct (handle_session ev page1 new now (or_introl Hev) Hinv1)
        as (new' & Hcalls' & Hinv').
      exists (new ++ new'). rewrite Hcalls', Hcalls, app_assoc. split; [done|].
      split; [intros H; by apply app_eq_nil in H as [_ ?]|].
      intros t. rewrite last_snoc. by intros [= <-].
    + destruct ev; discriminate.
Qed.

Lemma run_session_sorted (events : list Event) (page : Page) :
  StronglySorted Z.le (times events) ->
  StronglySorted cooled_down (calls_since page (run events page))
  /\ StronglySorted kept_on (calls_since page (run events page)).
Proof.
  intros Hsorted.
  destruct (run_session events page Hsorted) as (new & Hcalls & Hnone & Hinv).
  unfold calls_since. rewrite Hcalls, drop_app_length.
  destruct (last (times events)) as [t|] eqn:Hlast.
  - destruct (Hinv t eq_refl) as (_ & ? & ?). done.
  - apply last_None in Hlast. rewrite (Hnone Hlast). split; constructor.
Qed.

(** X16. Over a session of automatic checks, forced actions, manual
    toggles and crop changes whose clock does not run backwards, every
    automatic ON of a zone comes more than [MIN_INTERVAL_MS] (five minutes)
    after every earlier command to that zone, automatic or forced, ON or
    OFF. *)
Theorem automatic_on_waits_for_cooldown (events : list Event) (page : Page) :
  StronglySorted Z.le (times events) ->
  StronglySorted cooled_down (calls_since page (run events page)).
Proof. intros Hsorted. by apply run_session_sorted. Qed.

Lemma automatic_on_waits_for_cooldown_witness :
  StronglySorted cooled_down (calls_since mounted (run scenario mounted)).
Proof.
  apply (automatic_on_waits_for_cooldown scenario mounted).
  repeat constructor; vm_compute; discriminate.
Defined.

(** X17. Over such a session, every automatic OFF of a zone comes at
    least [MIN_ON_MS] (one minute) after every earlier ON of that zone,
    automatic or forced. *)
Theorem automatic_off_waits_for_min_on (events : list Event) (page : Page) :
  StronglySorted Z.le (times events) ->
  StronglySorted kept_on (calls_since page (run events page)).
Proof. intros Hsorted. by apply run_session_sorted. Qed.

Lemma automatic_off_waits_for_min_on_witness :
  StronglySorted kept_on (calls_since mounted (run scenario mounted)).
Proof.
  apply (automatic_off_waits_for_min_on scenario mounted).
  repeat constructor; vm_compute; discriminate.
Defined.

(** The scenario: both zones are switched on, off, and on again. *)
Example scenario_decisions :
  map decision (calls_since mounted (run scenario mounted))
  = [(400000, "A", "ON", false); (400000, "B", "ON", false);
     (470000, "A", "OFF", false); (470000, "B", "OFF", false);
     (771000, "A", "ON", false); (771000, "B", "ON", false)]%string.
Proof. vm_compute. reflexivity. Qed.

(** ** The page does not wait for the broker *)

Ltac offline_done :=
  split; [reflexivity|]; split; [reflexivity|]; split; [reflexivity|];
  repeat constructor.

Lemma checkZone_offline now telemetry seen nextStatus ref sent1 sent2 zone :
  exists nextStatus' ref' new1 new2,
    checkZone now telemetry seen true (nextStatus, ref, sent1) zone
    = (nextStatus', ref', sent1 ++ new1)
    /\ checkZone now telemetry seen false (nextStatus, ref, sent2) zone
       = (nextStatus', ref', sent2 ++ new2)
    /\ map decision new2 = map decision new1
    /\ Forall (fun c => c_connected c = false) new2.
Proof.
  unfold checkZone.
  destruct (manualOn zone).
  { do 2 eexists. exists [], []. rewrite !app_nil_r. offline_done. }
  destruct (currentSoil_of (latest_of telemetry (z_id zone))) as [soil|].
  2:{ do 2 eexists. exists [], []. rewrite !app_nil_r. offline_done. }
  set (r := Frontend.computeThreshold _ _ _).
  set (st := default initial (ref !! z_id zone)).
  destruct (le_threshold soil (threshold_on r) && negb (st_relayState st))%bool.
  - destruct (MIN_INTERVAL_MS <? now - st_lastActionTs st).
    + cbn [st_relayState st_lastOnTs]. rewrite andb_true_r, Z.sub_diag.
      replace (Z.max 0 (MIN_ON_MS - 0) <=? 0) with false by reflexivity.
      destruct (ge_threshold soil (threshold_off r));
        (do 2 eexists; eexists [_], [_]; offline_done).
    + destruct (ge_threshold soil (threshold_off r) && st_relayState st)%bool.
      * destruct (Z.max 0 (MIN_ON_MS - (now - st_lastOnTs st)) <=? 0).
        -- do 2 eexists. eexists [_], [_]. offline_done.
        -- do 2 eexists. exists [], []. rewrite !app_nil_r. offline_done.
      * do 2 eexists. exists [], []. rewrite !app_nil_r. offline_done.
  - destruct (ge_threshold soil (threshold_off r) && st_relayState st)%bool.
    + destruct (Z.max 0 (MIN_ON_MS - (now - st_lastOnTs st)) <=? 0).
      * do 2 eexists. eexists [_], [_]. offline_done.
      * do 2 eexists. exists [], []. rewrite !app_nil_r. offline_done.
    + do 2 eexists. exists [], []. rewrite !app_nil_r. offline_done.
Qed.

Lemma loop_offline now telemetry seen zs nextStatus ref sent1 sent2 :
  exists nextStatus' ref' new1 new2,
    fold_left (checkZone now telemetry seen true) zs (nextStatus, ref, sent1)
    = (nextStatus', ref', sent1 ++ new1)
    /\ fold_left (checkZone now telemetry seen false) zs (nextStatus, ref, sent2)
       = (nextStatus', ref', sent2 ++ new2)
    /\ map decision new2 = map decision new1
    /\ Forall (fun c => c_connected c = false) new2.
Proof.
  revert nextStatus ref sent1 sent2.
  induction zs as [|z zs IH]; intros nextStatus ref sent1 sent2; cbn [fold_left].
  - do 2 eexists. exists [], []. by rewrite !app_nil_r.
  - destruct (checkZone_offline now telemetry seen nextStatus ref sent1 sent2 z)
      as (ns1 & ref1 & a1 & a2 & -> & -> & Hdec & Hoff).
    destruct (IH ns1 ref1 (sent1 ++ a1) (sent2 ++ a2))
      as (ns2 & ref2 & b1 & b2 & -> & -> & Hdec' & Hoff').
    do 2 eexists. exists (a1 ++ b1), (a2 ++ b2). rewrite !app_assoc.
    split; [done|]. split; [done|]. rewrite !map_app, Hdec, Hdec'.
    split; [done|]. by apply Forall_app.
Qed.

(** X18. The automatic check decides and records the same whether or not
    the MQTT client is connected: with the client disconnected every
    message is dropped, and still the runtime states, the status records
    and the commands decided are those of a check whose messages went out.
    The page never learns whether a command was delivered. *)
Theorem check_ignores_the_connection (now : Z) (telemetry : option WsTelemetry)
    (seen : gmap string Status) (page : Page) :
  let online := runAutoCheck now telemetry seen true page in
  let offline := runAutoCheck now telemetry seen false page in
  stateRef offline = stateRef online
  /\ zoneStatus offline = zoneStatus online
  /\ map decision (calls_since page offline) = map decision (calls_since page online)
  /\ Forall (fun c => c_connected c = false) (calls_since page offline).
Proof.
  cbn zeta. rewrite !runAutoCheck_loop.
  destruct (loop_offline now telemetry seen (zones page) ∅ (stateRef page)
              (calls page) (calls page)) as (ns & ref & new1 & new2 & -> & -> & Hdec & Hoff).
  unfold calls_since. cbn. by rewrite !drop_app_length.
Qed.

(** ** The page and the controller speak the same language *)

Lemma loop_plain now telemetry seen connected zs nextStatus ref sent :
  exists nextStatus' ref' new,
    fold_left (checkZone now telemetry seen connected) zs (nextStatus, ref, sent)
    = (nextStatus', ref', sent ++ new)
    /\ Forall (fun c => commands (zoneToRelayTopic (c_zoneId c)) (c_action c)
                                 (c_topic c, c_message c, c_connected c)
                        /\ (c_action c = "ON"%string \/ c_action c = "OFF"%string)) new.
Proof.
  revert nextStatus ref sent.
  induction zs as [|z zs IH]; intros nextStatus ref sent; cbn [fold_left].
  - do 2 eexists. exists []. by rewrite app_nil_r.
  - destruct (checkZone_spec now telemetry seen connected nextStatus ref sent z)
      as (ns1 & ref1 & new1 & -> & _ & Hnew & Hman & Hauto).
    destruct (IH ns1 ref1 (sent ++ new1)) as (ns2 & ref2 & new2 & -> & Hnew2).
    do 2 eexists. exists (new1 ++ new2). rewrite app_assoc. split; [done|].
    apply Forall_app. split; [|done].
    assert (Forall (fun c => c_action c = "ON"%string \/ c_action c = "OFF"%string) new1)
      as Hact.
    { destruct (manualOn z).
      - destruct (Hman eq_refl) as [_ ->]. constructor.
      - destruct (Hauto eq_refl) as [(_ & ->)|[(_ & Hact & _)|(_ & Hact & _)]];
          [constructor| |];
          destruct new1 as [|c [|? ?]]; try discriminate;
          injection Hact as Hact; apply Forall_singleton; auto. }
    assert (Forall (fun c => (c_zoneId c = z_id z /\ c_at c = now /\ c_forced c = false
                              /\ c_connected c = connected
                              /\ c_topic c = zoneToRelayTopic (c_zoneId c)
                              /\ c_message c = c_action c)
                             /\ (c_action c = "ON"%string \/ c_action c = "OFF"%string))
                   new1) as Hboth by (apply Forall_and; by split).
    eapply Forall_impl; [exact Hboth|].
    cbn. intros c ((_ & _ & _ & _ & Htopic & Hmsg) & Hc). split; [|done].
    split; [done|]. cbn. rewrite Hmsg. apply list_elem_of_here.
Qed.

(** X28. Every command that the page publishes over a session, automatic
    or forced, is one that the controller would recognise: it goes to the
    relay topic that the controller uses for that zone, and it is the plain
    encoding of ON or of OFF, one of the three encodings that the controller
    sends. *)
Theorem page_commands_are_controller_commands (events : list Event) (page : Page) :
  Forall (fun c => commands (zoneToRelayTopic (c_zoneId c)) (c_action c)
                            (c_topic c, c_message c, c_connected c)
                   /\ (c_action c = "ON"%string \/ c_action c = "OFF"%string))
         (calls_since page (run events page)).
Proof.
  assert (exists new,
            calls (run events page) = calls page ++ new
            /\ Forall (fun c => commands (zoneToRelayTopic (c_zoneId c)) (c_action c)
                                         (c_topic c, c_message c, c_connected c)
                                /\ (c_action c = "ON"%string
                                    \/ c_action c = "OFF"%string)) new)
    as (new & Hcalls & Hnew).
  { induction events as [|ev events IH] using rev_ind.
    - exists []. cbn. by rewrite app_nil_r.
    - destruct IH as (new & Hcalls & Hnew).
      unfold run in *. rewrite fold_left_app. cbn [fold_left].
      set (page1 := fold_left handle events page) in *.
      destruct ev as [now telemetry seen connected|now connected zoneId action| |];
        cbn [handle].
      + rewrite runAutoCheck_loop.
        destruct (loop_plain now telemetry seen connected (zones page1) ∅
                    (stateRef page1) (calls page1)) as (ns & ref & new' & -> & Hnew').
        exists (new ++ new'). cbn [calls]. rewrite Hcalls, app_assoc.
        split; [done|]. by apply Forall_app.
      + unfold forceAction.
        destruct (String.eqb action "ON"); cbn [calls]; eexists (new ++ [_]);
          rewrite Hcalls, app_assoc; (split; [reflexivity|]);
          (apply Forall_app; split; [done|]); apply Forall_singleton;
          (split; [split; [reflexivity|apply list_elem_of_here]|auto]).
      + exists new. done.
      + exists new. done. }
  unfold calls_since. by rewrite Hcalls, drop_app_length.
Qed.

End AutomaticMode.

(** * The subscription, the debug route and the crop seed *)

(** ** The controller does not hear itself *)

Lemma relay_topic_is_not_telemetry (zoneId : string) :
  zoneToRelayTopic zoneId <> TELEMETRY_TOPIC.
Proof.
  unfold zoneToRelayTopic, TELEMETRY_TOPIC.
  destruct (String.eqb zoneId "A"); [discriminate|].
  destruct (String.eqb zoneId "B"); [discriminate|].
  cbn. discriminate.
Qed.

(** X19. With the default telemetry topic, none of the messages that a
    decision cycle publishes can come back to the controller: each goes to
    a relay topic, and the listener of the subscription drops whatever
    arrives on a relay topic. *)
Theorem controller_does_not_hear_itself (cfg : Config) (env : Env) (payload : Payload)
    (w : World) :
  let w' := handleTelemetryMessage cfg env (JsonObject payload) w in
  Forall (fun call => forall cfg' env' msg w0,
            listener cfg' env' call.1.1 msg w0 = w0) (calls_since w w').
Proof.
  cbn zeta.
  destruct (delivery_outcome cfg env payload w)
    as (action & reason & extra & calls & _ & -> & _ & _ & _ & Hcase).
  assert (exists a, Forall (commands (zoneToRelayTopic (deviceId_of payload)) a) calls)
    as [a Hall].
  { destruct Hcase as [(_ & _ & _ & ?)|[(_ & _ & _ & _ & _ & _ & ? & _)
                      |[(_ & _ & _ & _ & _ & ? & _)|(_ & _ & _ & [?|?] & _)]]];
      by eexists. }
  eapply Forall_impl; [exact Hall|]. intros call [Htopic _] cfg' env' msg w0.
  unfold listener, subscribe. rewrite Htopic.
  pose proof (relay_topic_is_not_telemetry (deviceId_of payload)) as Hne.
  apply String.eqb_neq in Hne. by rewrite Hne.
Qed.

(** ** The debug route *)

Lemma force_state_doc (body : IrrigationDebug.Body) (w : World) (deviceId : string) :
  IrrigationDebug.b_deviceId body = Some deviceId ->
  deviceId <> ""%string ->
  exists d,
    DeviceState_findOne deviceId (IrrigationDebug.force_state body w).2 = Some d
    /\ relayState d = IrrigationDebug.b_relayState body ?? stored_relay deviceId w
    /\ lastOnTs d
       = (if IrrigationDebug.truthy_ts (IrrigationDebug.b_lastOnTs body)
          then IrrigationDebug.b_lastOnTs body
          else DeviceState_findOne deviceId w ≫= lastOnTs)
    /\ lastActionTs d = DeviceState_findOne deviceId w ≫= lastActionTs
    /\ lastOffTs d = None.
Proof.
  intros Hid Hne. unfold IrrigationDebug.force_state.
  rewrite Hid. cbn [truthy_str nullish].
  apply String.eqb_neq in Hne. rewrite Hne. cbn [negb snd].
  unfold IrrigationDebug.DeviceState_findOneAndUpdate, DeviceState_findOne, stored_relay,
    DeviceState_findOne.
  cbn [deviceStates set_deviceStates].
  rewrite lookup_insert_eq.
  eexists. split; [reflexivity|].
  destruct (deviceStates w !! deviceId) as [old|]; cbn;
    destruct (IrrigationDebug.truthy_ts (IrrigationDebug.b_lastOnTs body)) eqn:Hts;
    destruct (IrrigationDebug.b_lastOnTs body) as [t|];
    destruct (IrrigationDebug.b_relayState body); cbn; try done; discriminate.
Qed.

(** X20. A request to [POST /force-state] that names a device is
    answered with the document of the device, which then reads back as
    follows: [relayState] is the boolean of the request, [lastOnTs] its
    timestamp if that is not 0, and each keeps its value where the request
    gives none; [lastActionTs] is untouched; a [lastOffTs] of the request
    leaves no trace; and no other device, no event and no publish call is
    touched. *)
Theorem force_state_round_trip (body : IrrigationDebug.Body) (w : World)
    (deviceId : string) :
  IrrigationDebug.b_deviceId body = Some deviceId ->
  deviceId <> ""%string ->
  let w' := (IrrigationDebug.force_state body w).2 in
  (exists d,
      DeviceState_findOne deviceId w' = Some d
      /\ relayState d = IrrigationDebug.b_relayState body ?? stored_relay deviceId w
      /\ lastOnTs d
         = (if IrrigationDebug.truthy_ts (IrrigationDebug.b_lastOnTs body)
            then IrrigationDebug.b_lastOnTs body
            else DeviceState_findOne deviceId w ≫= lastOnTs)
      /\ lastActionTs d = DeviceState_findOne deviceId w ≫= lastActionTs
      /\ lastOffTs d = None)
  /\ (forall other, other <> deviceId ->
        DeviceState_findOne other w' = DeviceState_findOne other w)
  /\ irrigationEvents w' = irrigationEvents w
  /\ published w' = published w.
Proof.
  intros Hid Hne. cbn zeta. split; [by apply force_state_doc|].
  unfold IrrigationDebug.force_state.
  rewrite Hid. cbn [truthy_str nullish].
  apply String.eqb_neq in Hne. rewrite Hne. cbn [negb snd].
  split; [|done]. intros other Hother.
  unfold IrrigationDebug.DeviceState_findOneAndUpdate, DeviceState_findOne.
  cbn [deviceStates set_deviceStates]. by rewrite lookup_insert_ne.
Qed.

(** Zone A, switched on at [t_first], is forced off. *)
Lemma force_state_round_trip_witness :
  exists d,
    DeviceState_findOne "A"
      (IrrigationDebug.force_state
         (IrrigationDebug.mkBody (Some "A"%string) (Some false) (Some 0) (Some 5000))
         redelivery_w1).2 = Some d
    /\ relayState d = false
    /\ lastOnTs d = Some t_first
    /\ lastActionTs d = Some t_first
    /\ lastOffTs d = None.
Proof.
  refine (proj1 (force_state_round_trip
                   (IrrigationDebug.mkBody (Some "A"%string) (Some false) (Some 0)
                                           (Some 5000))
                   redelivery_w1 "A" _ _)).
  - reflexivity.
  - discriminate.
Defined.

(** X21. A relay that is forced on through the debug route without a
    time of the last ON, for a device that has none on record, is switched
    off by the watchdog on the next telemetry message of the device, as soon
    as the clock exceeds [MAX_ON_MS], whatever the soil reading: the time of
    the last ON is read as 0. *)
Theorem forced_on_without_timestamp_trips_watchdog (cfg : Config) (env : Env)
    (payload : Payload) (body : IrrigationDebug.Body) (w : World) :
  IrrigationDebug.b_deviceId body = Some (deviceId_of payload) ->
  IrrigationDebug.b_relayState body = Some true ->
  IrrigationDebug.truthy_ts (IrrigationDebug.b_lastOnTs body) = false ->
  DeviceState_findOne (deviceId_of payload) w ≫= lastOnTs = None ->
  MAX_ON_MS cfg < now env ->
  let w1 := (IrrigationDebug.force_state body w).2 in
  let w2 := handleTelemetryMessage cfg env (JsonObject payload) w1 in
  stored_relay (deviceId_of payload) w1 = true
  /\ map (fun ev => (ev_action ev, ev_reason ev)) (events_since w1 w2)
     = [("OFF", "watchdog_forced_off")]%string
  /\ stored_relay (deviceId_of payload) w2 = false.
Proof.
  intros Hid Hrel Hts Hnone Hmax. cbn zeta.
  assert (deviceId_of payload <> ""%string) as Hne.
  { unfold deviceId_of, or_str, truthy_str.
    repeat (case_match; simplify_eq; cbn in *; try done);
      by apply String.eqb_neq, negb_true_iff. }
  destruct (force_state_doc body w (deviceId_of payload) Hid Hne)
    as (d & Hd & Hr & Hon & _).
  set (w1 := (IrrigationDebug.force_state body w).2) in *.
  rewrite Hrel in Hr. rewrite Hts, Hnone in Hon.
  assert (stored_relay (deviceId_of payload) w1 = true) as Hrel1
    by (by rewrite (stored_relay_after _ _ _ Hd)).
  assert (stored_lastOn (deviceId_of payload) w1 = 0) as Hon1
    by (by rewrite (stored_lastOn_after _ _ _ Hd), Hon).
  split; [done|].
  destruct (delivery_outcome cfg env payload w1)
    as (action & reason & extra & calls & Hev & _ & _ & _ & Hdoc & Hcase).
  rewrite Hev, (stored_relay_after _ _ _ Hdoc).
  assert (stored_relay (deviceId_of payload) w1 = true
          /\ MAX_ON_MS cfg < now env - stored_lastOn (deviceId_of payload) w1) as Hdue.
  { split; [done|]. rewrite Hon1. lia. }
  destruct Hcase as [(-> & -> & _)|[(_ & _ & Hn & _)|[(_ & Hn & _)|(_ & Hn & _)]]];
    try contradiction.
  done.
Qed.

(** A device that is not on record is forced on and reports a dry soil
    five hours into the epoch. *)
Lemma forced_on_without_timestamp_trips_watchdog_witness :
  stored_relay "A"
    (handleTelemetryMessage default_config (envAt 18000000 brokerUp) (JsonObject dryA)
       (IrrigationDebug.force_state
          (IrrigationDebug.mkBody (Some "A"%string) (Some true) None None)
          emptyWorld).2) = false.
Proof.
  refine (proj2 (proj2 (forced_on_without_timestamp_trips_watchdog default_config
                          (envAt 18000000 brokerUp) dryA
                          (IrrigationDebug.mkBody (Some "A"%string) (Some true) None None)
                          emptyWorld _ _ _ _ _))).
  - reflexivity.
  - reflexivity.
  - reflexivity.
  - reflexivity.
  - vm_compute. reflexivity.
Defined.

(** ** The built-in crops *)

(** A band with whole-number bounds that is not empty, and a whole-number
    hysteresis that keeps [threshold_off] within 100: [threshold_on] lies
    in the band, and [threshold_off] is [threshold_on] plus the hysteresis,
    in the backend and in the frontend. *)
Lemma whole_band (raw : Q) (W F H : Z) :
  W + 3 <= F - 3 -> F - 3 + H <= 100 -> 0 <= H ->
  let ton := Math_round (Qmax (inject_Z W + 3) (Qmin (inject_Z F - 3) raw)) in
  W + 3 <= ton <= F - 3
  /\ Math_round (Qmin 100 (inject_Z ton + inject_Z H)) = ton + H
  /\ Math_round (Frontend.clamp (inject_Z ton + inject_Z H) (inject_Z ton) 100) = ton + H.
Proof.
  intros Hband Hcap Hh ton.
  assert (inject_Z W + 3 == inject_Z (W + 3))%Q as HW
    by (rewrite inject_Z_plus; reflexivity).
  assert (inject_Z F - 3 == inject_Z (F - 3))%Q as HF
    by (unfold Z.sub; rewrite inject_Z_plus, inject_Z_opp; reflexivity).
  assert (W + 3 <= ton <= F - 3) as Hton.
  { destruct (clamp_bounds raw (inject_Z W + 3) (inject_Z F - 3)) as [Hlo Hhi].
    { rewrite HW, HF. by rewrite <- Zle_Qle. }
    split.
    - rewrite <- (Math_round_inject (W + 3)), <- (Math_round_comp _ _ HW).
      by apply Math_round_mono.
    - rewrite <- (Math_round_inject (F - 3)), <- (Math_round_comp _ _ HF).
      by apply Math_round_mono. }
  split; [exact Hton|].
  assert (inject_Z ton + inject_Z H == inject_Z (ton + H))%Q as Hsum
    by (rewrite inject_Z_plus; reflexivity).
  assert (inject_Z (ton + H) <= 100)%Q as Hle.
  { change 100%Q with (inject_Z 100). rewrite <- Zle_Qle. lia. }
  assert (inject_Z ton <= inject_Z (ton + H))%Q as Hge.
  { rewrite <- Zle_Qle. lia. }
  split.
  - etrans; [|apply (Math_round_inject (ton + H))]. apply Math_round_comp.
    rewrite Hsum. by apply Q.min_r.
  - etrans; [|apply (Math_round_inject (ton + H))]. apply Math_round_comp.
    unfold Frontend.clamp. rewrite Hsum.
    rewrite (Q.min_r _ _ Hle). by apply Q.max_r.
Qed.

(** Every profile of the page, the fallback included, has whole-number
    bounds and hysteresis. *)
Lemma builtin_profile_shape (zone : IrrigationControl.Zone) :
  exists (W F H : Z) (kc tf rd : Q),
    IrrigationControl.cropProfile_of zone
    = mkCrop None (Some kc) (Some tf) (Some rd) (Some (inject_Z F)) (Some (inject_Z W))
             (Some (inject_Z H))
    /\ W + 3 <= F - 3 /\ 13 <= W + 3 /\ F - 3 <= 42 /\ 0 < H <= 6.
Proof.
  unfold IrrigationControl.cropProfile_of.
  destruct (IrrigationControl.cropDefaults !! _) as [p|] eqn:Hp; cbn [default].
  2:{ exists 10, 40, 5. do 3 eexists. split; [reflexivity|lia]. }
  assert (p ∈ (map_to_list IrrigationControl.cropDefaults).*2) as Hin.
  { apply list_elem_of_fmap.
    exists (toLowerCase (IrrigationControl.z_crop zone), p). split; [done|].
    by apply elem_of_map_to_list. }
  clear Hp.
  match type of Hin with
  | _ ∈ ?l => let l' := eval vm_compute in l in change l with l' in Hin
  end.
  rewrite !elem_of_cons, elem_of_nil in Hin.
  destruct Hin as [->|[->|[->|[->|[->|[->|[->|[->|[]]]]]]]]];
    first [ exists 10, 40, 5; do 3 eexists; split; [reflexivity|lia]
          | exists 10, 40, 4; do 3 eexists; split; [reflexivity|lia]
          | exists 12, 45, 6; do 3 eexists; split; [reflexivity|lia] ].
Qed.

(** X22. For every zone of the page, whatever crop it names, and for
    every telemetry and forecast, the thresholds of the page are whole
    numbers with [13 <= threshold_on <= 42], and [threshold_off] is
    [threshold_on] plus the hysteresis of the crop, so that the band between
    them is never empty: a soil value cannot ask for ON and for OFF. *)
Theorem builtin_crops_have_sound_bands (zone : IrrigationControl.Zone)
    (telemetry : Telemetry) (forecast : option Forecast) :
  let r := Frontend.computeThreshold telemetry forecast
             (IrrigationControl.cropProfile_of zone) in
  13 <= threshold_on r <= 42
  /\ threshold_off r = threshold_on r + Math_round (d_hysteresisPct (details r))
  /\ threshold_on r < threshold_off r <= 48.
Proof.
  cbn zeta.
  destruct (builtin_profile_shape zone)
    as (W & F & H & kc & tf & rd & -> & H1 & H2 & H3 & H4).
  unfold Frontend.computeThreshold; cbv zeta.
  cbn [threshold_on threshold_off details d_hysteresisPct fieldCapacityPct
       wiltingPointPct hysteresisPct nullish].
  unfold Frontend.clamp.
  match goal with
  | |- context [Qmin (inject_Z F - 3) ?raw] =>
      destruct (whole_band raw W F H H1 ltac:(lia) ltac:(lia)) as (Hton & _ & Hoff)
  end.
  unfold Frontend.clamp in Hoff. rewrite Hoff, Math_round_inject. lia.
Qed.

(** ** The seeded crops *)

(** The profile that [seed] leaves under the name of a seeded crop: the
    cast entry of the array, laid over what was stored. *)
Lemma seed_lookup (db : CropDb) (n : string) :
  n ∈ SeedCrops.names ->
  exists c,
    c ∈ SeedCrops.crops
    /\ name c = Some n
    /\ SeedCrops.seed db !! n
       = Some (spread (default (mkCrop None None None None None None None) (db !! n))
                      (SeedCrops.cast c)).
Proof.
  intros Hin. unfold SeedCrops.names, SeedCrops.crops in Hin. cbn [omap list_omap name] in Hin.
  rewrite !elem_of_cons, elem_of_nil in Hin.
  unfold SeedCrops.seed, SeedCrops.crops. cbn [fold_left].
  unfold SeedCrops.updateOne. cbn [name nullish].
  destruct Hin as [->|[->|[->|[->|[->|[->|[->|[->|[]]]]]]]]];
    (eexists; split; [|split; [|
       repeat (rewrite lookup_insert_ne by discriminate);
       rewrite lookup_insert_eq;
       repeat (rewrite lookup_insert_ne by discriminate); reflexivity]];
     [set_solver|reflexivity]).
Qed.

(** X23. The hysteresis of the seed file never reaches the controller:
    [hysteresisPct] is not a path of the crop schema, so the seeded profiles
    are stored without it, and for a device that names a seeded crop the
    controller computes with the default of 5, whatever the seed file says
    (4 for potato, 6 for sugarcane and banana): [threshold_off] is
    [threshold_on + 5], with [13 <= threshold_on <= 42]. *)
Theorem seeded_crops_lose_hysteresis (db : CropDb) (env : Env) (payload : Payload) :
  map_Forall (fun _ p => hysteresisPct p = None) db ->
  crops env = SeedCrops.seed db ->
  cropName_of payload ∈ SeedCrops.names ->
  let r := c_thresholds (context env payload) in
  d_hysteresisPct (details r) = 5%Q
  /\ threshold_off r = threshold_on r + 5
  /\ 13 <= threshold_on r <= 42.
Proof.
  intros Hdb Hcrops Hname. cbn zeta.
  destruct (seed_lookup db (cropName_of payload) Hname) as (c & Hc & Hn & Hlook).
  unfold context; cbv zeta; cbn [c_thresholds]. rewrite Hcrops, Hlook.
  assert (hysteresisPct (default (mkCrop None None None None None None None)
                                 (db !! cropName_of payload)) = None) as Hold.
  { destruct (db !! cropName_of payload) as [old|] eqn:Hold; [|done].
    exact (Hdb _ _ Hold). }
  set (old := default _ (db !! cropName_of payload)) in *. clearbody old.
  set (tel := mkTelemetry _ _ _). set (fc := forecast_of env payload).
  clearbody tel fc.
  assert (forall W F : Z,
            W + 3 <= F - 3 -> 13 <= W + 3 -> F - 3 <= 42 ->
            forall n kc tf rd,
              truthy_str (Some n) = true -> truthy_optQ (Some kc) = true ->
              let r := Threshold.computeThreshold (SeedCrops.seed db) tel fc
                         (mkCrop (Some n) (Some kc) (Some tf) (Some rd)
                                 (Some (inject_Z F)) (Some (inject_Z W)) None) in
              d_hysteresisPct (details r) = 5%Q
              /\ threshold_off r = threshold_on r + 5
              /\ 13 <= threshold_on r <= 42) as Hgen.
  { intros W F H1 H2 H3 n kc tf rd Htn HtK.
    unfold Threshold.computeThreshold, Threshold.mergeProfile; cbv zeta.
    cbn [name Kc]. rewrite Htn, HtK. cbn [negb andb].
    cbn [threshold_on threshold_off details d_hysteresisPct fieldCapacityPct
         wiltingPointPct hysteresisPct nullish].
    match goal with
    | |- context [Qmin (inject_Z F - 3) ?raw] =>
        destruct (whole_band raw W F 5 H1 ltac:(lia) ltac:(lia)) as (Hton & Hoff & _)
    end.
    split; [reflexivity|]. change (inject_Z 5) with 5%Q in Hoff. rewrite Hoff. lia. }
  assert (exists (W F : Z) (n : string) (kc tf rd h : Q),
            c = mkCrop (Some n) (Some kc) (Some tf) (Some rd) (Some (inject_Z F))
                       (Some (inject_Z W)) (Some h)
            /\ truthy_str (Some n) = true /\ truthy_optQ (Some kc) = true
            /\ W + 3 <= F - 3 /\ 13 <= W + 3 /\ F - 3 <= 42)
    as (W & F & n & kc & tf & rd & h & -> & Htn & HtK & H1 & H2 & H3).
  { unfold SeedCrops.crops in Hc. rewrite !elem_of_cons, elem_of_nil in Hc.
    destruct Hc as [->|[->|[->|[->|[->|[->|[->|[->|[]]]]]]]]];
      first [ exists 10, 40; do 5 eexists; split; [reflexivity|];
              split; [reflexivity|]; split; [reflexivity|]; lia
            | exists 12, 45; do 5 eexists; split; [reflexivity|];
              split; [reflexivity|]; split; [reflexivity|]; lia ]. }
  unfold spread, SeedCrops.cast.
  cbn [name Kc targetFraction rootDepth_cm fieldCapacityPct
       wiltingPointPct hysteresisPct].
  rewrite Hold.
  change (strict SeedCrops.CropProfileSchema "hysteresisPct" (Some h)) with (@None Q).
  unfold strict.
  repeat match goal with
         | |- context [has_path SeedCrops.CropProfileSchema ?s] =>
             change (has_path SeedCrops.CropProfileSchema s) with true
         end.
  cbn [nullish_opt]. by apply Hgen.
Qed.

(** A fresh database is seeded, and zone A reports a potato field. *)
Lemma seeded_crops_lose_hysteresis_witness :
  threshold_off (c_thresholds
                   (context (mkEnv t_first brokerUp (SeedCrops.seed ∅) (fun _ _ => None))
                            (telemetryOf "A" "potato" 28)))
  = threshold_on (c_thresholds
                    (context (mkEnv t_first brokerUp (SeedCrops.seed ∅) (fun _ _ => None))
                             (telemetryOf "A" "potato" 28))) + 5.
Proof.
  refine (proj1 (proj2 (seeded_crops_lose_hysteresis ∅
                          (mkEnv t_first brokerUp (SeedCrops.seed ∅) (fun _ _ => None))
                          (telemetryOf "A" "potato" 28) _ _ _))).
  - apply map_Forall_empty.
  - reflexivity.
  - vm_compute. set_solver.
Defined.

(** * Further properties of the controller, continued *)

(** ** The waits that refer to the last OFF *)

(** X24. No cycle reads a time of the last OFF other than 0, and so the
    two waits that refer to it hold nothing back: for a device whose last
    ON time on record is not negative, and a clock that has passed
    [MIN_INTERVAL_BETWEEN_OFF_MS], no event has the reason
    [min_interval_between_off_not_elapsed], and none a reason that starts
    with [blocked_after_off_wait]. *)
Theorem waits_after_off_never_block (cfg : Config) (env : Env) (payload : Payload)
    (w : World) :
  0 <= stored_lastOn (deviceId_of payload) w ->
  MIN_INTERVAL_BETWEEN_OFF_MS cfg <= now env ->
  let w' := handleTelemetryMessage cfg env (JsonObject payload) w in
  Forall (fun ev =>
            ev_reason ev <> "min_interval_between_off_not_elapsed"%string
            /\ String.prefix "blocked_after_off_wait" (ev_reason ev) = false)
         (events_since w w').
Proof.
  intros Hlast Hnow. cbn zeta. rewrite handle_eq.
  rewrite <- (events_since_load (deviceId_of payload) payload w).
  set (id := deviceId_of payload) in *. set (c := context env payload).
  assert (ts_of (state (loadState id payload w)) lastOnTs = stored_lastOn id w) as Hon.
  { rewrite loadState_eq. cbn. by rewrite loaded_lastOnTs. }
  assert (ts_of (state (loadState id payload w)) lastOffTs = 0) as Hoff
    by apply cycle_reads_no_lastOffTs.
  destruct (decisionCycle_branch cfg (broker env) c (loadState id payload w))
    as [| | | | | |soilPct Hnwd Hsoil Hwant Hdbg Hgate| |soilPct Hnwd Hsoil Hwant Hmin Hint
       | | |];
    rewrite step_events; apply Forall_singleton; cbn [ev_reason eventOf];
    try (split; [discriminate|reflexivity]).
  - unfold gate, onGate in Hgate |- *. rewrite Hon, Hoff in Hgate |- *.
    destruct (stored_lastOn id w <? 0) eqn:Hlt; [apply Z.ltb_lt in Hlt; lia|].
    destruct (MIN_INTERVAL_BETWEEN_ON_MS cfg <=? c_now c - stored_lastOn id w);
      [discriminate|].
    cbn. split; [discriminate|reflexivity].
  - rewrite Hoff in Hint. change (c_now c) with (now env) in Hint. lia.
Qed.

(** Zone A asks for ON again 10 s after it was switched on. *)
Lemma waits_after_off_never_block_witness :
  Forall (fun ev =>
            ev_reason ev <> "min_interval_between_off_not_elapsed"%string
            /\ String.prefix "blocked_after_off_wait" (ev_reason ev) = false)
         (events_since redelivery_w1 redelivery_w2).
Proof.
  refine (waits_after_off_never_block default_config (envAt (t_first + 10000) brokerUp)
            (telemetryA (SoilNum 28%Q)) redelivery_w1 _ _).
  - vm_compute. discriminate.
  - vm_compute. discriminate.
Defined.

(** ** The minimum on-time over a sequence of deliveries *)

Lemma handle_published cfg env msg w :
  exists calls,
    published (handleTelemetryMessage cfg env msg w) = published w ++ calls
    /\ calls_since w (handleTelemetryMessage cfg env msg w) = calls.
Proof.
  assert (exists calls,
            published (handleTelemetryMessage cfg env msg w) = published w ++ calls)
    as [calls Hcalls].
  { pose proof (handle_payload cfg env msg w) as Hmsg.
    destruct (truthyPayload (safeParseJSON msg)) as [payload|]; rewrite Hmsg;
      [|exists []; by rewrite app_nil_r].
    rewrite handle_eq.
    destruct (decisionCycle_branch cfg (broker env) (context env payload)
                (loadState (deviceId_of payload) payload w));
      rewrite step_published, loadState_eq; by eexists. }
  exists calls. split; [done|]. unfold calls_since. by rewrite Hcalls, drop_app_length.
Qed.

(** One delivery while the relay of [deviceId] is held on. *)
Lemma handle_holds_quiet (cfg : Config) (env : Env) (msg : Message) (w : World)
    (deviceId : string) (s : DeviceState) (t0 : Z) :
  MIN_ON_MS cfg <= MAX_ON_MS cfg ->
  DeviceState_findOne deviceId w = Some s ->
  relayState s = true ->
  lastOnTs s = Some t0 ->
  now env < t0 + MIN_ON_MS cfg ->
  Forall (fun call => call.1.1 <> zoneToRelayTopic deviceId)
         (calls_since w (handleTelemetryMessage cfg env msg w)).
Proof.
  intros Hcfg Hs Hrel Hon Hnow.
  pose proof (handle_payload cfg env msg w) as Hmsg.
  destruct (truthyPayload (safeParseJSON msg)) as [payload|]; rewrite Hmsg.
  2:{ unfold calls_since. rewrite drop_all. constructor. }
  destruct (decide (deviceId_of payload = deviceId)) as [<-|Hne].
  - rewrite handle_eq, <- (calls_since_load (deviceId_of payload) payload w).
    destruct (relay_held_on cfg (broker env) (context env payload)
                (loadState (deviceId_of payload) payload w)
                (loaded (deviceId_of payload) payload w) t0 Hcfg)
      as (-> & _).
    { by rewrite loadState_eq. }
    { by rewrite loaded_relayState, Hs, <- Hrel. }
    { by rewrite loaded_lastOnTs, Hs. }
    { done. }
    constructor.
  - destruct (delivery_outcome cfg env payload w)
      as (action & reason & extra & calls & _ & -> & _ & _ & _ & Hcase).
    assert (exists a, Forall (commands (zoneToRelayTopic (deviceId_of payload)) a) calls)
      as [a Hall].
    { destruct Hcase as [(_ & _ & _ & ?)|[(_ & _ & _ & _ & _ & _ & ? & _)
                        |[(_ & _ & _ & _ & _ & ? & _)|(_ & _ & _ & [?|?] & _)]]];
        by eexists. }
    eapply Forall_impl; [exact Hall|]. intros call [Htopic _] Heq.
    rewrite Htopic in Heq. by apply zoneToRelayTopic_inj in Heq.
Qed.

(** X25. However many messages are handled before [t0 + MIN_ON_MS], from
    whatever devices and with whatever readings, a relay that is on record
    as switched on at [t0] stays recorded as on with that time, and nothing
    at all is published to its relay topic, provided that the messages are
    handled in turn, each cycle starting after the previous one has
    completed and after the ON was saved (the watchdog limit being no
    shorter than the minimum on-time). *)
Theorem relay_is_held_through_min_on (cfg : Config)
    (deliveries : list (Env * Message)) (w : World) (deviceId : string)
    (s : DeviceState) (t0 : Z) :
  MIN_ON_MS cfg <= MAX_ON_MS cfg ->
  DeviceState_findOne deviceId w = Some s ->
  relayState s = true ->
  lastOnTs s = Some t0 ->
  Forall (fun d => now d.1 < t0 + MIN_ON_MS cfg) deliveries ->
  let w' := run_in_turn cfg deliveries w in
  stored_relay deviceId w' = true
  /\ stored_lastOn deviceId w' = t0
  /\ Forall (fun call => call.1.1 <> zoneToRelayTopic deviceId) (calls_since w w').
Proof.
  intros Hcfg Hs Hrel Hon Hall. cbn zeta.
  assert (exists s' calls,
            DeviceState_findOne deviceId (run_in_turn cfg deliveries w) = Some s'
            /\ relayState s' = true /\ lastOnTs s' = Some t0
            /\ published (run_in_turn cfg deliveries w) = published w ++ calls
            /\ Forall (fun call => call.1.1 <> zoneToRelayTopic deviceId) calls)
    as (s' & calls & Hs' & Hrel' & Hon' & Hpub & Hquiet).
  { induction deliveries as [|[env msg] deliveries IH] using rev_ind.
    - exists s, []. cbn. by rewrite app_nil_r.
    - rewrite Forall_app, Forall_singleton in Hall. destruct Hall as [Hall Hd].
      destruct (IH Hall) as (s1 & calls & Hs1 & Hrel1 & Hon1 & Hpub & Hquiet). clear IH.
      rewrite run_snoc. cbn [fst snd] in *.
      destruct (handle_holds_relay cfg env msg (run_in_turn cfg deliveries w) deviceId s1 t0
                  Hcfg Hs1 Hrel1 Hon1 Hd) as (s2 & Hs2 & Hrel2 & Hon2).
      pose proof (handle_holds_quiet cfg env msg (run_in_turn cfg deliveries w) deviceId s1 t0
                    Hcfg Hs1 Hrel1 Hon1 Hd) as Hq.
      destruct (handle_published cfg env msg (run_in_turn cfg deliveries w))
        as (new & Hpub' & Hnew). rewrite Hnew in Hq.
      exists s2, (calls ++ new). rewrite Hpub', Hpub, app_assoc.
      repeat split; try done. by apply Forall_app. }
  rewrite (stored_relay_after _ _ _ Hs'), (stored_lastOn_after _ _ _ Hs'), Hon'.
  unfold calls_since. rewrite Hpub, drop_app_length. done.
Qed.

(** Zone A is on since [t_first]; within the next minute it reports a wet
    soil, zone B a dry one, and a message does not parse. *)
Lemma relay_is_held_through_min_on_witness :
  stored_relay "A"
    (run_in_turn default_config
       [(envAt (t_first + 1000) brokerUp, JsonObject (telemetryA (SoilNum 90%Q)));
        (envAt (t_first + 2000) brokerUp, JsonObject (telemetryB (SoilNum 5%Q)));
        (envAt (t_first + 3000) brokerUp, NotJson "?")]
       redelivery_w1) = true.
Proof.
  refine (proj1 (relay_is_held_through_min_on default_config
                   [(envAt (t_first + 1000) brokerUp, JsonObject (telemetryA (SoilNum 90%Q)));
                    (envAt (t_first + 2000) brokerUp, JsonObject (telemetryB (SoilNum 5%Q)));
                    (envAt (t_first + 3000) brokerUp, NotJson "?")]
                   redelivery_w1 "A"
                   (mkDeviceState true (Some t_first) (Some t_first) None (Some dryA))
                   t_first _ _ _ _ _)).
  - vm_compute. discriminate.
  - vm_compute. reflexivity.
  - reflexivity.
  - reflexivity.
  - repeat constructor; vm_compute; reflexivity.
Defined.

(** ** The summary of the automatic mode *)

Lemma count_total zoneStatus zones (a b c : nat) :
  let '(on, off, unknown) := fold_left (AutoMode.count zoneStatus) zones (a, b, c) in
  (on + off + unknown = a + b + c + length zones)%nat.
Proof.
  revert a b c. induction zones as [|z zones IH]; intros a b c; cbn [fold_left length].
  - lia.
  - unfold AutoMode.count at 2.
    destruct (IrrigationControl.s_relayState _) as [[|]|].
    + specialize (IH (S a) b c). destruct (fold_left _ _ _) as [[? ?] ?]. lia.
    + specialize (IH a (S b) c). destruct (fold_left _ _ _) as [[? ?] ?]. lia.
    + specialize (IH a b (S c)). destruct (fold_left _ _ _) as [[? ?] ?]. lia.
Qed.

(** X26. The summary of the automatic mode counts every zone once: the
    zones on, off and unknown add up to the total, whatever the status
    records hold, also for zones without a record and for zones listed
    twice. *)
Theorem summary_counts_every_zone (zones : list IrrigationControl.Zone)
    (zoneStatus : gmap string IrrigationControl.Status) :
  let s := AutoMode.summary zones zoneStatus in
  (AutoMode.on s + AutoMode.off s + AutoMode.unknown s = AutoMode.total s)%nat
  /\ AutoMode.total s = length zones.
Proof.
  cbn zeta. unfold AutoMode.summary.
  pose proof (count_total zoneStatus zones 0 0 0) as H.
  destruct (fold_left _ _ _) as [[on off] unknown]. cbn. split; [lia|done].
Qed.
